(** * Attachment reconciler of the teacher file manager (files.py, models.py)

    A shallow embedding of the Flask blueprint [files_bp]: the request
    handlers of src/files.py over the tables of src/models.py and the
    [uploads] directory.

    - Tables are lists of rows (row order is the rowid order that
      [.first()] and [.all()] see); the directory is a finite map from
      paths to contents.
    - A handler is a computation in a state-and-exception monad [M]: the
      state holds the committed tables, the tables as the SQLAlchemy
      session sees them, the session's pending unit of work, the files and
      a log of the effects attempted so far.
    - Every operation that writes (flush, commit, [file.save],
      [os.remove], [os.rename]) asks the environment [env] whether it
      raises; unique constraints and missing files raise on their own.
      SELECT statements are taken to succeed, except in the two read-only
      JSON handlers, whose whole [try] body is a query.
    - [run_request] wraps a handler the way Flask and Flask-SQLAlchemy do:
      an exception that leaves the handler becomes the 500 page, and the
      session is removed at teardown, which drops what was not committed. *)

From stdpp Require Import gmap strings list fin_maps sorting pretty.
From Stdlib Require Import Ascii String Lia.

Open Scope string_scope.

(** ** Python and SQL string primitives, on the UTF-8 bytes of a string *)

Module Py.

(** [str.lower] on ASCII letters. The handlers lower a name only to ask
    whether it ends in ".pdf", and no other letter is lowered to one of
    these four characters. *)
Definition ascii_lower (c : ascii) : ascii :=
  let n := nat_of_ascii c in
  if (65 <=? n)%nat && (n <=? 90)%nat then ascii_of_nat (n + 32) else c.

Fixpoint lower (s : string) : string :=
  match s with
  | EmptyString => EmptyString
  | String c s' => String (ascii_lower c) (lower s')
  end.

(** [s.endswith(suf)] *)
Fixpoint endswith (s suf : string) : bool :=
  if String.eqb s suf then true
  else match s with
       | EmptyString => false
       | String _ s' => endswith s' suf
       end.

(** Strings are the UTF-8 bytes of Python's [str]. [str.isspace], by the
    number of bytes of the character. One byte: TAB..CR, FS..US and the
    space. *)
Definition isspace (c : ascii) : bool :=
  let n := nat_of_ascii c in
  ((9 <=? n)%nat && (n <=? 13)%nat) || ((28 <=? n)%nat && (n <=? 32)%nat).

(** Two bytes: U+0085 (C2 85) and U+00A0 (C2 A0). *)
Definition isspace2 (c d : ascii) : bool :=
  let n := nat_of_ascii c in
  let m := nat_of_ascii d in
  (n =? 194)%nat && ((m =? 133)%nat || (m =? 160)%nat).

(** Three bytes: U+1680 (E1 9A 80), U+2000..U+200A (E2 80 80..8A), U+2028,
    U+2029, U+202F (E2 80 A8, A9, AF), U+205F (E2 81 9F) and U+3000
    (E3 80 80). *)
Definition isspace3 (c d e : ascii) : bool :=
  let n := nat_of_ascii c in
  let m := nat_of_ascii d in
  let k := nat_of_ascii e in
  ((n =? 225)%nat && (m =? 154)%nat && (k =? 128)%nat)
  || ((n =? 226)%nat && (m =? 128)%nat
      && (((128 <=? k)%nat && (k <=? 138)%nat)
          || (k =? 168)%nat || (k =? 169)%nat || (k =? 175)%nat))
  || ((n =? 226)%nat && (m =? 129)%nat && (k =? 159)%nat)
  || ((n =? 227)%nat && (m =? 128)%nat && (k =? 128)%nat).

(** The string starts with a white-space character. *)
Definition starts_with_space (s : string) : bool :=
  match s with
  | EmptyString => false
  | String c s1 =>
      isspace c
      || match s1 with
         | EmptyString => false
         | String d s2 =>
             isspace2 c d
             || match s2 with
                | EmptyString => false
                | String e _ => isspace3 c d e
                end
         end
  end.

Fixpoint lstrip (s : string) : string :=
  match s with
  | EmptyString => EmptyString
  | String c s1 =>
      if isspace c then lstrip s1
      else
        match s1 with
        | EmptyString => s
        | String d s2 =>
            if isspace2 c d then lstrip s2
            else
              match s2 with
              | EmptyString => s
              | String e s3 => if isspace3 c d e then lstrip s3 else s
              end
        end
  end.

(** A string of white space only is stripped to nothing; otherwise the
    first byte stays and the rest is stripped. *)
Fixpoint rstrip (s : string) : string :=
  match s with
  | EmptyString => EmptyString
  | String c s' =>
      if String.eqb (lstrip s) EmptyString then EmptyString else String c (rstrip s')
  end.

(** [s.strip()] *)
Definition strip (s : string) : string := rstrip (lstrip s).

(** [s.rfind(c)], [None] for -1. *)
Fixpoint rfind_from (c : ascii) (s : string) (i : nat) : option nat :=
  match s with
  | EmptyString => None
  | String d s' =>
      match rfind_from c s' (S i) with
      | Some j => Some j
      | None => if Ascii.eqb c d then Some i else None
      end
  end.

Definition rfind (c : ascii) (s : string) : option nat := rfind_from c s 0.

Fixpoint all_dots (s : string) : bool :=
  match s with
  | EmptyString => true
  | String c s' => Ascii.eqb c "."%char && all_dots s'
  end.

(** [os.path.splitext] (genericpath._splitext with sep "/" and extsep
    "."): split at the last dot when it lies in the last path component
    and is not one of its leading dots. *)
Definition splitext (p : string) : string * string :=
  match rfind "."%char p with
  | None => (p, EmptyString)
  | Some dot =>
      let start := match rfind "/"%char p with None => 0 | Some k => S k end in
      if (start <=? dot)%nat && negb (all_dots (substring start (dot - start) p))
      then (substring 0 dot p, substring dot (String.length p - dot) p)
      else (p, EmptyString)
  end.

(** [os.path.join(a, b)] on POSIX, for a non-empty [a] without a
    trailing separator. *)
Definition is_absolute (p : string) : bool :=
  match p with
  | String c _ => Ascii.eqb c "/"%char
  | EmptyString => false
  end.

Definition os_path_join (a b : string) : string :=
  if is_absolute b then b else a ++ "/" ++ b.

(** Truth value of a string: [bool(s)]. *)
Definition truthy (s : string) : bool := negb (String.eqb s EmptyString).

End Py.

Module Sql.

(** The LIKE operator of SQLite: [%] matches any run of characters, [_]
    any one character, and every other character matches itself up to
    ASCII case. There is no escape character unless one is declared. *)
Fixpoint like_chars (p : list ascii) : list ascii -> bool :=
  match p with
  | [] => fun s => match s with [] => true | _ => false end
  | c :: p' =>
      if Ascii.eqb c "%"%char then
        fix star (s : list ascii) : bool :=
          like_chars p' s || match s with [] => false | _ :: s' => star s' end
      else if Ascii.eqb c "_"%char then
        fun s => match s with [] => false | _ :: s' => like_chars p' s' end
      else
        fun s => match s with
                 | [] => false
                 | d :: s' => Ascii.eqb (Py.ascii_lower c) (Py.ascii_lower d) && like_chars p' s'
                 end
  end.

Definition like (text pattern : string) : bool :=
  like_chars (list_ascii_of_string pattern) (list_ascii_of_string text).

(** [column.ilike(pattern)], rendered as [lower(column) LIKE lower(pattern)]. *)
Definition ilike (text pattern : string) : bool :=
  like (Py.lower text) (Py.lower pattern).

End Sql.

(** ** models.py: the rows the file routes touch *)

Module Materia.
(** [class Materia]: [nombre] is unique. *)
Record t := mk { id : nat; nombre : string }.
End Materia.

Module Curso.
(** [class Curso]: ([docente_id], [materia_id], [periodo]) is unique
    ([_docente_materia_periodo_uc]). *)
Record t := mk { id : nat; docente_id : nat; materia_id : nat; periodo : string }.
End Curso.

Module Archivo.
(** [class Archivo]: [nombre] is unique; [fecha_subida] is a UTC
    timestamp, here a number of seconds. *)
Record t := mk { id : nat; nombre : string; fecha_subida : nat;
                 docente_id : nat; curso_id : nat }.

Definition with_nombre (n : string) (a : t) : t :=
  mk (id a) n (fecha_subida a) (docente_id a) (curso_id a).
End Archivo.

#[global] Instance Materia_eq_dec : EqDecision Materia.t.
Proof. solve_decision. Defined.
#[global] Instance Curso_eq_dec : EqDecision Curso.t.
Proof. solve_decision. Defined.
#[global] Instance Archivo_eq_dec : EqDecision Archivo.t.
Proof. solve_decision. Defined.

(** The three tables, each in rowid order. *)
Record DB := mkDB {
  materias : list Materia.t;
  cursos : list Curso.t;
  archivos : list Archivo.t
}.

(** [Model.query.filter_by(...).first()] *)
Definition first {A : Type} (p : A -> bool) (rows : list A) : option A :=
  List.find p rows.

(** The rowid SQLite gives to the next insert: one more than the largest. *)
Definition next_id (ids : list nat) : nat := S (list_max ids).

Definition by_nombre (n : string) (m : Materia.t) : bool :=
  String.eqb (Materia.nombre m) n.

Definition by_triple (d mid : nat) (p : string) (c : Curso.t) : bool :=
  Nat.eqb (Curso.docente_id c) d && Nat.eqb (Curso.materia_id c) mid
  && String.eqb (Curso.periodo c) p.

Definition by_archivo_nombre (n : string) (a : Archivo.t) : bool :=
  String.eqb (Archivo.nombre a) n.

Definition by_nombre_docente (n : string) (d : nat) (a : Archivo.t) : bool :=
  String.eqb (Archivo.nombre a) n && Nat.eqb (Archivo.docente_id a) d.

(** ** Exceptions, effects and the environment *)

Inductive exn :=
| IntegrityError        (* sqlalchemy.exc.IntegrityError *)
| OperationalError      (* any other database error *)
| FileNotFoundError     (* the path of os.remove / os.rename is missing *)
| OSError.              (* any other filesystem error *)

Definition is_integrity (e : exn) : bool :=
  match e with IntegrityError => true | _ => false end.

(** The lines the handlers print. *)
Inductive log_line :=
| UploadError (e : exn)              (* "Error al subir el archivo: {e}" *)
| DeleteError (e : exn)              (* "Error al eliminar archivo: {e}" *)
| RenameMissingFile (path : string)  (* "Advertencia: Archivo físico {old_path} no encontrado, ..." *)
| RenameCritical (e : exn)           (* "CRÍTICO: No se pudo revertir el renombrado físico: {e}" *)
| RenameDbError (e : exn)            (* "Error al actualizar la DB con el nuevo nombre: {e}" *)
| ListError (e : exn)                (* "Error al listar archivos: {e}" *)
| UploadDataError (e : exn).         (* "Error al cargar datos para subida: {e}" *)

Inductive effect :=
| Flush
| Commit
| Rollback
| Save (path : string)
| Remove (path : string)
| Rename (src dst : string).

(** One entry per effect attempted, with the exception it raised if any. *)
Inductive event :=
| Did (op : effect) (raised : option exn)
| Print (line : log_line).

Definition touches_files (ev : event) : bool :=
  match ev with
  | Did (Save _) _ | Did (Remove _) _ | Did (Rename _ _) _ => true
  | _ => false
  end.

(** What the outside world decides during one request. *)
Record env := mkEnv {
  utcnow : nat;                          (* datetime.utcnow() *)
  query_fault : option exn;              (* the query of a read-only handler *)
  flush_materia_fault : option exn;      (* files.py line 84 *)
  flush_curso_fault : option exn;        (* files.py line 100 *)
  save_fault : option exn;               (* file.save, line 107 *)
  commit_fault : option exn;             (* db.session.commit(), lines 117, 180, 241 *)
  remove_fault : option exn;             (* os.remove, lines 130, 184 *)
  rename_fault : option exn;             (* os.rename(old_path, new_path), line 230 *)
  rename_back_fault : option exn         (* os.rename(new_path, old_path), line 247 *)
}.

Definition calm (now : nat) : env :=
  mkEnv now None None None None None None None None.

(** ** The session's unit of work *)

Inductive pending :=
| InsMateria (m : Materia.t)
| InsCurso (c : Curso.t)
| InsArchivo (a : Archivo.t)
| DelArchivo (a : Archivo.t)
| SetArchivoNombre (a : Archivo.t) (n : string).

(** The table updates a flush sends. *)
Definition without_archivo (a : Archivo.t) (d : DB) : DB :=
  mkDB (materias d) (cursos d)
    (List.filter (fun b => negb (Nat.eqb (Archivo.id b) (Archivo.id a))) (archivos d)).

Definition with_archivo_renamed (a : Archivo.t) (n : string) (d : DB) : DB :=
  mkDB (materias d) (cursos d)
    (List.map (fun b => if Nat.eqb (Archivo.id b) (Archivo.id a)
                        then Archivo.with_nombre n b else b) (archivos d)).

(** One statement of a flush, with the unique constraints of models.py. *)
Definition apply_pending (p : pending) (d : DB) : exn + DB :=
  match p with
  | InsMateria m =>
      if existsb (by_nombre (Materia.nombre m)) (materias d) then inl IntegrityError
      else inr (mkDB (materias d ++ [m]) (cursos d) (archivos d))
  | InsCurso c =>
      if existsb (by_triple (Curso.docente_id c) (Curso.materia_id c) (Curso.periodo c)) (cursos d)
      then inl IntegrityError
      else inr (mkDB (materias d) (cursos d ++ [c]) (archivos d))
  | InsArchivo a =>
      if existsb (by_archivo_nombre (Archivo.nombre a)) (archivos d) then inl IntegrityError
      else inr (mkDB (materias d) (cursos d) (archivos d ++ [a]))
  | DelArchivo a => inr (without_archivo a d)
  | SetArchivoNombre a n =>
      if existsb (fun b => by_archivo_nombre n b && negb (Nat.eqb (Archivo.id b) (Archivo.id a)))
           (archivos d)
      then inl IntegrityError
      else inr (with_archivo_renamed a n d)
  end.

Fixpoint apply_all (ps : list pending) (d : DB) : exn + DB :=
  match ps with
  | [] => inr d
  | p :: ps' =>
      match apply_pending p d with
      | inl e => inl e
      | inr d' => apply_all ps' d'
      end
  end.

(** ** State and monad *)

Record St := mkSt {
  committed : DB;                 (* what the database holds *)
  session : DB;                   (* what this request's transaction sees *)
  unit_of_work : list pending;    (* added, deleted or dirty objects not yet flushed *)
  files : gmap string string;     (* path -> content *)
  log : list event                (* oldest first *)
}.

Inductive outcome (A : Type) :=
| Ret (a : A)
| Raise (e : exn).
Arguments Ret {A} a.
Arguments Raise {A} e.

Definition M (A : Type) : Type := St -> outcome A * St.

Definition ret {A} (a : A) : M A := fun s => (Ret a, s).

Definition bind {A B} (m : M A) (k : A -> M B) : M B :=
  fun s => match m s with
           | (Ret a, s') => k a s'
           | (Raise e, s') => (Raise e, s')
           end.

Definition raise {A} (e : exn) : M A := fun s => (Raise e, s).

(** [try: m except Exception as e: h e] *)
Definition try_except {A} (m : M A) (h : exn -> M A) : M A :=
  fun s => match m s with
           | (Ret a, s') => (Ret a, s')
           | (Raise e, s') => h e s'
           end.

Definition gets {A} (f : St -> A) : M A := fun s => (Ret (f s), s).

Definition emit (ev : event) : M unit :=
  fun s => (Ret tt, mkSt (committed s) (session s) (unit_of_work s) (files s) (log s ++ [ev])).

Notation "x <- m ;; k" := (bind m (fun x => k))
  (at level 100, m at next level, right associativity).
Notation "m ;;; k" := (bind m (fun _ => k))
  (at level 100, right associativity).

(** [print(...)] *)
Definition print (l : log_line) : M unit := emit (Print l).

(** [db.session.add(obj)], [db.session.delete(obj)] or an attribute
    assignment on a loaded object: recorded, sent at the next flush. *)
Definition stage (p : pending) : M unit :=
  fun s => (Ret tt, mkSt (committed s) (session s) (unit_of_work s ++ [p]) (files s) (log s)).

(** [db.session.flush()] *)
Definition flush_as (op : effect) (fault : option exn) : M unit :=
  fun s =>
    match fault with
    | Some e => (emit (Did op (Some e)) ;;; raise e) s
    | None =>
        match apply_all (unit_of_work s) (session s) with
        | inl e => (emit (Did op (Some e)) ;;; raise e) s
        | inr d => emit (Did op None)
                     (mkSt (committed s) d [] (files s) (log s))
        end
    end.

Definition flush (fault : option exn) : M unit := flush_as Flush fault.

(** [db.session.commit()]: flush, then make the transaction durable. *)
Definition commit (fault : option exn) : M unit :=
  flush_as Commit fault ;;;
  fun s => (Ret tt, mkSt (session s) (session s) [] (files s) (log s)).

(** [db.session.rollback()] *)
Definition rollback : M unit :=
  fun s => emit (Did Rollback None)
             (mkSt (committed s) (committed s) [] (files s) (log s)).

(** [file.save(path)]: creates or overwrites. *)
Definition file_save (fault : option exn) (content path : string) : M unit :=
  match fault with
  | Some e => emit (Did (Save path) (Some e)) ;;; raise e
  | None =>
      fun s => emit (Did (Save path) None)
                 (mkSt (committed s) (session s) (unit_of_work s)
                    (<[path := content]> (files s)) (log s))
  end.

(** [os.path.exists(path)] *)
Definition os_path_exists (path : string) : M bool :=
  gets (fun s => bool_decide (is_Some (files s !! path))).

(** [os.remove(path)] *)
Definition os_remove (fault : option exn) (path : string) : M unit :=
  fun s =>
    match files s !! path with
    | None => (emit (Did (Remove path) (Some FileNotFoundError)) ;;; raise FileNotFoundError) s
    | Some _ =>
        match fault with
        | Some e => (emit (Did (Remove path) (Some e)) ;;; raise e) s
        | None => emit (Did (Remove path) None)
                    (mkSt (committed s) (session s) (unit_of_work s)
                       (delete path (files s)) (log s))
        end
    end.

(** [os.rename(src, dst)] on POSIX: an existing [dst] is replaced. *)
Definition os_rename (fault : option exn) (src dst : string) : M unit :=
  fun s =>
    match files s !! src with
    | None => (emit (Did (Rename src dst) (Some FileNotFoundError)) ;;; raise FileNotFoundError) s
    | Some content =>
        match fault with
        | Some e => (emit (Did (Rename src dst) (Some e)) ;;; raise e) s
        | None => emit (Did (Rename src dst) None)
                    (mkSt (committed s) (session s) (unit_of_work s)
                       (<[dst := content]> (delete src (files s))) (log s))
        end
    end.

(** ** Requests and responses *)

(** werkzeug's [FileStorage]: the client's file name and the bytes. *)
Record FileStorage := mkFile { filename : string; stream : string }.

(** The multipart form of POST /files/upload_pdf. *)
Record upload_form := mkUpload {
  pdfFile : option FileStorage;          (* request.files.get("pdfFile") *)
  form_materia_name : option string;     (* request.form.get("materia_name") *)
  form_periodo : option string           (* request.form.get("periodo") *)
}.

(** The JSON object of PUT /files/rename. *)
Record rename_json := mkRename {
  old_name : option string;
  new_name : option string
}.

(** The texts the routes answer with. *)
Inductive message :=
| UploadMissing                    (* "Faltan el archivo, nombre de materia o periodo." *)
| UploadNotPdf                     (* "Formato de archivo no permitido. Solo se aceptan PDFs." *)
| UploadExists (name : string)     (* "El archivo '{filename}' ya existe en la base de datos. ..." *)
| UploadOk                         (* "Archivo PDF subido y registrado con éxito." *)
| UploadIntegrity (name : string)  (* "Error de integridad. El archivo '{filename}' ya existe ..." *)
| UploadUnexpected (e : exn)       (* "Ocurrió un error inesperado al procesar la subida: {e}" *)
| DeleteNotFound                   (* "Error: El archivo no se encontró o no tienes permiso ..." *)
| DeleteOk (name : string)         (* "Archivo '{filename}' eliminado con éxito." *)
| DeleteFailed (e : exn)           (* "Error al eliminar el archivo: {e}" *)
| RenameNamesRequired              (* "Se requiere el nombre antiguo y el nuevo nombre." *)
| RenameNotFound                   (* "Error: El archivo no se encontró en la base de datos o no tienes permiso." *)
| RenameTaken                      (* "Ya existe un registro en la DB con ese nuevo nombre." *)
| RenameFsError (e : exn)          (* "Error en el sistema de archivos: {e}" *)
| RenameOk (name : string)         (* "Archivo renombrado a '{final_new_name}' con éxito." *)
| RenameDbFailed (e : exn)         (* "Error al renombrar en la base de datos: {e}" *)
| ListFailed                       (* "Error al cargar la lista de archivos." *)
| UploadDataFailed.                (* "Error al cargar datos de materias/periodos." *)

(** One element of the "files" array of /files/list_files. *)
Record file_entry := mkEntry {
  entry_id : nat;
  entry_name : string;
  entry_course : string;
  entry_date : string
}.

Inductive body :=
| Text (m : message)
| NotFoundPage                       (* abort(404) *)
| InternalServerErrorPage            (* an exception nobody caught *)
| SendFile (content : string) (mimetype : option string) (as_attachment : bool)
| JsonFiles (files : list file_entry)
| JsonUploadData (materias periodos : list string)
| JsonError (m : message).

Record response := mkResponse { status : nat; payload : body }.

(** The persistent state between requests. *)
Record World := mkWorld {
  db : DB;
  uploads : gmap string string
}.

Definition UPLOAD_FOLDER : string := "uploads".

Definition default_str (o : option string) : string :=
  match o with Some s => s | None => EmptyString end.

(** The object [Materia(nombre=...)] handed to [db.session.add]; its [id]
    is read only after the flush, when it is the next rowid. *)
Definition add_materia (nombre : string) : M Materia.t :=
  ids <- gets (fun s => List.map Materia.id (materias (session s))) ;;
  let m := Materia.mk (next_id ids) nombre in
  stage (InsMateria m) ;;; ret m.

Definition add_curso (docente materia : nat) (periodo : string) : M Curso.t :=
  ids <- gets (fun s => List.map Curso.id (cursos (session s))) ;;
  let c := Curso.mk (next_id ids) docente materia periodo in
  stage (InsCurso c) ;;; ret c.

Definition add_archivo (nombre : string) (docente curso fecha : nat) : M Archivo.t :=
  ids <- gets (fun s => List.map Archivo.id (archivos (session s))) ;;
  let a := Archivo.mk (next_id ids) nombre fecha docente curso in
  stage (InsArchivo a) ;;; ret a.

(** flask's [send_from_directory(directory, name)]: the file if it is
    there, the 404 page if not. *)
Definition send_from_directory (directory name : string)
    (mimetype : option string) (as_attachment : bool) : M response :=
  content <- gets (fun s => files s !! Py.os_path_join directory name) ;;
  match content with
  | Some c => ret (mkResponse 200 (SendFile c mimetype as_attachment))
  | None => ret (mkResponse 404 NotFoundPage)
  end.

(** [archivo.curso] and [curso.materia]: the row the foreign key names. *)
Definition curso_of (d : DB) (a : Archivo.t) : option Curso.t :=
  first (fun c => Nat.eqb (Curso.id c) (Archivo.curso_id a)) (cursos d).

Definition materia_of (d : DB) (c : Curso.t) : option Materia.t :=
  first (fun m => Nat.eqb (Materia.id m) (Curso.materia_id c)) (materias d).

(** [.join(Curso).join(Materia)]: the inner join along both foreign keys. *)
Definition join_curso_materia (d : DB) (rows : list Archivo.t)
    : list (Archivo.t * Curso.t * Materia.t) :=
  List.flat_map (fun a =>
    List.flat_map (fun c =>
      List.map (fun m => (a, c, m))
        (List.filter (fun m => Nat.eqb (Materia.id m) (Curso.materia_id c)) (materias d)))
      (List.filter (fun c => Nat.eqb (Curso.id c) (Archivo.curso_id a)) (cursos d)))
    rows.

(** The filter of the search: file name, subject name or period. *)
Definition search_hit (term : string) (r : Archivo.t * Curso.t * Materia.t) : bool :=
  let '(a, c, m) := r in
  let pattern := "%" ++ term ++ "%" in
  Sql.ilike (Archivo.nombre a) pattern
  || Sql.ilike (Materia.nombre m) pattern
  || Sql.ilike (Curso.periodo c) pattern.

(** [Archivo.fecha_subida.desc()] *)
Definition newer_first (a b : Archivo.t) : Prop :=
  Archivo.fecha_subida b <= Archivo.fecha_subida a.

#[global] Instance newer_first_dec a b : Decision (newer_first a b).
Proof. unfold newer_first. apply _. Defined.

Definition order_by_fecha_desc (rows : list Archivo.t) : list Archivo.t :=
  merge_sort newer_first rows.

(** ** files.py: the handlers *)

Section Handlers.

(** werkzeug.utils.secure_filename and datetime.strftime with the format
    "%d/%m/%Y %H:%M" belong to the libraries; the handlers are verified
    for any such functions. *)
Variable secure_filename : string -> string.
Variable strftime : nat -> string.

(** The logged-in teacher, [current_user.id], and the environment. *)
Variable E : env.
Variable current_user : nat.

(** GET /files/data_for_upload *)
Definition data_for_upload : M response :=
  try_except
    (match query_fault E with Some e => raise e | None => ret tt end ;;;
     materias_nombres <- gets (fun s => remove_dups (List.map Materia.nombre (materias (session s)))) ;;
     periodos_unicos <- gets (fun s => remove_dups (List.map Curso.periodo (cursos (session s)))) ;;
     ret (mkResponse 200 (JsonUploadData materias_nombres periodos_unicos)))
    (fun e =>
       print (UploadDataError e) ;;;
       ret (mkResponse 500 (JsonError UploadDataFailed))).

(** Steps A and B of upload_pdf: find or create the subject, then the
    course of this teacher for it in this period. *)
Definition ensure_materia (materia_name : string) : M Materia.t :=
  found <- gets (fun s => first (by_nombre materia_name) (materias (session s))) ;;
  match found with
  | Some materia => ret materia
  | None =>
      materia <- add_materia materia_name ;;
      flush (flush_materia_fault E) ;;;
      ret materia
  end.

Definition ensure_curso (materia : Materia.t) (periodo : string) : M Curso.t :=
  found <- gets (fun s => first (by_triple current_user (Materia.id materia) periodo)
                            (cursos (session s))) ;;
  match found with
  | Some curso => ret curso
  | None =>
      curso <- add_curso current_user (Materia.id materia) periodo ;;
      flush (flush_curso_fault E) ;;;
      ret curso
  end.

(** The stored name: [secure_filename(f"{materia_name}_{periodo}_{filename_raw}.pdf")]. *)
Definition stored_name (materia_name periodo client_name : string) : string :=
  let filename_raw := fst (Py.splitext client_name) in
  secure_filename (materia_name ++ "_" ++ periodo ++ "_" ++ filename_raw ++ ".pdf").

(** POST /files/upload_pdf *)
Definition upload_pdf (req : upload_form) : M response :=
  let materia_name := Py.strip (default_str (form_materia_name req)) in
  let periodo := Py.strip (default_str (form_periodo req)) in
  match pdfFile req with
  | None => ret (mkResponse 400 (Text UploadMissing))
  | Some file =>
      if negb (Py.truthy (filename file)) || negb (Py.truthy materia_name)
         || negb (Py.truthy periodo)
      then ret (mkResponse 400 (Text UploadMissing))
      else if negb (Py.endswith (Py.lower (filename file)) ".pdf")
      then ret (mkResponse 400 (Text UploadNotPdf))
      else
        let name := stored_name materia_name periodo (filename file) in
        let filepath := Py.os_path_join UPLOAD_FOLDER name in
        try_except
          (materia <- ensure_materia materia_name ;;
           curso <- ensure_curso materia periodo ;;
           existing <- gets (fun s => first (by_archivo_nombre name) (archivos (session s))) ;;
           match existing with
           | Some _ => ret (mkResponse 409 (Text (UploadExists name)))
           | None =>
               file_save (save_fault E) (stream file) filepath ;;;
               add_archivo name current_user (Curso.id curso) (utcnow E) ;;;
               commit (commit_fault E) ;;;
               ret (mkResponse 200 (Text UploadOk))
           end)
          (fun e =>
             if is_integrity e then
               rollback ;;;
               ret (mkResponse 409 (Text (UploadIntegrity name)))
             else
               rollback ;;;
               print (UploadError e) ;;;
               there <- os_path_exists filepath ;;
               (if there then os_remove (remove_fault E) filepath else ret tt) ;;;
               ret (mkResponse 500 (Text (UploadUnexpected e))))
  end.

Definition owned_archivo (name : string) : M (option Archivo.t) :=
  gets (fun s => first (by_nombre_docente name current_user) (archivos (session s))).

(** GET /files/view/<filename> *)
Definition view_file (name : string) : M response :=
  archivo <- owned_archivo name ;;
  match archivo with
  | None => ret (mkResponse 404 NotFoundPage)
  | Some _ => send_from_directory UPLOAD_FOLDER name (Some "application/pdf") false
  end.

(** GET /files/downloads/<filename> *)
Definition download_file (name : string) : M response :=
  archivo <- owned_archivo name ;;
  match archivo with
  | None => ret (mkResponse 404 NotFoundPage)
  | Some _ => send_from_directory UPLOAD_FOLDER name None true
  end.

(** DELETE /files/delete/<filename> *)
Definition delete_file (name : string) : M response :=
  archivo_db <- owned_archivo name ;;
  match archivo_db with
  | None => ret (mkResponse 404 (Text DeleteNotFound))
  | Some archivo_db =>
      let filepath := Py.os_path_join UPLOAD_FOLDER name in
      try_except
        (stage (DelArchivo archivo_db) ;;;
         commit (commit_fault E) ;;;
         there <- os_path_exists filepath ;;
         (if there then os_remove (remove_fault E) filepath else ret tt) ;;;
         ret (mkResponse 200 (Text (DeleteOk name))))
        (fun e =>
           rollback ;;;
           print (DeleteError e) ;;;
           ret (mkResponse 500 (Text (DeleteFailed e))))
  end.

(** The new name after [secure_filename] and the forced extension. *)
Definition final_name (new_name_raw : string) : string :=
  let clean_new_name := secure_filename new_name_raw in
  if negb (Py.endswith (Py.lower clean_new_name) ".pdf")
  then clean_new_name ++ ".pdf"
  else clean_new_name.

(** PUT /files/rename *)
Definition rename_file (data : rename_json) : M response :=
  match old_name data, new_name data with
  | Some old, Some new_name_raw =>
      if negb (Py.truthy old) || negb (Py.truthy new_name_raw)
      then ret (mkResponse 400 (Text RenameNamesRequired))
      else
        let final_new_name := final_name new_name_raw in
        let old_path := Py.os_path_join UPLOAD_FOLDER old in
        let new_path := Py.os_path_join UPLOAD_FOLDER final_new_name in
        archivo_db <- owned_archivo old ;;
        match archivo_db with
        | None => ret (mkResponse 404 (Text RenameNotFound))
        | Some archivo_db =>
            taken <- gets (fun s => first (by_archivo_nombre final_new_name) (archivos (session s))) ;;
            match taken with
            | Some _ => ret (mkResponse 400 (Text RenameTaken))
            | None =>
                moved <- try_except
                  (there <- os_path_exists old_path ;;
                   (if there then os_rename (rename_fault E) old_path new_path
                    else print (RenameMissingFile old_path)) ;;;
                   ret (None : option exn))
                  (fun e => ret (Some e)) ;;
                match moved with
                | Some e => ret (mkResponse 500 (Text (RenameFsError e)))
                | None =>
                    try_except
                      (stage (SetArchivoNombre archivo_db final_new_name) ;;;
                       commit (commit_fault E) ;;;
                       ret (mkResponse 200 (Text (RenameOk final_new_name))))
                      (fun e =>
                         rollback ;;;
                         try_except
                           (os_rename (rename_back_fault E) new_path old_path)
                           (fun rollback_e => print (RenameCritical rollback_e)) ;;;
                         print (RenameDbError e) ;;;
                         ret (mkResponse 500 (Text (RenameDbFailed e))))
                end
            end
        end
  | _, _ => ret (mkResponse 400 (Text RenameNamesRequired))
  end.

(** The "course" column: subject and period, or "Sin Curso". *)
Definition course_label (d : DB) (archivo : Archivo.t) : string :=
  match curso_of d archivo with
  | Some curso =>
      match materia_of d curso with
      | Some materia => Materia.nombre materia ++ " (" ++ Curso.periodo curso ++ ")"
      | None => "Sin Curso"
      end
  | None => "Sin Curso"
  end.

Definition to_entry (d : DB) (archivo : Archivo.t) : file_entry :=
  mkEntry (Archivo.id archivo) (Archivo.nombre archivo) (course_label d archivo)
    (strftime (Archivo.fecha_subida archivo)).

(** The rows the query of list_files selects, before ordering. *)
Definition list_query (d : DB) (search_term : string) : list Archivo.t :=
  let query := List.filter (fun a => Nat.eqb (Archivo.docente_id a) current_user) (archivos d) in
  if Py.truthy search_term
  then List.map (fun r => fst (fst r))
         (List.filter (search_hit search_term) (join_curso_materia d query))
  else query.

(** GET /files/list_files?search=... *)
Definition list_files (search : option string) : M response :=
  let search_term := default_str search in
  try_except
    (match query_fault E with Some e => raise e | None => ret tt end ;;;
     d <- gets session ;;
     let rows := order_by_fecha_desc (list_query d search_term) in
     ret (mkResponse 200 (JsonFiles (List.map (to_entry d) rows))))
    (fun e =>
       print (ListError e) ;;;
       ret (mkResponse 500 (JsonError ListFailed))).

End Handlers.

(** ** One request, as Flask runs it *)

(** The handler starts on a fresh session over the committed tables; an
    exception that escapes it is answered with the 500 page; at teardown
    Flask-SQLAlchemy removes the session, so only what was committed
    stays. The result is the response, the world afterwards and the log. *)
Definition run_request (handler : M response) (w : World)
    : response * World * list event :=
  let s0 := mkSt (db w) (db w) [] (uploads w) [] in
  match handler s0 with
  | (Ret r, s) => (r, mkWorld (committed s) (files s), log s)
  | (Raise _, s) =>
      (mkResponse 500 InternalServerErrorPage, mkWorld (committed s) (files s), log s)
  end.

Definition response_of (r : response * World * list event) : response := fst (fst r).
Definition world_of (r : response * World * list event) : World := snd (fst r).
Definition log_of (r : response * World * list event) : list event := snd r.

(** The routes of the blueprint that answer with data, one request each. *)
Inductive request :=
| PostUploadPdf (form : upload_form)        (* POST /files/upload_pdf *)
| GetView (name : string)                   (* GET /files/view/<filename> *)
| GetDownload (name : string)               (* GET /files/downloads/<filename> *)
| DeleteFile (name : string)                (* DELETE /files/delete/<filename> *)
| PutRename (data : rename_json)            (* PUT /files/rename *)
| GetListFiles (search : option string)     (* GET /files/list_files *)
| GetDataForUpload.                         (* GET /files/data_for_upload *)

Definition route (secure_filename : string -> string) (strftime : nat -> string)
    (E : env) (current_user : nat) (rq : request) : M response :=
  match rq with
  | PostUploadPdf form => upload_pdf secure_filename E current_user form
  | GetView name => view_file current_user name
  | GetDownload name => download_file current_user name
  | DeleteFile name => delete_file E current_user name
  | PutRename data => rename_file secure_filename E current_user data
  | GetListFiles search => list_files strftime E current_user search
  | GetDataForUpload => data_for_upload E
  end.

(** The worlds the routes can produce from the empty database and
    directory, whatever the callers, the requests and the faults. *)
Inductive reachable (secure_filename : string -> string) (strftime : nat -> string)
    : World -> Prop :=
| reach_start : reachable secure_filename strftime (mkWorld (mkDB [] [] []) ∅)
| reach_request w E uid rq :
    reachable secure_filename strftime w ->
    reachable secure_filename strftime
      (world_of (run_request (route secure_filename strftime E uid rq) w)).

(** ** Notions the properties are stated with *)

(** The teacher [uid] owns an attachment called [name]. *)
Definition owns (d : DB) (uid : nat) (name : string) : Prop :=
  exists a, In a (archivos d) /\ Archivo.nombre a = name /\ Archivo.docente_id a = uid.

(** Some attachment, of any teacher, is called [name]. *)
Definition name_taken (d : DB) (name : string) : Prop :=
  exists a, In a (archivos d) /\ Archivo.nombre a = name.

(** Primary keys are unique and every foreign key of the file routes
    names a row: what the database holds between requests. *)
Record db_wf (d : DB) : Prop := mkWf {
  wf_materia_ids : NoDup (List.map Materia.id (materias d));
  wf_curso_ids : NoDup (List.map Curso.id (cursos d));
  wf_archivo_curso : forall a, In a (archivos d) -> exists c, curso_of d a = Some c;
  wf_curso_materia : forall c, In c (cursos d) -> exists m, materia_of d c = Some m
}.

(** [t] is a prefix of [s]; [t] occurs somewhere in [s]. *)
Fixpoint is_prefix (t s : list ascii) : bool :=
  match t, s with
  | [], _ => true
  | _ :: _, [] => false
  | c :: t', d :: s' => Ascii.eqb c d && is_prefix t' s'
  end.

Fixpoint has_infix (t s : list ascii) : bool :=
  is_prefix t s || match s with [] => false | _ :: s' => has_infix t s' end.

(** [text] contains [term] as a substring, letter case apart:
    [term.lower() in text.lower()]. *)
Definition icontains (text term : string) : bool :=
  has_infix (list_ascii_of_string (Py.lower term)) (list_ascii_of_string (Py.lower text)).



(** What the search is said to select: the name of the file, of its
    subject or its period contains the term. *)
Definition mentions (d : DB) (term : string) (a : Archivo.t) : bool :=
  match curso_of d a with
  | Some c =>
      match materia_of d c with
      | Some m =>
          icontains (Archivo.nombre a) term || icontains (Materia.nombre m) term
          || icontains (Curso.periodo c) term
      | None => false
      end
  | None => false
  end.


Definition owned_by (uid : nat) (a : Archivo.t) : bool :=
  Nat.eqb (Archivo.docente_id a) uid.

(** The form passes the two checks at the top of upload_pdf, with the
    stripped subject name and period it carries. *)
Definition upload_accepted (req : upload_form) (file : FileStorage)
    (materia_name periodo : string) : Prop :=
  pdfFile req = Some file
  /\ materia_name = Py.strip (default_str (form_materia_name req))
  /\ periodo = Py.strip (default_str (form_periodo req))
  /\ Py.truthy (filename file) = true
  /\ Py.truthy materia_name = true
  /\ Py.truthy periodo = true
  /\ Py.endswith (Py.lower (filename file)) ".pdf" = true.

(** The operation raises nothing, or the IntegrityError of a lost race. *)
Definition at_most_integrity (fault : option exn) : Prop :=
  forall e, fault = Some e -> e = IntegrityError.

(** Steps A and B of upload_pdf when no flush raises: the subject and the
    course they hand on, the tables of the session afterwards, and the
    flushes logged. *)
Definition the_materia (d : DB) (n : string) : Materia.t :=
  match first (by_nombre n) (materias d) with
  | Some m => m
  | None => Materia.mk (next_id (List.map Materia.id (materias d))) n
  end.

Definition with_materia (d : DB) (n : string) : DB :=
  match first (by_nombre n) (materias d) with
  | Some _ => d
  | None => mkDB (materias d ++ [the_materia d n]) (cursos d) (archivos d)
  end.

Definition materia_flushes (d : DB) (n : string) : list event :=
  match first (by_nombre n) (materias d) with
  | Some _ => []
  | None => [Did Flush None]
  end.

Definition the_curso (uid : nat) (d : DB) (m : Materia.t) (p : string) : Curso.t :=
  match first (by_triple uid (Materia.id m) p) (cursos d) with
  | Some c => c
  | None => Curso.mk (next_id (List.map Curso.id (cursos d))) uid (Materia.id m) p
  end.

Definition with_curso (uid : nat) (d : DB) (m : Materia.t) (p : string) : DB :=
  match first (by_triple uid (Materia.id m) p) (cursos d) with
  | Some _ => d
  | None => mkDB (materias d) (cursos d ++ [the_curso uid d m p]) (archivos d)
  end.

Definition curso_flushes (uid : nat) (d : DB) (m : Materia.t) (p : string) : list event :=
  match first (by_triple uid (Materia.id m) p) (cursos d) with
  | Some _ => []
  | None => [Did Flush None]
  end.

(** The tables and the log once both are resolved. *)
Definition resolved (uid : nat) (d : DB) (n p : string) : DB :=
  with_curso uid (with_materia d n) (the_materia d n) p.

Definition resolved_curso (uid : nat) (d : DB) (n p : string) : Curso.t :=
  the_curso uid (with_materia d n) (the_materia d n) p.

Definition resolve_flushes (uid : nat) (d : DB) (n p : string) : list event :=
  (materia_flushes d n ++ curso_flushes uid (with_materia d n) (the_materia d n) p)%list.

(** ** Concrete library functions and worlds for the examples *)

Module Werkzeug.

(** [str.split()] then ["_".join(...)]: runs of white space become one
    underscore, none at the ends. *)
Fixpoint join_words (s : string) (pending_gap started : bool) : string :=
  match s with
  | EmptyString => EmptyString
  | String c s' =>
      if Py.isspace c then join_words s' started started
      else if pending_gap then String "_"%char (String c (join_words s' false true))
      else String c (join_words s' false true)
  end.

(** [[A-Za-z0-9_.-]] *)
Definition allowed (c : ascii) : bool :=
  let n := nat_of_ascii c in
  ((65 <=? n)%nat && (n <=? 90)%nat) || ((97 <=? n)%nat && (n <=? 122)%nat)
  || ((48 <=? n)%nat && (n <=? 57)%nat)
  || Ascii.eqb c "_"%char || Ascii.eqb c "."%char || Ascii.eqb c "-"%char.

Fixpoint keep_allowed (s : string) : string :=
  match s with
  | EmptyString => EmptyString
  | String c s' => if allowed c then String c (keep_allowed s') else keep_allowed s'
  end.

Definition dot_or_underscore (c : ascii) : bool :=
  Ascii.eqb c "."%char || Ascii.eqb c "_"%char.

Fixpoint lstrip_chars (s : string) : string :=
  match s with
  | EmptyString => EmptyString
  | String c s' => if dot_or_underscore c then lstrip_chars s' else s
  end.

Fixpoint rstrip_chars (s : string) : string :=
  match s with
  | EmptyString => EmptyString
  | String c s' =>
      let r := rstrip_chars s' in
      if dot_or_underscore c && String.eqb r EmptyString then EmptyString else String c r
  end.

Fixpoint slashes_to_spaces (s : string) : string :=
  match s with
  | EmptyString => EmptyString
  | String c s' =>
      String (if Ascii.eqb c "/"%char then " "%char else c) (slashes_to_spaces s')
  end.

(** werkzeug.utils.secure_filename on POSIX, for ASCII input: path
    separators become spaces, white space runs become underscores, every
    character outside [A-Za-z0-9_.-] is dropped, and dots and underscores
    are stripped from both ends. *)
Definition secure_filename (name : string) : string :=
  rstrip_chars (lstrip_chars (keep_allowed (join_words (slashes_to_spaces name) false false))).

End Werkzeug.

(** The time stamp in decimal stands in for the formatted date. *)
Definition strftime_decimal (t : nat) : string := pretty t.

(** U+00A0, the no-break space, in UTF-8. *)
Definition nbsp : string := String "194"%char (String "160"%char EmptyString).

Definition empty_world : World := mkWorld (mkDB [] [] []) ∅.

(** Teacher 1 has uploaded notes.pdf for Algebra, 2024A, at time 10. *)
Definition algebra_world : World :=
  mkWorld
    (mkDB [Materia.mk 1 "Algebra"] [Curso.mk 1 1 1 "2024A"]
       [Archivo.mk 1 "Algebra_2024A_notes.pdf" 10 1 1])
    (<[ "uploads/Algebra_2024A_notes.pdf" := "%PDF-1" ]> ∅).

(** The same after teacher 1 renamed the file to x.pdf. *)
Definition renamed_world : World :=
  mkWorld
    (mkDB [Materia.mk 1 "Algebra"] [Curso.mk 1 1 1 "2024A"]
       [Archivo.mk 1 "x.pdf" 10 1 1])
    (<[ "uploads/x.pdf" := "%PDF-1" ]> ∅).

Definition notes_upload : upload_form :=
  mkUpload (Some (mkFile "notes.pdf" "%PDF-1")) (Some "Algebra") (Some "2024A").

Definition exam_upload : upload_form :=
  mkUpload (Some (mkFile "exam.pdf" "%PDF-2")) (Some "Algebra") (Some "2024A").

(** Environments: a concurrent request wins the race for the course or
    for the file name, so the flush or the commit raises IntegrityError;
    the database or the disk fails otherwise. *)
Definition course_race : env :=
  mkEnv 20 None None (Some IntegrityError) None None None None None.

Definition course_database_error : env :=
  mkEnv 20 None None (Some OperationalError) None None None None None.

Definition name_race : env :=
  mkEnv 20 None None None None (Some IntegrityError) None None None.

Definition database_down : env :=
  mkEnv 20 None None None None (Some OperationalError) None None None.

Definition disk_error : env :=
  mkEnv 20 None None None None None (Some OSError) None None.

Definition database_down_disk_error : env :=
  mkEnv 20 None None None None (Some OperationalError) None None (Some OSError).

(** ** models.py: careers and teachers *)

Module Carrera.
(** [class Carrera] *)
Record t := mk { id : nat; nombre : string; campus : string }.
End Carrera.

Module Docente.
(** [class Docente]: [numero_nomina] and [email] are unique. *)
Record t := mk {
  id : nat;
  numero_nomina : string;
  nombre : string;
  campus : string;
  email : string;
  password : string;        (* the bcrypt hash *)
  carrera_id : nat
}.
End Docente.

(** The tables of the account routes. *)
Record Accounts := mkAccounts {
  carreras : list Carrera.t;
  docentes : list Docente.t
}.

(** ** app.py: the careers seeded at start-up *)

Definition seed_rows : list (string * string) :=
  [ ("Licenciatura en Nutrición", "Juchitán");
    ("Licenciatura en Enfermería", "Juchitán");
    ("Lic. en Ciencias Empresariales", "Ixtepec");
    ("Lic. en Derecho", "Ixtepec");
    ("Ing. en Desarrollo de Software y Sistemas Inteligentes", "Ixtepec");
    ("Ing. en Logística y Cadenas de suministros", "Ixtepec");
    ("Lic. en Comercio Exterior y Gestión de Aduanas", "Ixtepec");
    ("Lic. en Administración Pública", "Ixtepec");
    ("Lic. en Informática", "Ixtepec");
    ("Ingeniería Química", "Tehuantepec");
    ("Ingeniería de Petróleos", "Tehuantepec");
    ("Ingeniería en Diseño", "Tehuantepec");
    ("Ingeniería en Computación", "Tehuantepec");
    ("Ingeniería Industrial", "Tehuantepec");
    ("Licenciatura en Matemáticas Aplicadas", "Tehuantepec");
    ("Ingeniería en Energías Renovables", "Tehuantepec") ].

(** [db.session.add(Carrera(...))] for each row in turn, on a table whose
    largest id is [last]. *)
Fixpoint add_carreras (last : nat) (rows : list (string * string)) : list Carrera.t :=
  match rows with
  | [] => []
  | (nombre, campus) :: rest => Carrera.mk (S last) nombre campus :: add_carreras (S last) rest
  end.

(** The database part of [create_app]: the careers are inserted when the
    table is empty, and only then. *)
Definition create_app (acc : Accounts) : Accounts :=
  if Nat.eqb (List.length (carreras acc)) 0
  then mkAccounts (add_carreras 0 seed_rows) (docentes acc)
  else acc.

(** ** auth.py: the account routes *)

Inductive method := GET | POST.

(** The pages the account routes answer with. *)
Inductive page :=
| RenderTemplate (template : string)
| RedirectTo (endpoint : string)
| BadRequestPage                    (* a missing key of request.form[...] *)
| ServerErrorPage.                  (* an exception nobody caught *)

(** The messages they flash. *)
Inductive flash :=
| FlashWelcome (first_name : string)    (* "Bienvenido, {nombre}." *)
| FlashBadCredentials                   (* "Credenciales inválidas. ..." *)
| FlashRequired                         (* "Todos los campos marcados son obligatorios." *)
| FlashPasswordMismatch                 (* "Las contraseñas no coinciden. Por favor, revísalas." *)
| FlashBadCarrera                       (* "Selección de carrera inválida. Inténtalo de nuevo." *)
| FlashRegistered                       (* "Registro exitoso. ¡Ahora puedes iniciar sesión!" *)
| FlashNominaTaken                      (* "Error: El número de nómina ya está registrado." *)
| FlashEmailTaken                       (* "Error: El correo electrónico ya está registrado." *)
| FlashUnknownIntegrity                 (* "Ocurrió un error de integridad de datos desconocido." *)
| FlashRegisterUnexpected (e : exn)     (* "Ocurrió un error inesperado al registrar: {e}" *)
| FlashLoggedOut                        (* "Has cerrado sesión exitosamente." *)
| FlashPasswordUnchanged                (* "Las contraseñas no coinciden. La contraseña no ha sido cambiada." *)
| FlashProfileUpdated                   (* "Perfil actualizado exitosamente." *)
| FlashNominaOfOther                    (* "... nómina ya está registrado por otro usuario." *)
| FlashEmailOfOther                     (* "... correo electrónico ya está registrado por otro usuario." *)
| FlashEditUnexpected (e : exn)         (* "Ocurrió un error inesperado al actualizar el perfil: {e}" *)
| FlashPleaseLogIn.                     (* flask-login's message of login_required *)

(** The account tables together with the visitor's session cookie: the id
    Flask-Login keeps in it, if any. *)
Record Visit := mkVisit {
  accounts : Accounts;
  user_id : option nat
}.

Record auth_reply := mkReply {
  shown : page;
  flashed : list flash;
  after : Visit
}.

(** [request.form.get(key)] and [request.form.get(key, "")]. *)
Definition form_get (form : gmap string string) (key : string) : option string := form !! key.

Definition form_get_or_empty (form : gmap string string) (key : string) : string :=
  default_str (form !! key).

(** Truth value of an optional string: neither [None] nor empty. *)
Definition given (o : option string) : bool :=
  match o with
  | Some s => Py.truthy s
  | None => false
  end.

(** [load_user]: [Docente.query.get(int(user_id))]. *)
Definition load_user (acc : Accounts) (uid : nat) : option Docente.t :=
  first (fun d => Nat.eqb (Docente.id d) uid) (docentes acc).

(** Flask-Login's [current_user]: the row the cookie names, if it exists. *)
Definition current_user_of (v : Visit) : option Docente.t :=
  match user_id v with
  | Some uid => load_user (accounts v) uid
  | None => None
  end.

(** The decorator [@login_required]: an anonymous visitor is sent to
    [login_manager.login_view]. *)
Definition login_required {A : Type} (v : Visit) (unauthorized : A) (view : Docente.t -> A) : A :=
  match current_user_of v with
  | Some docente => view docente
  | None => unauthorized
  end.

(** [nombre.split()[0]]: the first word, [None] for the IndexError. *)
Fixpoint first_word_from (s : string) : string :=
  match s with
  | EmptyString => EmptyString
  | String c s' =>
      if Py.starts_with_space s then EmptyString else String c (first_word_from s')
  end.

Definition first_word (s : string) : option string :=
  match Py.lstrip s with
  | EmptyString => None
  | w => Some (first_word_from w)
  end.

(** A row with that payroll number, that email; the same held by a row
    other than [self]. *)
Definition by_nomina (n : string) (d : Docente.t) : bool := String.eqb (Docente.numero_nomina d) n.
Definition by_email (e : string) (d : Docente.t) : bool := String.eqb (Docente.email d) e.

Definition clashes_with_other (self : Docente.t) (d : Docente.t) : bool :=
  negb (Nat.eqb (Docente.id d) (Docente.id self))
  && (by_nomina (Docente.numero_nomina self) d || by_email (Docente.email self) d).

(** The integers SQLite stores: 64 bits, signed. *)
Definition sqlite_integer (z : Z) : bool := ((- 2 ^ 63 <=? z) && (z <? 2 ^ 63))%Z.

(** The ways out of the career check of register and edit_profile. *)
Inductive carrera_try :=
| CarreraFound (carrera : Carrera.t)   (* the row exists *)
| CarreraRejected                      (* ValueError or TypeError, caught *)
| CarreraOverflow.                     (* OverflowError, not caught: the 500 page *)

(** The career the check found, if it found one. *)
Definition found_carrera (t : carrera_try) : option Carrera.t :=
  match t with
  | CarreraFound carrera => Some carrera
  | _ => None
  end.

(** [db.session.add(nuevo_docente); db.session.commit()] with the unique
    constraints of the table. *)
Definition commit_new_docente (fault : option exn) (nuevo : Docente.t) (acc : Accounts)
    : exn + Accounts :=
  match fault with
  | Some e => inl e
  | None =>
      if existsb (by_nomina (Docente.numero_nomina nuevo)) (docentes acc)
         || existsb (by_email (Docente.email nuevo)) (docentes acc)
      then inl IntegrityError
      else inr (mkAccounts (carreras acc) (docentes acc ++ [nuevo]))
  end.

(** [db.session.commit()] after the attributes of the loaded row were
    assigned: the row with that id is replaced. *)
Definition commit_docente (fault : option exn) (changed : Docente.t) (acc : Accounts)
    : exn + Accounts :=
  match fault with
  | Some e => inl e
  | None =>
      if existsb (clashes_with_other changed) (docentes acc)
      then inl IntegrityError
      else inr (mkAccounts (carreras acc)
                  (List.map (fun d => if Nat.eqb (Docente.id d) (Docente.id changed)
                                      then changed else d) (docentes acc)))
  end.

Section Auth.

(** flask_bcrypt: [generate_password_hash] draws a salt, here an argument;
    [check_password_hash(hash, password)]. Python's [int] on a string,
    [None] for the ValueError. *)
Variable generate_password_hash : string -> string -> string.
Variable check_password_hash : string -> string -> bool.
Variable int : string -> option Z.

Variable E : env.
Variable salt : string.

(** The try block of "ROBUSTEZ 3": [int(carrera_id)], then
    [Carrera.query.get(carrera_id_int)]. A string that is no integer and
    an id without a row end in the ValueError the handler catches. An
    integer outside [sqlite_integer] makes sqlite3 raise OverflowError
    when the query binds it, which the handler does not catch. *)
Definition valid_carrera (acc : Accounts) (carrera_id : string) : carrera_try :=
  match int carrera_id with
  | None => CarreraRejected
  | Some z =>
      if sqlite_integer z then
        match first (fun c => Z.eqb (Z.of_nat (Carrera.id c)) z) (carreras acc) with
        | Some carrera => CarreraFound carrera
        | None => CarreraRejected
        end
      else CarreraOverflow
  end.

(** /auth/login *)
Definition login (m : method) (form : gmap string string) (v : Visit) : auth_reply :=
  match current_user_of v with
  | Some _ => mkReply (RedirectTo "dashboard.home") [] v
  | None =>
      match m with
      | GET => mkReply (RenderTemplate "login.html") [] v
      | POST =>
          match form !! "email", form !! "password" with
          | Some email, Some password =>
              let user := first (by_email email) (docentes (accounts v)) in
              match user with
              | Some user =>
                  if check_password_hash (Docente.password user) password then
                    let logged := mkVisit (accounts v) (Some (Docente.id user)) in
                    match first_word (Docente.nombre user) with
                    | Some first_name =>
                        mkReply (RedirectTo "dashboard.home") [FlashWelcome first_name] logged
                    | None => mkReply ServerErrorPage [] logged
                    end
                  else mkReply (RenderTemplate "login.html") [FlashBadCredentials] v
              | None => mkReply (RenderTemplate "login.html") [FlashBadCredentials] v
              end
          | _, _ => mkReply BadRequestPage [] v
          end
      end
  end.

(** The except clause for IntegrityError of register: which unique column
    is already there. *)
Definition register_conflict (acc : Accounts) (numero_nomina email : string) : flash :=
  if existsb (by_nomina numero_nomina) (docentes acc) then FlashNominaTaken
  else if existsb (by_email email) (docentes acc) then FlashEmailTaken
  else FlashUnknownIntegrity.

(** /auth/register *)
Definition register (m : method) (form : gmap string string) (v : Visit) : auth_reply :=
  let again fl := mkReply (RenderTemplate "register.html") fl v in
  match m with
  | GET => again []
  | POST =>
      let numero_nomina := Py.strip (form_get_or_empty form "numero_nomina") in
      let nombre := Py.strip (form_get_or_empty form "nombre") in
      let campus := form_get form "campus" in
      let carrera_id := form_get form "carrera_id" in
      let email := Py.strip (form_get_or_empty form "email") in
      let password := form_get form "password" in
      let confirm_password := form_get form "confirm_password" in
      if negb (Py.truthy numero_nomina && Py.truthy nombre && given campus && given carrera_id
               && Py.truthy email && given password && given confirm_password)
      then again [FlashRequired]
      else if negb (String.eqb (default_str password) (default_str confirm_password))
      then again [FlashPasswordMismatch]
      else
        match valid_carrera (accounts v) (default_str carrera_id) with
        | CarreraRejected => again [FlashBadCarrera]
        | CarreraOverflow => mkReply ServerErrorPage [] v
        | CarreraFound carrera =>
            let hashed_password := generate_password_hash salt (default_str password) in
            let nuevo_docente :=
              Docente.mk (next_id (List.map Docente.id (docentes (accounts v))))
                numero_nomina nombre (default_str campus) email hashed_password
                (Carrera.id carrera) in
            match commit_new_docente (commit_fault E) nuevo_docente (accounts v) with
            | inr acc' =>
                mkReply (RedirectTo "auth.login") [FlashRegistered] (mkVisit acc' (user_id v))
            | inl e =>
                if is_integrity e
                then again [register_conflict (accounts v) numero_nomina email]
                else again [FlashRegisterUnexpected e]
            end
        end
  end.

(** /auth/logout *)
Definition logout (v : Visit) : auth_reply :=
  login_required v
    (mkReply (RedirectTo "auth.login") [FlashPleaseLogIn] v)
    (fun _ => mkReply (RedirectTo "auth.login") [FlashLoggedOut] (mkVisit (accounts v) None)).

(** The except clause for IntegrityError of edit_profile: the column that
    another teacher holds. *)
Definition edit_conflict (acc : Accounts) (docente : Docente.t) (numero_nomina email : string)
    : flash :=
  match first (by_nomina numero_nomina) (docentes acc), first (by_email email) (docentes acc) with
  | Some q_nomina, q_email =>
      if negb (Nat.eqb (Docente.id q_nomina) (Docente.id docente)) then FlashNominaOfOther
      else match q_email with
           | Some q_email =>
               if negb (Nat.eqb (Docente.id q_email) (Docente.id docente))
               then FlashEmailOfOther else FlashUnknownIntegrity
           | None => FlashUnknownIntegrity
           end
  | None, Some q_email =>
      if negb (Nat.eqb (Docente.id q_email) (Docente.id docente))
      then FlashEmailOfOther else FlashUnknownIntegrity
  | None, None => FlashUnknownIntegrity
  end.

(** /auth/edit_profile *)
Definition edit_profile (m : method) (form : gmap string string) (v : Visit) : auth_reply :=
  login_required v
    (mkReply (RedirectTo "auth.login") [FlashPleaseLogIn] v)
    (fun docente =>
       let again fl := mkReply (RenderTemplate "edit_profile.html") fl v in
       match m with
       | GET => again []
       | POST =>
           let numero_nomina := Py.strip (form_get_or_empty form "numero_nomina") in
           let nombre := Py.strip (form_get_or_empty form "nombre") in
           let campus := form_get form "campus" in
           let carrera_id_str := form_get form "carrera_id" in
           let email := Py.strip (form_get_or_empty form "email") in
           let password := form_get form "password" in
           let confirm_password := form_get form "confirm_password" in
           if negb (Py.truthy numero_nomina && Py.truthy nombre && given campus
                    && given carrera_id_str && Py.truthy email)
           then again [FlashRequired]
           else if (given password || given confirm_password)
                   && negb (bool_decide (password = confirm_password))
           then again [FlashPasswordUnchanged]
           else
             match valid_carrera (accounts v) (default_str carrera_id_str) with
             | CarreraRejected => again [FlashBadCarrera]
             | CarreraOverflow => mkReply ServerErrorPage [] v
             | CarreraFound carrera =>
                 let new_password :=
                   if given password && bool_decide (password = confirm_password)
                   then generate_password_hash salt (default_str password)
                   else Docente.password docente in
                 let changed :=
                   Docente.mk (Docente.id docente) numero_nomina nombre (default_str campus)
                     email new_password (Carrera.id carrera) in
                 match commit_docente (commit_fault E) changed (accounts v) with
                 | inr acc' =>
                     mkReply (RedirectTo "dashboard.home") [FlashProfileUpdated]
                       (mkVisit acc' (user_id v))
                 | inl e =>
                     if is_integrity e
                     then again [edit_conflict (accounts v) docente numero_nomina email]
                     else again [FlashEditUnexpected e]
                 end
             end
       end).

(** dashboard.py: both pages sit behind [@login_required]. *)
Definition home (v : Visit) : page :=
  login_required v (RedirectTo "auth.login") (fun _ => RenderTemplate "dashboard.html").

Definition reports (v : Visit) : page :=
  login_required v (RedirectTo "auth.login") (fun _ => RenderTemplate "reports.html").

End Auth.

(** A request to a data route of files.py by a visitor: [@login_required]
    first, then the handler with [current_user.id]. [None] is the redirect
    to the login page. *)
Definition files_request (secure_filename : string -> string) (strftime : nat -> string)
    (E : env) (v : Visit) (rq : request) (w : World)
    : option (response * World * list event) :=
  login_required v None
    (fun docente =>
       Some (run_request (route secure_filename strftime E (Docente.id docente) rq) w)).

(** ** Notions for the properties of whole routes *)

(** The form passes both checks at the top of upload_pdf. *)
Definition upload_form_ok (req : upload_form) : bool :=
  match pdfFile req with
  | None => false
  | Some f =>
      Py.truthy (filename f)
      && Py.truthy (Py.strip (default_str (form_materia_name req)))
      && Py.truthy (Py.strip (default_str (form_periodo req)))
      && Py.endswith (Py.lower (filename f)) ".pdf"
  end.

(** The stored name and the bytes of an upload. *)
Definition upload_name (secure_filename : string -> string) (req : upload_form) : string :=
  match pdfFile req with
  | Some f =>
      stored_name secure_filename (Py.strip (default_str (form_materia_name req)))
        (Py.strip (default_str (form_periodo req))) (filename f)
  | None => EmptyString
  end.

Definition upload_content (req : upload_form) : string :=
  match pdfFile req with
  | Some f => stream f
  | None => EmptyString
  end.

(** The row and the tables a committed upload leaves. *)
Definition uploaded_row (secure_filename : string -> string) (E : env) (uid : nat)
    (req : upload_form) (d : DB) : Archivo.t :=
  Archivo.mk (next_id (List.map Archivo.id (archivos d))) (upload_name secure_filename req)
    (utcnow E) uid
    (Curso.id (resolved_curso uid d (Py.strip (default_str (form_materia_name req)))
                 (Py.strip (default_str (form_periodo req))))).

Definition uploaded_db (secure_filename : string -> string) (E : env) (uid : nat)
    (req : upload_form) (d : DB) : DB :=
  let r := resolved uid d (Py.strip (default_str (form_materia_name req)))
             (Py.strip (default_str (form_periodo req))) in
  mkDB (materias r) (cursos r) (archivos d ++ [uploaded_row secure_filename E uid req d]).

(** The final name a rename request asks for, and the name it renames. *)
Definition rename_target (secure_filename : string -> string) (data : rename_json) : string :=
  final_name secure_filename (default_str (new_name data)).

Definition rename_source (data : rename_json) : string := default_str (old_name data).

(** The keys models.py declares unique are unique: attachment ids and
    names, subject names, and the (teacher, subject, period) of courses. *)
Definition curso_key (c : Curso.t) : nat * nat * string :=
  (Curso.docente_id c, Curso.materia_id c, Curso.periodo c).

Record db_unique (d : DB) : Prop := mkUnique {
  unique_archivo_ids : NoDup (List.map Archivo.id (archivos d));
  unique_archivo_nombres : NoDup (List.map Archivo.nombre (archivos d));
  unique_materia_nombres : NoDup (List.map Materia.nombre (materias d));
  unique_curso_keys : NoDup (List.map curso_key (cursos d))
}.

(** One row of the attachments table after a rename of [a] to [n]; the
    columns a rename never assigns. *)
Definition renamed_row (a : Archivo.t) (n : string) (b : Archivo.t) : Archivo.t :=
  if Nat.eqb (Archivo.id b) (Archivo.id a) then Archivo.with_nombre n b else b.

Definition archivo_fixed (a : Archivo.t) : nat * nat * nat * nat :=
  (Archivo.id a, Archivo.fecha_subida a, Archivo.docente_id a, Archivo.curso_id a).

(** The routes that only read. *)
Definition reads_only (rq : request) : bool :=
  match rq with
  | GetView _ | GetDownload _ | GetListFiles _ | GetDataForUpload => true
  | _ => false
  end.

(** The entry is an effect on the database or the directory. *)
Definition is_effect (ev : event) : bool :=
  match ev with
  | Did _ _ => true
  | Print _ => false
  end.

(** ** Notions for the properties of the account routes *)

(** The columns models.py declares unique on teachers are unique. *)
Record accounts_unique (acc : Accounts) : Prop := mkAccountsUnique {
  unique_docente_ids : NoDup (List.map Docente.id (docentes acc));
  unique_nominas : NoDup (List.map Docente.numero_nomina (docentes acc));
  unique_emails : NoDup (List.map Docente.email (docentes acc))
}.

Definition register_form_valid (int : string -> option Z) (form : gmap string string)
    (acc : Accounts) : bool :=
  Py.truthy (Py.strip (form_get_or_empty form "numero_nomina"))
  && Py.truthy (Py.strip (form_get_or_empty form "nombre"))
  && given (form_get form "campus") && given (form_get form "carrera_id")
  && Py.truthy (Py.strip (form_get_or_empty form "email"))
  && given (form_get form "password") && given (form_get form "confirm_password")
  && String.eqb (default_str (form_get form "password"))
       (default_str (form_get form "confirm_password"))
  && bool_decide (is_Some (found_carrera
                             (valid_carrera int acc (default_str (form_get form "carrera_id"))))).

(** The row [commit_docente] puts in place of a row, and the row
    edit_profile assigns: the password changes only when one is given and
    confirmed. *)
Definition replaced_row (changed : Docente.t) (d : Docente.t) : Docente.t :=
  if Nat.eqb (Docente.id d) (Docente.id changed) then changed else d.

Definition edited_password (gen : string -> string -> string) (salt : string)
    (form : gmap string string) (docente : Docente.t) : string :=
  if given (form_get form "password")
     && bool_decide (form_get form "password" = form_get form "confirm_password")
  then gen salt (default_str (form_get form "password"))
  else Docente.password docente.

Definition edited_row (gen : string -> string -> string) (salt : string)
    (form : gmap string string) (docente : Docente.t) (carrera : Carrera.t) : Docente.t :=
  Docente.mk (Docente.id docente) (Py.strip (form_get_or_empty form "numero_nomina"))
    (Py.strip (form_get_or_empty form "nombre")) (default_str (form_get form "campus"))
    (Py.strip (form_get_or_empty form "email")) (edited_password gen salt form docente)
    (Carrera.id carrera).



(** ** Concrete accounts for the examples *)

(** Stand-ins for flask_bcrypt and for Python's [int] in the examples: the
    hash is the salt, a dollar sign and the password; [int] reads a run of
    decimal digits. *)
Definition plain_hash (salt password : string) : string := salt ++ "$" ++ password.

Definition plain_check (hash password : string) : bool :=
  String.eqb hash (plain_hash "salt" password).

Fixpoint digits_value (acc : Z) (s : string) : option Z :=
  match s with
  | EmptyString => Some acc
  | String c s' =>
      let n := nat_of_ascii c in
      if (48 <=? n)%nat && (n <=? 57)%nat
      then digits_value (10 * acc + Z.of_nat (n - 48)) s'
      else None
  end.

Definition int_of_digits (s : string) : option Z :=
  match s with
  | EmptyString => None
  | _ => digits_value 0 s
  end.

(** The tables after start-up, a registration form, and the visit of the
    teacher it registers. *)
Definition seeded : Accounts := create_app (mkAccounts [] []).

Definition ana_form : gmap string string :=
  list_to_map
    [ ("numero_nomina", " 1001 "); ("nombre", "Ana Ruiz"); ("campus", "Ixtepec");
      ("carrera_id", "5"); ("email", "ana@unistmo.mx" ++ nbsp);
      ("password", "secret"); ("confirm_password", "secret") ].

Definition ana_login_form : gmap string string :=
  list_to_map [ ("email", "ana@unistmo.mx"); ("password", "secret") ].

Definition ana : Docente.t :=
  Docente.mk 1 "1001" "Ana Ruiz" "Ixtepec" "ana@unistmo.mx" "salt$secret" 5.

Definition ana_registered : Visit := mkVisit (mkAccounts (carreras seeded) [ana]) None.

(** A second teacher, who asks for the email of the first. *)
Definition luz : Docente.t :=
  Docente.mk 2 "1002" "Luz Mar" "Ixtepec" "luz@unistmo.mx" "salt$other" 4.


Definition ana_and_luz (who : option nat) : Visit :=
  mkVisit (mkAccounts (carreras seeded) [ana; luz]) who.

(** The second teacher moves to an email nobody has. *)
Definition luz_new_email : gmap string string :=
  list_to_map
    [ ("numero_nomina", "1002"); ("nombre", "Luz Mar"); ("campus", "Ixtepec");
      ("carrera_id", "4"); ("email", "luz.mar@unistmo.mx") ].

(** The registration form of the first teacher with the career id 2^63. *)
Definition overflow_form : gmap string string :=
  <["carrera_id" := "9223372036854775808"]> ana_form.

(** An upload whose subject starts with a no-break space, and one whose
    subject is nothing else. *)
Definition padded_subject_upload : upload_form :=
  mkUpload (Some (mkFile "exam.pdf" "%PDF-2")) (Some (nbsp ++ "Algebra")) (Some "2024A").

Definition blank_subject_upload : upload_form :=
  mkUpload (Some (mkFile "notes.pdf" "%PDF-1")) (Some nbsp) (Some "2024A").

(** * Properties *)

(** ** The string primitives on examples *)

Example lower_pdf : Py.lower "Notes.PDF" = "notes.pdf".
Proof. reflexivity. Qed.
Example endswith_pdf : Py.endswith "notes.pdf" ".pdf" = true.
Proof. reflexivity. Qed.
Example endswith_txt : Py.endswith "notes.txt" ".pdf" = false.
Proof. reflexivity. Qed.
Example strip_spaces : Py.strip "  Algebra I " = "Algebra I".
Proof. reflexivity. Qed.
Example strip_no_break_space : Py.strip (nbsp ++ " Algebra I" ++ nbsp ++ " ") = "Algebra I".
Proof. reflexivity. Qed.
Example strip_only_no_break_space : Py.strip nbsp = "".
Proof. reflexivity. Qed.
Example strip_keeps_inner : Py.strip ("Algebra" ++ nbsp ++ "I") = "Algebra" ++ nbsp ++ "I".
Proof. reflexivity. Qed.
Example strip_keeps_accent : Py.strip " Nutrición " = "Nutrición".
Proof. reflexivity. Qed.
Example first_word_no_break_space : first_word ("Ana" ++ nbsp ++ "Ruiz") = Some "Ana".
Proof. reflexivity. Qed.
Example splitext_pdf : Py.splitext "my.notes.pdf" = ("my.notes", ".pdf").
Proof. reflexivity. Qed.
Example splitext_hidden : Py.splitext ".pdf" = (".pdf", "").
Proof. reflexivity. Qed.
Example join_uploads : Py.os_path_join "uploads" "a.pdf" = "uploads/a.pdf".
Proof. reflexivity. Qed.
Example ilike_sub : Sql.ilike "Algebra_2024A_notes.pdf" "%NOTES%" = true.
Proof. reflexivity. Qed.
Example ilike_any_char : Sql.ilike "x.pdf" "%_%" = true.
Proof. reflexivity. Qed.
Example ilike_none : Sql.ilike "x.pdf" "%y%" = false.
Proof. reflexivity. Qed.
Example icontains_sub : icontains "Algebra_2024A_notes.pdf" "NOTES" = true.
Proof. reflexivity. Qed.
Example secure_safe_name :
  Werkzeug.secure_filename "Algebra_2024A_notes.pdf" = "Algebra_2024A_notes.pdf".
Proof. reflexivity. Qed.
Example secure_spaces :
  Werkzeug.secure_filename "Algebra I_2024 A_my notes.pdf" = "Algebra_I_2024_A_my_notes.pdf".
Proof. reflexivity. Qed.
Example secure_traversal :
  Werkzeug.secure_filename "../../etc/passwd" = "etc_passwd".
Proof. reflexivity. Qed.
Example stored_name_notes :
  stored_name Werkzeug.secure_filename "Algebra" "2024A" "notes.pdf" = "Algebra_2024A_notes.pdf".
Proof. reflexivity. Qed.
Example final_name_forced : final_name Werkzeug.secure_filename "x" = "x.pdf".
Proof. reflexivity. Qed.
Example final_name_kept : final_name Werkzeug.secure_filename "y.PDF" = "y.PDF".
Proof. reflexivity. Qed.

(** ** LIKE against a pattern without wildcards in the middle *)





Lemma lower_app s t : Py.lower (s ++ t) = Py.lower s ++ Py.lower t.
Proof. induction s as [|c s IH]; simpl; [reflexivity | now rewrite IH]. Qed.









(** ** Running the monad *)

Arguments Py.os_path_join : simpl never.

Ltac unfold_m :=
  unfold run_request, response_of, world_of, log_of,
    owned_archivo, send_from_directory, add_materia, add_curso, add_archivo,
    commit, flush, flush_as, rollback, file_save, os_path_exists, os_remove, os_rename,
    print, stage, try_except, bind, ret, raise, gets, emit in *.

(** Case analysis on every test a handler makes along its run. *)
Ltac split_match :=
  match goal with
  | |- context [match ?x with _ => _ end] =>
      lazymatch x with
      | context [match _ with _ => _ end] => fail
      | _ => destruct x eqn:?
      end
  end.

Ltac all_paths := repeat (cbn; try split_match).

Lemma first_None_existsb {A} (p : A -> bool) (l : list A) :
  first p l = None -> existsb p l = false.
Proof.
  unfold first. induction l as [|x l IH]; simpl; [reflexivity|].
  destruct (p x); [discriminate | exact IH].
Qed.

Lemma first_Some_In {A} (p : A -> bool) (l : list A) (a : A) :
  first p l = Some a -> In a l /\ p a = true.
Proof. apply find_some. Qed.

Lemma first_None_all {A} (p : A -> bool) (l : list A) :
  first p l = None <-> forall a, In a l -> p a = false.
Proof.
  split; [apply find_none|].
  unfold first. induction l as [|x l IH]; simpl; intros H; [reflexivity|].
  rewrite (H x (or_introl eq_refl)). apply IH. intros a Ha. apply H. now right.
Qed.

Lemma NoDup_map_inj_in {A B} (f : A -> B) (l : list A) (x y : A) :
  NoDup (List.map f l) -> In x l -> In y l -> f x = f y -> x = y.
Proof.
  induction l as [|z l IH]; simpl; intros H Hx Hy Hf; [contradiction|].
  apply NoDup_cons in H as [Hz H].
  destruct Hx as [<-|Hx], Hy as [<-|Hy]; auto.
  - exfalso. apply Hz. apply list_elem_of_In. rewrite Hf. now apply in_map.
  - exfalso. apply Hz. apply list_elem_of_In. rewrite <- Hf. now apply in_map.
Qed.

Lemma by_nombre_docente_spec n d a :
  by_nombre_docente n d a = true <-> Archivo.nombre a = n /\ Archivo.docente_id a = d.
Proof.
  unfold by_nombre_docente. rewrite andb_true_iff, String.eqb_eq, Nat.eqb_eq. tauto.
Qed.

Lemma by_archivo_nombre_spec n a :
  by_archivo_nombre n a = true <-> Archivo.nombre a = n.
Proof. unfold by_archivo_nombre. apply String.eqb_eq. Qed.

(** [.first()] finds an owned attachment exactly when there is one. *)
Lemma owns_first d uid name :
  owns d uid name <-> exists a, first (by_nombre_docente name uid) (archivos d) = Some a.
Proof.
  split.
  - intros (a & Hin & Hn & Hd).
    destruct (first (by_nombre_docente name uid) (archivos d)) as [b|] eqn:Hf; [eauto|].
    rewrite first_None_all in Hf. specialize (Hf a Hin).
    assert (by_nombre_docente name uid a = true) by (apply by_nombre_docente_spec; tauto).
    congruence.
  - intros (a & Hf). apply first_Some_In in Hf as [Hin Hp].
    apply by_nombre_docente_spec in Hp. exists a. tauto.
Qed.

Lemma name_taken_first d name :
  name_taken d name <-> exists a, first (by_archivo_nombre name) (archivos d) = Some a.
Proof.
  split.
  - intros (a & Hin & Hn).
    destruct (first (by_archivo_nombre name) (archivos d)) as [b|] eqn:Hf; [eauto|].
    rewrite first_None_all in Hf. specialize (Hf a Hin).
    assert (by_archivo_nombre name a = true) by (now apply by_archivo_nombre_spec).
    congruence.
  - intros (a & Hf). apply first_Some_In in Hf as [Hin Hp].
    apply by_archivo_nombre_spec in Hp. exists a. tauto.
Qed.

Lemma world_eta w : mkWorld (db w) (uploads w) = w.
Proof. destruct w; reflexivity. Qed.

(** ** Delete *)

Section Delete.

Variables (E : env) (uid : nat) (name : string) (w : World).

Let path := Py.os_path_join UPLOAD_FOLDER name.

Lemma delete_not_owned :
  first (by_nombre_docente name uid) (archivos (db w)) = None ->
  run_request (delete_file E uid name) w
  = (mkResponse 404 (Text DeleteNotFound), w, []).
Proof.
  intros H. unfold delete_file. unfold_m. cbn. rewrite H. cbn.
  rewrite world_eta. reflexivity.
Qed.

Lemma delete_commit_fails a e :
  first (by_nombre_docente name uid) (archivos (db w)) = Some a ->
  commit_fault E = Some e ->
  run_request (delete_file E uid name) w
  = (mkResponse 500 (Text (DeleteFailed e)), w,
     [Did Commit (Some e); Did Rollback None; Print (DeleteError e)]).
Proof.
  intros H He. unfold delete_file. unfold_m. cbn. rewrite H, He. cbn.
  rewrite world_eta. reflexivity.
Qed.

Lemma delete_file_absent a :
  first (by_nombre_docente name uid) (archivos (db w)) = Some a ->
  commit_fault E = None ->
  uploads w !! path = None ->
  run_request (delete_file E uid name) w
  = (mkResponse 200 (Text (DeleteOk name)),
     mkWorld (without_archivo a (db w)) (uploads w),
     [Did Commit None]).
Proof.
  intros H He Hf. unfold delete_file. unfold_m. cbn. rewrite H, He. cbn.
  fold path. rewrite Hf. reflexivity.
Qed.

Lemma delete_file_removed a content :
  first (by_nombre_docente name uid) (archivos (db w)) = Some a ->
  commit_fault E = None ->
  uploads w !! path = Some content ->
  remove_fault E = None ->
  run_request (delete_file E uid name) w
  = (mkResponse 200 (Text (DeleteOk name)),
     mkWorld (without_archivo a (db w)) (delete path (uploads w)),
     [Did Commit None; Did (Remove path) None]).
Proof.
  intros H He Hf Hr. unfold delete_file. unfold_m. cbn. rewrite H, He. cbn.
  fold path. rewrite Hf. cbn. rewrite Hf, Hr. reflexivity.
Qed.

Lemma delete_remove_fails a content e :
  first (by_nombre_docente name uid) (archivos (db w)) = Some a ->
  commit_fault E = None ->
  uploads w !! path = Some content ->
  remove_fault E = Some e ->
  run_request (delete_file E uid name) w
  = (mkResponse 500 (Text (DeleteFailed e)),
     mkWorld (without_archivo a (db w)) (uploads w),
     [Did Commit None; Did (Remove path) (Some e); Did Rollback None;
      Print (DeleteError e)]).
Proof.
  intros H He Hf Hr. unfold delete_file. unfold_m. cbn. rewrite H, He. cbn.
  fold path. rewrite Hf. cbn. rewrite Hf, Hr. reflexivity.
Qed.

End Delete.

(** Two ways a log keeps the files behind the commit: it starts with the
    successful commit, or it never touches a file. *)
Lemma commit_heads_log (rest pre post : list event) (ev : event) :
  Did Commit None :: rest = (pre ++ ev :: post)%list ->
  touches_files ev = true ->
  In (Did Commit None) pre.
Proof.
  destruct pre as [|x pre]; simpl; intros H Ht.
  - injection H as <- _. discriminate.
  - injection H as <- _. now left.
Qed.

Lemma quiet_log (l pre post : list event) (ev : event) :
  forallb (fun x => negb (touches_files x)) l = true ->
  l = (pre ++ ev :: post)%list ->
  touches_files ev = true ->
  False.
Proof.
  intros Hq -> Ht. rewrite forallb_app in Hq. simpl in Hq. rewrite Ht in Hq.
  simpl in Hq. rewrite andb_false_r in Hq. discriminate.
Qed.

Lemma without_archivo_gone a d b :
  In b (archivos (without_archivo a d)) -> Archivo.id b <> Archivo.id a.
Proof.
  unfold without_archivo. simpl. rewrite filter_In. intros [_ H] Heq.
  rewrite Heq, Nat.eqb_refl in H. discriminate.
Qed.

(** C4. Delete: when the caller owns no attachment of that name the answer
    is 404 and nothing changes. Otherwise the commit of the row's deletion
    is the first effect, and no file is touched unless it succeeded: a
    failing commit answers 500 and leaves the database and the directory
    as they were; after a successful one the row is gone from the
    database; a file that is already absent is not an error (200, the
    directory untouched); and whenever the file is present before and
    absent afterwards, the row found is no longer in the table. *)
Theorem delete_file_database_first (E : env) (uid : nat) (name : string) (w : World) :
  let r := run_request (delete_file E uid name) w in
  let path := Py.os_path_join UPLOAD_FOLDER name in
  (~ owns (db w) uid name ->
   response_of r = mkResponse 404 (Text DeleteNotFound) /\ world_of r = w /\ log_of r = [])
  /\
  (owns (db w) uid name ->
   exists a,
     first (by_nombre_docente name uid) (archivos (db w)) = Some a
     /\ (exists rest, log_of r = Did Commit (commit_fault E) :: rest)
     /\ (forall pre ev post,
           log_of r = (pre ++ ev :: post)%list -> touches_files ev = true ->
           In (Did Commit None) pre)
     /\ (forall e, commit_fault E = Some e ->
           response_of r = mkResponse 500 (Text (DeleteFailed e)) /\ world_of r = w)
     /\ (commit_fault E = None -> db (world_of r) = without_archivo a (db w))
     /\ (commit_fault E = None -> uploads w !! path = None ->
           response_of r = mkResponse 200 (Text (DeleteOk name))
           /\ uploads (world_of r) = uploads w)
     /\ (is_Some (uploads w !! path) -> uploads (world_of r) !! path = None ->
           forall b, In b (archivos (db (world_of r))) -> Archivo.id b <> Archivo.id a)).
Proof.
  intros r path. split.
  - intros Hno.
    assert (Hf : first (by_nombre_docente name uid) (archivos (db w)) = None).
    { destruct (first _ _) as [a|] eqn:Hf; [|reflexivity].
      exfalso. apply Hno. apply owns_first. eauto. }
    subst r. rewrite (delete_not_owned E uid name w Hf). now cbn.
  - intros Hown. apply owns_first in Hown as [a Hf]. exists a. split; [exact Hf|].
    subst r. destruct (commit_fault E) as [e|] eqn:Hc.
    + rewrite (delete_commit_fails E uid name w a e Hf Hc). cbn.
      split; [eauto|].
      split.
      { intros pre ev post Hl Ht. exfalso.
        eapply quiet_log; [|exact Hl|exact Ht]. reflexivity. }
      split; [intros e' He'; injection He' as <-; now split|].
      split; [discriminate|].
      split; [discriminate|].
      intros [c Hc'] Hn. fold path in Hc'. congruence.
    + destruct (uploads w !! path) as [content|] eqn:Hp.
      * destruct (remove_fault E) as [e|] eqn:Hr.
        -- rewrite (delete_remove_fails E uid name w a content e Hf Hc Hp Hr). cbn.
           split; [eauto|].
           split; [intros pre ev post; apply commit_heads_log|].
           split; [discriminate|].
           split; [reflexivity|].
           split; [discriminate|].
           intros _ Hn. congruence.
        -- rewrite (delete_file_removed E uid name w a content Hf Hc Hp Hr). cbn.
           split; [eauto|].
           split; [intros pre ev post; apply commit_heads_log|].
           split; [discriminate|].
           split; [reflexivity|].
           split; [discriminate|].
           intros _ _ b. apply without_archivo_gone.
      * rewrite (delete_file_absent E uid name w a Hf Hc Hp). cbn.
        split; [eauto|].
        split; [intros pre ev post; apply commit_heads_log|].
        split; [discriminate|].
        split; [reflexivity|].
        split; [now split|].
        intros [c Hc'] _. discriminate.
Qed.

(** C9. Delete: when the deletion has been committed and removing the file
    then raises, the answer is 500, the rollback in the handler restores
    nothing (the row stays deleted), the file is still there, and so the
    state is not the one before the request. *)
Theorem delete_file_500_after_commit (E : env) (uid : nat) (name : string) (w : World)
    (a : Archivo.t) (content : string) (e : exn) :
  first (by_nombre_docente name uid) (archivos (db w)) = Some a ->
  uploads w !! Py.os_path_join UPLOAD_FOLDER name = Some content ->
  commit_fault E = None ->
  remove_fault E = Some e ->
  let r := run_request (delete_file E uid name) w in
  response_of r = mkResponse 500 (Text (DeleteFailed e))
  /\ db (world_of r) = without_archivo a (db w)
  /\ ~ In a (archivos (db (world_of r)))
  /\ uploads (world_of r) = uploads w
  /\ log_of r = [Did Commit None;
                 Did (Remove (Py.os_path_join UPLOAD_FOLDER name)) (Some e);
                 Did Rollback None; Print (DeleteError e)]
  /\ world_of r <> w.
Proof.
  intros Hf Hp Hc Hr r. subst r.
  rewrite (delete_remove_fails E uid name w a content e Hf Hc Hp Hr). cbn.
  assert (Hgone : ~ In a (archivos (without_archivo a (db w)))).
  { intros Hin. now apply without_archivo_gone in Hin. }
  repeat split; try assumption.
  intros Heq. apply Hgone. apply first_Some_In in Hf as [Hin _].
  replace (without_archivo a (db w)) with (db w); [exact Hin|].
  apply (f_equal db) in Heq. cbn in Heq. symmetry. exact Heq.
Qed.

(** ** Upload *)

Lemma st_eta s :
  unit_of_work s = [] ->
  mkSt (committed s) (session s) [] (files s) (log s) = s.
Proof. destruct s; simpl; intros ->; reflexivity. Qed.

Lemma ensure_materia_quiet E n s :
  unit_of_work s = [] ->
  flush_materia_fault E = None ->
  ensure_materia E n s
  = (Ret (the_materia (session s) n),
     mkSt (committed s) (with_materia (session s) n) [] (files s)
       (log s ++ materia_flushes (session s) n)).
Proof.
  intros Hu Hf. unfold ensure_materia, with_materia, the_materia, materia_flushes.
  unfold_m. cbn.
  destruct (first (by_nombre n) (materias (session s))) as [m|] eqn:Hfind; cbn.
  - rewrite app_nil_r, st_eta by exact Hu. reflexivity.
  - rewrite Hf, Hu. cbn. rewrite (first_None_existsb _ _ Hfind). reflexivity.
Qed.

Lemma ensure_curso_quiet E uid m p s :
  unit_of_work s = [] ->
  flush_curso_fault E = None ->
  ensure_curso E uid m p s
  = (Ret (the_curso uid (session s) m p),
     mkSt (committed s) (with_curso uid (session s) m p) [] (files s)
       (log s ++ curso_flushes uid (session s) m p)).
Proof.
  intros Hu Hf. unfold ensure_curso, with_curso, the_curso, curso_flushes.
  unfold_m. cbn.
  destruct (first (by_triple uid (Materia.id m) p) (cursos (session s))) as [c|] eqn:Hfind; cbn.
  - rewrite app_nil_r, st_eta by exact Hu. reflexivity.
  - rewrite Hf, Hu. cbn. rewrite (first_None_existsb _ _ Hfind). reflexivity.
Qed.

(** The flush of a new course that raises [e]. *)
Lemma ensure_curso_raises E uid m p s e :
  unit_of_work s = [] ->
  first (by_triple uid (Materia.id m) p) (cursos (session s)) = None ->
  flush_curso_fault E = Some e ->
  ensure_curso E uid m p s
  = (Raise e,
     mkSt (committed s) (session s)
       [InsCurso (Curso.mk (next_id (List.map Curso.id (cursos (session s)))) uid (Materia.id m) p)]
       (files s) (log s ++ [Did Flush (Some e)])).
Proof.
  intros Hu Hfind Hf. unfold ensure_curso. unfold_m. cbn.
  rewrite Hfind, Hf, Hu. reflexivity.
Qed.

Lemma with_materia_archivos d n : archivos (with_materia d n) = archivos d.
Proof. unfold with_materia. now destruct (first _ _). Qed.

Lemma with_curso_archivos uid d m p : archivos (with_curso uid d m p) = archivos d.
Proof. unfold with_curso. now destruct (first _ _). Qed.

Lemma resolved_archivos uid d n p : archivos (resolved uid d n p) = archivos d.
Proof. unfold resolved. now rewrite with_curso_archivos, with_materia_archivos. Qed.

Lemma resolve_flushes_quiet uid d n p :
  forallb (fun x => negb (touches_files x)) (resolve_flushes uid d n p) = true.
Proof.
  unfold resolve_flushes, materia_flushes, curso_flushes.
  destruct (first _ _); destruct (first _ _); reflexivity.
Qed.

Arguments ensure_materia : simpl never.
Arguments ensure_curso : simpl never.
Arguments Py.truthy : simpl never.
Arguments Py.endswith : simpl never.
Arguments Py.lower : simpl never.
Arguments Py.strip : simpl never.
Arguments stored_name : simpl never.

Section Upload.

Variable secure_filename : string -> string.
Variables (E : env) (uid : nat) (req : upload_form) (w : World).
Variables (file : FileStorage) (materia_name periodo : string).

Hypothesis Haccepted : upload_accepted req file materia_name periodo.

Let name := stored_name secure_filename materia_name periodo (filename file).
Let path := Py.os_path_join UPLOAD_FOLDER name.

Ltac enter_upload :=
  destruct Haccepted as (Hfile & Hm & Hp & Ht1 & Ht2 & Ht3 & Hext);
  unfold upload_pdf; rewrite Hfile, <- Hm, <- Hp, Ht1, Ht2, Ht3, Hext; cbn [negb orb];
  unfold run_request, try_except, bind.

Ltac resolve_both :=
  rewrite ensure_materia_quiet by auto; cbn [session committed files log unit_of_work];
  rewrite ensure_curso_quiet by auto; cbn [session committed files log unit_of_work];
  unfold gets at 1; cbn [session];
  rewrite with_curso_archivos, with_materia_archivos; fold name.

(** Step C finds the name: 409 and nothing kept. *)
Lemma upload_name_taken b :
  flush_materia_fault E = None ->
  flush_curso_fault E = None ->
  first (by_archivo_nombre name) (archivos (db w)) = Some b ->
  run_request (upload_pdf secure_filename E uid req) w
  = (mkResponse 409 (Text (UploadExists name)), w,
     resolve_flushes uid (db w) materia_name periodo).
Proof.
  intros Hmateria Hcurso Hb. enter_upload. resolve_both. rewrite Hb.
  unfold ret. cbn. rewrite world_eta. reflexivity.
Qed.

(** Everything succeeds: the file is written, then the row committed. *)
Lemma upload_succeeds :
  flush_materia_fault E = None ->
  flush_curso_fault E = None ->
  first (by_archivo_nombre name) (archivos (db w)) = None ->
  save_fault E = None ->
  commit_fault E = None ->
  let d := resolved uid (db w) materia_name periodo in
  let curso := resolved_curso uid (db w) materia_name periodo in
  let archivo := Archivo.mk (next_id (List.map Archivo.id (archivos (db w)))) name
                   (utcnow E) uid (Curso.id curso) in
  run_request (upload_pdf secure_filename E uid req) w
  = (mkResponse 200 (Text UploadOk),
     mkWorld (mkDB (materias d) (cursos d) (archivos (db w) ++ [archivo]))
       (<[path := stream file]> (uploads w)),
     (resolve_flushes uid (db w) materia_name periodo
        ++ [Did (Save path) None; Did Commit None])%list).
Proof.
  intros Hmateria Hcurso Hfree Hsave Hcommit d curso archivo.
  enter_upload. resolve_both. rewrite Hfree.
  unfold_m. rewrite Hsave, Hcommit. cbn.
  rewrite with_curso_archivos, with_materia_archivos.
  fold name. rewrite (first_None_existsb _ _ Hfree). cbn.
  unfold resolve_flushes. rewrite <- !app_assoc. reflexivity.
Qed.

(** The commit raises IntegrityError after the file was written: the
    first except clause answers 409 and the file stays. *)
Lemma upload_commit_integrity :
  flush_materia_fault E = None ->
  flush_curso_fault E = None ->
  first (by_archivo_nombre name) (archivos (db w)) = None ->
  save_fault E = None ->
  commit_fault E = Some IntegrityError ->
  run_request (upload_pdf secure_filename E uid req) w
  = (mkResponse 409 (Text (UploadIntegrity name)),
     mkWorld (db w) (<[path := stream file]> (uploads w)),
     (resolve_flushes uid (db w) materia_name periodo
        ++ [Did (Save path) None; Did Commit (Some IntegrityError);
            Did Rollback None])%list).
Proof.
  intros Hmateria Hcurso Hfree Hsave Hcommit.
  enter_upload. resolve_both. rewrite Hfree.
  unfold_m. rewrite Hsave, Hcommit. cbn.
  unfold resolve_flushes. rewrite <- !app_assoc. reflexivity.
Qed.

(** The commit raises anything else: the second except clause removes the
    file it finds at the path. *)
Lemma upload_commit_other_error e :
  flush_materia_fault E = None ->
  flush_curso_fault E = None ->
  first (by_archivo_nombre name) (archivos (db w)) = None ->
  save_fault E = None ->
  commit_fault E = Some e ->
  is_integrity e = false ->
  remove_fault E = None ->
  run_request (upload_pdf secure_filename E uid req) w
  = (mkResponse 500 (Text (UploadUnexpected e)),
     mkWorld (db w) (delete path (<[path := stream file]> (uploads w))),
     (resolve_flushes uid (db w) materia_name periodo
        ++ [Did (Save path) None; Did Commit (Some e); Did Rollback None;
            Print (UploadError e); Did (Remove path) None])%list).
Proof.
  intros Hmateria Hcurso Hfree Hsave Hcommit He Hremove.
  enter_upload. resolve_both. rewrite Hfree.
  unfold_m. rewrite Hsave, Hcommit. cbn. rewrite He. cbn.
  fold path. rewrite lookup_insert_eq. cbn. rewrite lookup_insert_eq, Hremove. cbn.
  unfold resolve_flushes. rewrite <- !app_assoc. reflexivity.
Qed.

(** The flush of the new course raises IntegrityError: 409, nothing kept. *)
Lemma upload_curso_conflict :
  flush_materia_fault E = None ->
  first (by_triple uid (Materia.id (the_materia (db w) materia_name)) periodo)
    (cursos (with_materia (db w) materia_name)) = None ->
  flush_curso_fault E = Some IntegrityError ->
  run_request (upload_pdf secure_filename E uid req) w
  = (mkResponse 409 (Text (UploadIntegrity name)), w,
     (materia_flushes (db w) materia_name
        ++ [Did Flush (Some IntegrityError); Did Rollback None])%list).
Proof.
  intros Hmateria Hnone Hcurso. enter_upload.
  rewrite ensure_materia_quiet by auto. cbn [session committed files log unit_of_work].
  rewrite (ensure_curso_raises E uid _ periodo _ IntegrityError) by auto.
  unfold_m. cbn. rewrite world_eta, <- app_assoc. reflexivity.
Qed.

End Upload.

(** C3. Upload: when the stored name derived from an accepted form is the
    name of an attachment of any teacher, and finding or creating the
    subject and the course raises at most the IntegrityError of a lost
    race, the request is answered 409, no file operation is attempted, and
    afterwards the database, subjects and courses included, and the
    directory are what they were. When nothing is raised the answer is the
    409 of step C. *)
Theorem upload_existing_name_rejected (secure_filename : string -> string)
    (E : env) (uid : nat) (req : upload_form) (w : World)
    (file : FileStorage) (materia_name periodo : string) :
  upload_accepted req file materia_name periodo ->
  at_most_integrity (flush_materia_fault E) ->
  at_most_integrity (flush_curso_fault E) ->
  name_taken (db w) (stored_name secure_filename materia_name periodo (filename file)) ->
  let name := stored_name secure_filename materia_name periodo (filename file) in
  let r := run_request (upload_pdf secure_filename E uid req) w in
  status (response_of r) = 409
  /\ world_of r = w
  /\ forallb (fun ev => negb (touches_files ev)) (log_of r) = true
  /\ (flush_materia_fault E = None -> flush_curso_fault E = None ->
      response_of r = mkResponse 409 (Text (UploadExists name))).
Proof.
  intros Hacc Hm Hc Htaken name r. apply name_taken_first in Htaken as [b Hb].
  fold name in Hb.
  split; [|split; [|split]].
  4: { intros Hm0 Hc0. subst r.
       now rewrite (upload_name_taken _ _ _ _ _ _ _ _ Hacc b Hm0 Hc0 Hb). }
  all: subst r; destruct Hacc as (Hfile & Hn & Hp & Ht1 & Ht2 & Ht3 & Hext).
  all: unfold upload_pdf; rewrite Hfile, <- Hn, <- Hp, Ht1, Ht2, Ht3, Hext; cbn [negb orb].
  all: fold name; unfold ensure_materia, ensure_curso; unfold_m; unfold first in *.
  all: destruct (flush_materia_fault E) as [e1|]; [rewrite (Hm e1 eq_refl)|].
  all: destruct (flush_curso_fault E) as [e2|]; [rewrite (Hc e2 eq_refl)|].
  all: all_paths; try congruence; try reflexivity; try apply world_eta.
Qed.

Lemma upload_existing_name_rejected_witness :
  let r := run_request (upload_pdf Werkzeug.secure_filename (calm 20) 2 notes_upload)
             algebra_world in
  status (response_of r) = 409
  /\ world_of r = algebra_world
  /\ forallb (fun ev => negb (touches_files ev)) (log_of r) = true
  /\ response_of r = mkResponse 409 (Text (UploadExists "Algebra_2024A_notes.pdf")).
Proof.
  destruct (upload_existing_name_rejected Werkzeug.secure_filename (calm 20) 2 notes_upload
              algebra_world (mkFile "notes.pdf" "%PDF-1") "Algebra" "2024A")
    as (Hs & Hw & Hl & Hr).
  - repeat split; reflexivity.
  - intros e He. discriminate.
  - intros e He. discriminate.
  - exists (Archivo.mk 1 "Algebra_2024A_notes.pdf" 10 1 1). split; [now left | reflexivity].
  - split; [exact Hs|]. split; [exact Hw|]. split; [exact Hl|]. now apply Hr.
Defined.

(** Why C3 asks that nothing but IntegrityError is raised: when the flush
    of teacher 2's new course fails otherwise, the second except clause
    removes the file it finds under the stored name, which is teacher 1's. *)
Example upload_database_error_removes_older_file :
  let r := run_request
             (upload_pdf Werkzeug.secure_filename course_database_error 2 notes_upload)
             algebra_world in
  response_of r = mkResponse 500 (Text (UploadUnexpected OperationalError))
  /\ db (world_of r) = db algebra_world
  /\ uploads (world_of r) = ∅
  /\ log_of r = [Did Flush (Some OperationalError); Did Rollback None;
                 Print (UploadError OperationalError);
                 Did (Remove "uploads/Algebra_2024A_notes.pdf") None].
Proof. vm_compute. repeat split; reflexivity. Qed.

(** C1. Upload, the failing path: the file is written, then the commit
    of the attachment row raises IntegrityError. The answer is 409, the
    file just written is still in the directory, and the database has no
    attachment of that name. *)
Theorem upload_integrity_error_keeps_file (secure_filename : string -> string)
    (E : env) (uid : nat) (req : upload_form) (w : World)
    (file : FileStorage) (materia_name periodo : string) :
  upload_accepted req file materia_name periodo ->
  flush_materia_fault E = None ->
  flush_curso_fault E = None ->
  ~ name_taken (db w) (stored_name secure_filename materia_name periodo (filename file)) ->
  save_fault E = None ->
  commit_fault E = Some IntegrityError ->
  let name := stored_name secure_filename materia_name periodo (filename file) in
  let r := run_request (upload_pdf secure_filename E uid req) w in
  response_of r = mkResponse 409 (Text (UploadIntegrity name))
  /\ uploads (world_of r) !! Py.os_path_join UPLOAD_FOLDER name = Some (stream file)
  /\ db (world_of r) = db w
  /\ ~ name_taken (db (world_of r)) name
  /\ ~ In (Did (Remove (Py.os_path_join UPLOAD_FOLDER name)) None) (log_of r).
Proof.
  intros Hacc Hm Hc Hfree Hs Hcommit name r.
  assert (Hnone : first (by_archivo_nombre name) (archivos (db w)) = None).
  { destruct (first _ _) as [b|] eqn:Hb; [|reflexivity].
    exfalso. apply Hfree. apply name_taken_first. eauto. }
  subst r. rewrite (upload_commit_integrity _ _ _ _ _ _ _ _ Hacc Hm Hc Hnone Hs Hcommit).
  cbn. split; [reflexivity|]. split; [apply lookup_insert_eq|].
  split; [reflexivity|]. split; [exact Hfree|].
  intros Hin. apply in_app_or in Hin as [Hin|Hin].
  - pose proof (resolve_flushes_quiet uid (db w) materia_name periodo) as Hq.
    rewrite forallb_forall in Hq. specialize (Hq _ Hin). discriminate.
  - simpl in Hin. intuition discriminate.
Qed.

Lemma upload_integrity_error_keeps_file_witness :
  let r := run_request (upload_pdf Werkzeug.secure_filename name_race 1 exam_upload)
             algebra_world in
  response_of r = mkResponse 409 (Text (UploadIntegrity "Algebra_2024A_exam.pdf"))
  /\ uploads (world_of r) !! "uploads/Algebra_2024A_exam.pdf" = Some "%PDF-2"
  /\ db (world_of r) = db algebra_world
  /\ ~ name_taken (db (world_of r)) "Algebra_2024A_exam.pdf"
  /\ ~ In (Did (Remove "uploads/Algebra_2024A_exam.pdf") None) (log_of r).
Proof.
  apply (upload_integrity_error_keeps_file Werkzeug.secure_filename name_race 1 exam_upload
           algebra_world (mkFile "exam.pdf" "%PDF-2") "Algebra" "2024A").
  - repeat split; reflexivity.
  - reflexivity.
  - reflexivity.
  - intros (a & Hin & Hn). simpl in Hin. destruct Hin as [<-|[]]. discriminate.
  - reflexivity.
  - reflexivity.
Defined.

(** C2 as stated fails. The subject Algebra exists and teacher 1 has a
    course for it in 2024A; teacher 2 has none. Teacher 2 uploads exam.pdf
    for Algebra, 2024A, while another request of teacher 2 creates that
    course, so the lookup finds no course and the flush of the new course
    raises IntegrityError. The upload is not carried on with the course
    that now exists: the answer is 409, teacher 2 has no attachment, no
    course row and no file, and the only database steps are the failed
    flush and the rollback. *)
Lemma upload_course_race_counterexample :
  let r := run_request (upload_pdf Werkzeug.secure_filename course_race 2 exam_upload)
             algebra_world in
  first (by_triple 2 1 "2024A") (cursos (db algebra_world)) = None
  /\ ~ name_taken (db algebra_world) "Algebra_2024A_exam.pdf"
  /\ response_of r = mkResponse 409 (Text (UploadIntegrity "Algebra_2024A_exam.pdf"))
  /\ status (response_of r) <> 200
  /\ archivos (db (world_of r)) = archivos (db algebra_world)
  /\ cursos (db (world_of r)) = cursos (db algebra_world)
  /\ uploads (world_of r) !! "uploads/Algebra_2024A_exam.pdf" = None
  /\ log_of r = [Did Flush (Some IntegrityError); Did Rollback None].
Proof.
  split; [reflexivity|]. split.
  { intros (a & Hin & Hn). simpl in Hin. destruct Hin as [<-|[]]. discriminate. }
  vm_compute. repeat split; try reflexivity. discriminate.
Qed.

(** C2, amended. Upload: when the course is not found and the flush that
    creates it raises IntegrityError, the handler catches it, rolls the
    transaction back and answers 409; it does not look the course up
    again. No file operation is attempted and the database and the
    directory are left as they were. *)
Theorem upload_course_conflict_answers_409 (secure_filename : string -> string)
    (E : env) (uid : nat) (req : upload_form) (w : World)
    (file : FileStorage) (materia_name periodo : string) :
  upload_accepted req file materia_name periodo ->
  flush_materia_fault E = None ->
  first (by_triple uid (Materia.id (the_materia (db w) materia_name)) periodo)
    (cursos (db w)) = None ->
  flush_curso_fault E = Some IntegrityError ->
  let r := run_request (upload_pdf secure_filename E uid req) w in
  response_of r
  = mkResponse 409
      (Text (UploadIntegrity (stored_name secure_filename materia_name periodo (filename file))))
  /\ world_of r = w
  /\ forallb (fun ev => negb (touches_files ev)) (log_of r) = true
  /\ exists before, log_of r
       = (before ++ [Did Flush (Some IntegrityError); Did Rollback None])%list.
Proof.
  intros Hacc Hm Hnone Hc r.
  assert (Hnone' : first (by_triple uid (Materia.id (the_materia (db w) materia_name)) periodo)
                     (cursos (with_materia (db w) materia_name)) = None).
  { unfold with_materia. destruct (first (by_nombre _) _); exact Hnone. }
  subst r. rewrite (upload_curso_conflict _ _ _ _ _ _ _ _ Hacc Hm Hnone' Hc). cbn.
  split; [reflexivity|]. split; [reflexivity|]. split; [|eauto].
  unfold materia_flushes.
  destruct (first (by_nombre materia_name) (materias (db w))); reflexivity.
Qed.

Lemma upload_course_conflict_answers_409_witness :
  let r := run_request (upload_pdf Werkzeug.secure_filename course_race 2 notes_upload)
             algebra_world in
  response_of r = mkResponse 409 (Text (UploadIntegrity "Algebra_2024A_notes.pdf"))
  /\ world_of r = algebra_world
  /\ forallb (fun ev => negb (touches_files ev)) (log_of r) = true
  /\ exists before, log_of r
       = (before ++ [Did Flush (Some IntegrityError); Did Rollback None])%list.
Proof.
  apply (upload_course_conflict_answers_409 Werkzeug.secure_filename course_race 2
           notes_upload algebra_world (mkFile "notes.pdf" "%PDF-1") "Algebra" "2024A").
  - repeat split; reflexivity.
  - reflexivity.
  - reflexivity.
  - reflexivity.
Defined.

Lemma delete_file_database_first_witness :
  owns (db algebra_world) 1 "Algebra_2024A_notes.pdf"
  /\ ~ owns (db algebra_world) 2 "Algebra_2024A_notes.pdf"
  /\ world_of (run_request (delete_file (calm 20) 2 "Algebra_2024A_notes.pdf") algebra_world)
     = algebra_world
  /\ world_of (run_request (delete_file database_down 1 "Algebra_2024A_notes.pdf") algebra_world)
     = algebra_world
  /\ archivos (db (world_of (run_request (delete_file (calm 20) 1 "Algebra_2024A_notes.pdf")
                                algebra_world))) = [].
Proof.
  assert (Hown : owns (db algebra_world) 1 "Algebra_2024A_notes.pdf").
  { exists (Archivo.mk 1 "Algebra_2024A_notes.pdf" 10 1 1). simpl. auto. }
  assert (Hnot : ~ owns (db algebra_world) 2 "Algebra_2024A_notes.pdf").
  { intros (a & Hin & _ & Hd). simpl in Hin. destruct Hin as [<-|[]]. discriminate. }
  split; [exact Hown|]. split; [exact Hnot|]. split; [|split].
  - destruct (delete_file_database_first (calm 20) 2 "Algebra_2024A_notes.pdf" algebra_world)
      as [H _].
    destruct (H Hnot) as (_ & Hw & _). exact Hw.
  - destruct (delete_file_database_first database_down 1 "Algebra_2024A_notes.pdf" algebra_world)
      as [_ H].
    destruct (H Hown) as (a & _ & _ & _ & Hfail & _).
    destruct (Hfail OperationalError eq_refl) as [_ Hw]. exact Hw.
  - destruct (delete_file_database_first (calm 20) 1 "Algebra_2024A_notes.pdf" algebra_world)
      as [_ H].
    destruct (H Hown) as (a & Hf & _ & _ & _ & Hdb & _).
    rewrite (Hdb eq_refl). vm_compute in Hf. injection Hf as <-. reflexivity.
Defined.

Lemma delete_file_500_after_commit_witness :
  let r := run_request (delete_file disk_error 1 "Algebra_2024A_notes.pdf") algebra_world in
  response_of r = mkResponse 500 (Text (DeleteFailed OSError))
  /\ archivos (db (world_of r)) = []
  /\ uploads (world_of r) = uploads algebra_world
  /\ world_of r <> algebra_world.
Proof.
  destruct (delete_file_500_after_commit disk_error 1 "Algebra_2024A_notes.pdf" algebra_world
              (Archivo.mk 1 "Algebra_2024A_notes.pdf" 10 1 1) "%PDF-1" OSError)
    as (Hr & Hdb & _ & Hup & _ & Hne); try reflexivity.
  split; [exact Hr|]. split; [now rewrite Hdb|]. split; [exact Hup| exact Hne].
Defined.

(** ** Rename *)

Lemma first_None_taken_elsewhere n a l :
  first (by_archivo_nombre n) l = None ->
  existsb (fun b => by_archivo_nombre n b && negb (Nat.eqb (Archivo.id b) (Archivo.id a))) l
  = false.
Proof.
  intros H. rewrite first_None_all in H.
  induction l as [|x l IH]; simpl; [reflexivity|].
  rewrite (H x (or_introl eq_refl)). simpl. apply IH.
  intros b Hb. apply H. now right.
Qed.

Section Rename.

Variable secure_filename : string -> string.
Variables (E : env) (uid : nat) (data : rename_json) (w : World).
Variables (old new_name_raw : string) (a : Archivo.t).

Hypothesis Hold : old_name data = Some old.
Hypothesis Hnew : new_name data = Some new_name_raw.
Hypothesis Hold_given : Py.truthy old = true.
Hypothesis Hnew_given : Py.truthy new_name_raw = true.
Hypothesis Howned : first (by_nombre_docente old uid) (archivos (db w)) = Some a.

Let final := final_name secure_filename new_name_raw.
Let old_path := Py.os_path_join UPLOAD_FOLDER old.
Let new_path := Py.os_path_join UPLOAD_FOLDER final.

Ltac enter_rename :=
  unfold rename_file; rewrite Hold, Hnew, Hold_given, Hnew_given; cbn [negb orb];
  unfold_m; cbn; rewrite Howned; cbn; fold final.

Lemma rename_name_taken b :
  first (by_archivo_nombre final) (archivos (db w)) = Some b ->
  run_request (rename_file secure_filename E uid data) w
  = (mkResponse 400 (Text RenameTaken), w, []).
Proof.
  intros Hb. enter_rename. rewrite Hb. cbn. rewrite world_eta. reflexivity.
Qed.

Hypothesis Hfree : first (by_archivo_nombre final) (archivos (db w)) = None.

Lemma rename_done content :
  uploads w !! old_path = Some content ->
  rename_fault E = None ->
  commit_fault E = None ->
  run_request (rename_file secure_filename E uid data) w
  = (mkResponse 200 (Text (RenameOk final)),
     mkWorld (with_archivo_renamed a final (db w))
       (<[new_path := content]> (delete old_path (uploads w))),
     [Did (Rename old_path new_path) None; Did Commit None]).
Proof.
  intros Hthere Hr Hc. enter_rename. rewrite Hfree. cbn.
  fold old_path new_path. rewrite Hthere. cbn. rewrite Hthere, Hr, Hc. cbn.
  rewrite (first_None_taken_elsewhere _ a _ Hfree). reflexivity.
Qed.

Lemma rename_disk_error content e :
  uploads w !! old_path = Some content ->
  rename_fault E = Some e ->
  run_request (rename_file secure_filename E uid data) w
  = (mkResponse 500 (Text (RenameFsError e)), w,
     [Did (Rename old_path new_path) (Some e)]).
Proof.
  intros Hthere Hr. enter_rename. rewrite Hfree. cbn.
  fold old_path new_path. rewrite Hthere. cbn. rewrite Hthere, Hr. cbn.
  rewrite world_eta. reflexivity.
Qed.

Lemma rename_file_missing :
  uploads w !! old_path = None ->
  commit_fault E = None ->
  run_request (rename_file secure_filename E uid data) w
  = (mkResponse 200 (Text (RenameOk final)),
     mkWorld (with_archivo_renamed a final (db w)) (uploads w),
     [Print (RenameMissingFile old_path); Did Commit None]).
Proof.
  intros Hthere Hc. enter_rename. rewrite Hfree. cbn.
  fold old_path new_path. rewrite Hthere. cbn. rewrite Hc. cbn.
  rewrite (first_None_taken_elsewhere _ a _ Hfree). reflexivity.
Qed.

Lemma rename_commit_fails_restored content e :
  uploads w !! old_path = Some content ->
  rename_fault E = None ->
  commit_fault E = Some e ->
  rename_back_fault E = None ->
  run_request (rename_file secure_filename E uid data) w
  = (mkResponse 500 (Text (RenameDbFailed e)),
     mkWorld (db w)
       (<[old_path := content]>
          (delete new_path (<[new_path := content]> (delete old_path (uploads w))))),
     [Did (Rename old_path new_path) None; Did Commit (Some e); Did Rollback None;
      Did (Rename new_path old_path) None; Print (RenameDbError e)]).
Proof.
  intros Hthere Hr Hc Hb. enter_rename. rewrite Hfree. cbn.
  fold old_path new_path. rewrite Hthere. cbn. rewrite Hthere, Hr, Hc. cbn.
  rewrite lookup_insert_eq, Hb. reflexivity.
Qed.

Lemma rename_commit_fails_stuck content e e' :
  uploads w !! old_path = Some content ->
  rename_fault E = None ->
  commit_fault E = Some e ->
  rename_back_fault E = Some e' ->
  run_request (rename_file secure_filename E uid data) w
  = (mkResponse 500 (Text (RenameDbFailed e)),
     mkWorld (db w) (<[new_path := content]> (delete old_path (uploads w))),
     [Did (Rename old_path new_path) None; Did Commit (Some e); Did Rollback None;
      Did (Rename new_path old_path) (Some e'); Print (RenameCritical e');
      Print (RenameDbError e)]).
Proof.
  intros Hthere Hr Hc Hb. enter_rename. rewrite Hfree. cbn.
  fold old_path new_path. rewrite Hthere. cbn. rewrite Hthere, Hr, Hc. cbn.
  rewrite lookup_insert_eq, Hb. reflexivity.
Qed.

(** The file is absent and the commit raises: the rename back is tried all
    the same and fails on the missing new path. *)
Lemma rename_file_missing_commit_fails e :
  uploads w !! old_path = None ->
  uploads w !! new_path = None ->
  commit_fault E = Some e ->
  run_request (rename_file secure_filename E uid data) w
  = (mkResponse 500 (Text (RenameDbFailed e)), w,
     [Print (RenameMissingFile old_path); Did Commit (Some e); Did Rollback None;
      Did (Rename new_path old_path) (Some FileNotFoundError);
      Print (RenameCritical FileNotFoundError); Print (RenameDbError e)]).
Proof.
  intros Hthere Hnew' Hc. enter_rename. rewrite Hfree. cbn.
  fold old_path new_path. rewrite Hthere. cbn. rewrite Hc. cbn.
  rewrite Hnew'. cbn. rewrite world_eta. reflexivity.
Qed.

(** The old name is in the table and the new one is not: they differ,
    and so do their paths. *)
Lemma rename_names_differ : final <> old.
Proof.
  intros Heq. apply first_Some_In in Howned as [Hin Hp].
  apply by_nombre_docente_spec in Hp as [Hn _].
  rewrite first_None_all in Hfree. specialize (Hfree a Hin).
  unfold by_archivo_nombre in Hfree. rewrite Hn, Heq, String.eqb_refl in Hfree.
  discriminate.
Qed.

End Rename.

Lemma os_path_join_uploads_inj a b :
  Py.os_path_join UPLOAD_FOLDER a = Py.os_path_join UPLOAD_FOLDER b -> a = b.
Proof.
  unfold Py.os_path_join, UPLOAD_FOLDER.
  destruct (Py.is_absolute a) eqn:Ha, (Py.is_absolute b) eqn:Hb; intros H.
  - exact H.
  - subst a. discriminate.
  - subst b. discriminate.
  - simpl in H. now injection H.
Qed.

(** C5. Rename: when the request names an attachment the caller owns and
    the new name, after [secure_filename] and the forced extension, is the
    name of an attachment of any teacher (the caller included), the answer
    is the 400 of step 2, and nothing has been attempted: no effect is
    logged and the database and the directory are what they were. *)
Theorem rename_to_taken_name_rejected (secure_filename : string -> string)
    (E : env) (uid : nat) (data : rename_json) (w : World) (old new_name_raw : string) :
  old_name data = Some old ->
  new_name data = Some new_name_raw ->
  Py.truthy old = true ->
  Py.truthy new_name_raw = true ->
  owns (db w) uid old ->
  name_taken (db w) (final_name secure_filename new_name_raw) ->
  let r := run_request (rename_file secure_filename E uid data) w in
  response_of r = mkResponse 400 (Text RenameTaken)
  /\ world_of r = w
  /\ log_of r = [].
Proof.
  intros Ho Hn Hto Htn Hown Htaken r.
  apply owns_first in Hown as [a Ha]. apply name_taken_first in Htaken as [b Hb].
  subst r. rewrite (rename_name_taken _ _ _ _ _ _ _ a Ho Hn Hto Htn Ha b Hb).
  now cbn.
Qed.

Lemma rename_to_taken_name_rejected_witness :
  let r := run_request
             (rename_file Werkzeug.secure_filename (calm 20) 1
                (mkRename (Some "Algebra_2024A_notes.pdf") (Some "Algebra_2024A_notes")))
             algebra_world in
  response_of r = mkResponse 400 (Text RenameTaken)
  /\ world_of r = algebra_world
  /\ log_of r = [].
Proof.
  apply (rename_to_taken_name_rejected Werkzeug.secure_filename (calm 20) 1 _ algebra_world
           "Algebra_2024A_notes.pdf" "Algebra_2024A_notes"); try reflexivity.
  - exists (Archivo.mk 1 "Algebra_2024A_notes.pdf" 10 1 1). simpl. auto.
  - exists (Archivo.mk 1 "Algebra_2024A_notes.pdf" 10 1 1). simpl. auto.
Defined.

(** The tables after the committed rename: the renamed row is there under
    the new name and with its owner, and over unique names no row carries
    the old name any more. *)
Lemma renamed_row_there a n d :
  In a (archivos d) -> In (Archivo.with_nombre n a) (archivos (with_archivo_renamed a n d)).
Proof.
  intros Hin. unfold with_archivo_renamed. simpl. apply in_map_iff.
  exists a. rewrite Nat.eqb_refl. now split.
Qed.

Lemma renamed_row_owned a n d uid old :
  first (by_nombre_docente old uid) (archivos d) = Some a ->
  owns (with_archivo_renamed a n d) uid n.
Proof.
  intros Ha. apply first_Some_In in Ha as [Hin Hp].
  apply by_nombre_docente_spec in Hp as [_ Hu].
  exists (Archivo.with_nombre n a). split; [now apply renamed_row_there|]. now split.
Qed.

Lemma renamed_old_name_free a n d uid old :
  first (by_nombre_docente old uid) (archivos d) = Some a ->
  n <> old ->
  NoDup (List.map Archivo.nombre (archivos d)) ->
  ~ name_taken (with_archivo_renamed a n d) old.
Proof.
  intros Ha Hne Hnd (b & Hin & Hb). apply first_Some_In in Ha as [Hain Hp].
  apply by_nombre_docente_spec in Hp as [Hn _].
  unfold with_archivo_renamed in Hin. simpl in Hin.
  apply in_map_iff in Hin as (x & Hx & Hxin).
  destruct (Nat.eqb_spec (Archivo.id x) (Archivo.id a)) as [Heq|Hneq].
  - subst b. simpl in Hb. now apply Hne.
  - subst b. apply Hneq. f_equal.
    apply (NoDup_map_inj_in Archivo.nombre (archivos d) x a Hnd Hxin Hain). congruence.
Qed.

(** C6. Rename of an owned attachment to a free name. The rename of the
    file is the first effect and the commit of the new name the second;
    afterwards the row of the attachment carries the new name, still owned
    by the caller, and over unique names no row carries the old name.
    When the file is absent a warning is printed instead and only the row
    is renamed. When the commit raises after the file was renamed, the
    answer is 500, the row keeps its name, and the rename back to the old
    path is attempted: when it succeeds the file is under the old path
    again, when it raises too the critical line is printed and the file
    stays under the new path. *)
Theorem rename_file_then_record (secure_filename : string -> string)
    (E : env) (uid : nat) (data : rename_json) (w : World)
    (old new_name_raw : string) (a : Archivo.t) :
  old_name data = Some old ->
  new_name data = Some new_name_raw ->
  Py.truthy old = true ->
  Py.truthy new_name_raw = true ->
  first (by_nombre_docente old uid) (archivos (db w)) = Some a ->
  ~ name_taken (db w) (final_name secure_filename new_name_raw) ->
  let final := final_name secure_filename new_name_raw in
  let old_path := Py.os_path_join UPLOAD_FOLDER old in
  let new_path := Py.os_path_join UPLOAD_FOLDER final in
  let r := run_request (rename_file secure_filename E uid data) w in
  (forall content,
     uploads w !! old_path = Some content -> rename_fault E = None ->
     exists rest,
       log_of r = Did (Rename old_path new_path) None :: Did Commit (commit_fault E) :: rest)
  /\ (forall content,
        uploads w !! old_path = Some content -> rename_fault E = None ->
        commit_fault E = None ->
        response_of r = mkResponse 200 (Text (RenameOk final))
        /\ db (world_of r) = with_archivo_renamed a final (db w)
        /\ uploads (world_of r) = <[new_path := content]> (delete old_path (uploads w))
        /\ In (Archivo.with_nombre final a) (archivos (db (world_of r)))
        /\ owns (db (world_of r)) uid final
        /\ (NoDup (List.map Archivo.nombre (archivos (db w))) ->
            ~ name_taken (db (world_of r)) old))
  /\ (uploads w !! old_path = None -> commit_fault E = None ->
        response_of r = mkResponse 200 (Text (RenameOk final))
        /\ log_of r = [Print (RenameMissingFile old_path); Did Commit None]
        /\ db (world_of r) = with_archivo_renamed a final (db w)
        /\ uploads (world_of r) = uploads w
        /\ In (Archivo.with_nombre final a) (archivos (db (world_of r)))
        /\ owns (db (world_of r)) uid final
        /\ (NoDup (List.map Archivo.nombre (archivos (db w))) ->
            ~ name_taken (db (world_of r)) old))
  /\ (forall content e,
        uploads w !! old_path = Some content -> rename_fault E = None ->
        commit_fault E = Some e ->
        response_of r = mkResponse 500 (Text (RenameDbFailed e))
        /\ db (world_of r) = db w
        /\ In (Did (Rename new_path old_path) (rename_back_fault E)) (log_of r)
        /\ (rename_back_fault E = None ->
              uploads (world_of r) !! old_path = Some content
              /\ uploads (world_of r) !! new_path = None)
        /\ (forall e', rename_back_fault E = Some e' ->
              In (Print (RenameCritical e')) (log_of r)
              /\ uploads (world_of r) = <[new_path := content]> (delete old_path (uploads w)))).
Proof.
  intros Ho Hn Hto Htn Ha Hfree final old_path new_path r.
  assert (Hnone : first (by_archivo_nombre final) (archivos (db w)) = None).
  { destruct (first (by_archivo_nombre final) (archivos (db w))) as [b|] eqn:Hb;
      [|reflexivity].
    exfalso. apply Hfree. apply name_taken_first. eauto. }
  assert (Hdiff : final <> old)
    by exact (rename_names_differ secure_filename uid w old new_name_raw a Ha Hnone).
  assert (Hpaths : old_path <> new_path).
  { intros Heq. apply os_path_join_uploads_inj in Heq. apply Hdiff. symmetry. exact Heq. }
  split; [|split; [|split]].
  - intros content Hthere Hr. subst r. destruct (commit_fault E) as [e|] eqn:Hc.
    + destruct (rename_back_fault E) as [e'|] eqn:Hb.
      * rewrite (rename_commit_fails_stuck _ _ _ _ _ _ _ a Ho Hn Hto Htn Ha Hnone
                   content e e' Hthere Hr Hc Hb). cbn. eauto.
      * rewrite (rename_commit_fails_restored _ _ _ _ _ _ _ a Ho Hn Hto Htn Ha Hnone
                   content e Hthere Hr Hc Hb). cbn. eauto.
    + rewrite (rename_done _ _ _ _ _ _ _ a Ho Hn Hto Htn Ha Hnone content Hthere Hr Hc).
      cbn. eauto.
  - intros content Hthere Hr Hc. subst r.
    rewrite (rename_done _ _ _ _ _ _ _ a Ho Hn Hto Htn Ha Hnone content Hthere Hr Hc).
    cbn. repeat (split; [reflexivity|]).
    split; [apply renamed_row_there; now apply first_Some_In in Ha|].
    split; [now apply (renamed_row_owned a final (db w) uid old)|].
    now apply (renamed_old_name_free a final (db w) uid old).
  - intros Hthere Hc. subst r.
    rewrite (rename_file_missing _ _ _ _ _ _ _ a Ho Hn Hto Htn Ha Hnone Hthere Hc).
    cbn. repeat (split; [reflexivity|]).
    split; [apply renamed_row_there; now apply first_Some_In in Ha|].
    split; [now apply (renamed_row_owned a final (db w) uid old)|].
    now apply (renamed_old_name_free a final (db w) uid old).
  - intros content e Hthere Hr Hc. subst r.
    destruct (rename_back_fault E) as [e'|] eqn:Hb.
    + rewrite (rename_commit_fails_stuck _ _ _ _ _ _ _ a Ho Hn Hto Htn Ha Hnone
                 content e e' Hthere Hr Hc Hb). cbn.
      split; [reflexivity|]. split; [reflexivity|]. split; [tauto|].
      split; [discriminate|].
      intros e'' He''. injection He'' as <-. split; [tauto | reflexivity].
    + rewrite (rename_commit_fails_restored _ _ _ _ _ _ _ a Ho Hn Hto Htn Ha Hnone
                 content e Hthere Hr Hc Hb). cbn.
      split; [reflexivity|]. split; [reflexivity|]. split; [tauto|].
      split; [|discriminate].
      intros _. fold old_path new_path. split.
      * apply lookup_insert_eq.
      * rewrite lookup_insert_ne by exact Hpaths. apply lookup_delete_eq.
Qed.

Lemma rename_file_then_record_witness :
  let data := mkRename (Some "Algebra_2024A_notes.pdf") (Some "x") in
  let run E := run_request (rename_file Werkzeug.secure_filename E 1 data) algebra_world in
  (response_of (run (calm 20)) = mkResponse 200 (Text (RenameOk "x.pdf"))
   /\ db (world_of (run (calm 20))) = db renamed_world
   /\ uploads (world_of (run (calm 20))) = uploads renamed_world
   /\ In (Archivo.mk 1 "x.pdf" 10 1 1) (archivos (db (world_of (run (calm 20)))))
   /\ owns (db (world_of (run (calm 20)))) 1 "x.pdf"
   /\ ~ name_taken (db (world_of (run (calm 20)))) "Algebra_2024A_notes.pdf")
  /\ (response_of (run database_down) = mkResponse 500 (Text (RenameDbFailed OperationalError))
      /\ uploads (world_of (run database_down)) !! "uploads/Algebra_2024A_notes.pdf"
         = Some "%PDF-1")
  /\ (response_of (run database_down_disk_error)
      = mkResponse 500 (Text (RenameDbFailed OperationalError))
      /\ In (Print (RenameCritical OSError)) (log_of (run database_down_disk_error))).
Proof.
  intros data run.
  assert (Hfree : ~ name_taken (db algebra_world) (final_name Werkzeug.secure_filename "x")).
  { intros (b & Hin & Hn). simpl in Hin. destruct Hin as [<-|[]]. discriminate. }
  pose (a := Archivo.mk 1 "Algebra_2024A_notes.pdf" 10 1 1).
  split; [|split].
  - destruct (rename_file_then_record Werkzeug.secure_filename (calm 20) 1 data algebra_world
                "Algebra_2024A_notes.pdf" "x" a eq_refl eq_refl eq_refl eq_refl eq_refl Hfree)
      as (_ & Hok & _).
    destruct (Hok "%PDF-1" eq_refl eq_refl eq_refl) as (Hr & Hdb & Hup & Hrow & Hown & Hold).
    split; [exact Hr|].
    split; [unfold run; rewrite Hdb; vm_compute; reflexivity|].
    split; [unfold run; rewrite Hup; vm_compute; reflexivity|].
    split; [exact Hrow|]. split; [exact Hown|].
    apply Hold. simpl. apply NoDup_singleton.
  - destruct (rename_file_then_record Werkzeug.secure_filename database_down 1 data
                algebra_world "Algebra_2024A_notes.pdf" "x" a
                eq_refl eq_refl eq_refl eq_refl eq_refl Hfree)
      as (_ & _ & _ & Hfail).
    destruct (Hfail "%PDF-1" OperationalError eq_refl eq_refl eq_refl)
      as (Hr & _ & _ & Hback & _).
    split; [exact Hr|]. apply (Hback eq_refl).
  - destruct (rename_file_then_record Werkzeug.secure_filename database_down_disk_error 1 data
                algebra_world "Algebra_2024A_notes.pdf" "x" a
                eq_refl eq_refl eq_refl eq_refl eq_refl Hfree)
      as (_ & _ & _ & Hfail).
    destruct (Hfail "%PDF-1" OperationalError eq_refl eq_refl eq_refl)
      as (Hr & _ & _ & _ & Hstuck).
    split; [exact Hr|]. apply (Hstuck OSError eq_refl).
Defined.

(** ** View and download *)

Section Retrieval.

Variables (uid : nat) (name : string) (w : World).

Lemma view_not_owned :
  first (by_nombre_docente name uid) (archivos (db w)) = None ->
  run_request (view_file uid name) w = (mkResponse 404 NotFoundPage, w, []).
Proof.
  intros H. unfold view_file. unfold_m. cbn. rewrite H. cbn.
  rewrite world_eta. reflexivity.
Qed.

Lemma download_not_owned :
  first (by_nombre_docente name uid) (archivos (db w)) = None ->
  run_request (download_file uid name) w = (mkResponse 404 NotFoundPage, w, []).
Proof.
  intros H. unfold download_file. unfold_m. cbn. rewrite H. cbn.
  rewrite world_eta. reflexivity.
Qed.

Lemma view_owned a :
  first (by_nombre_docente name uid) (archivos (db w)) = Some a ->
  run_request (view_file uid name) w
  = (match uploads w !! Py.os_path_join UPLOAD_FOLDER name with
     | Some c => mkResponse 200 (SendFile c (Some "application/pdf") false)
     | None => mkResponse 404 NotFoundPage
     end, w, []).
Proof.
  intros H. unfold view_file. unfold_m. cbn. rewrite H. cbn.
  destruct (uploads w !! _); cbn; rewrite world_eta; reflexivity.
Qed.

Lemma download_owned a :
  first (by_nombre_docente name uid) (archivos (db w)) = Some a ->
  run_request (download_file uid name) w
  = (match uploads w !! Py.os_path_join UPLOAD_FOLDER name with
     | Some c => mkResponse 200 (SendFile c None true)
     | None => mkResponse 404 NotFoundPage
     end, w, []).
Proof.
  intros H. unfold download_file. unfold_m. cbn. rewrite H. cbn.
  destruct (uploads w !! _); cbn; rewrite world_eta; reflexivity.
Qed.

End Retrieval.

Lemma not_owns_first d uid name :
  ~ owns d uid name -> first (by_nombre_docente name uid) (archivos d) = None.
Proof.
  intros Hno. destruct (first (by_nombre_docente name uid) (archivos d)) as [a|] eqn:Hf;
    [|reflexivity].
  exfalso. apply Hno. apply owns_first. eauto.
Qed.

(** C8. View and download: an answer other than the 404 page, a 200 in
    particular, is given only when the caller owns an attachment of
    exactly that name; otherwise the answer is the 404 page. That page is
    the same whatever the tables hold, so a name nobody has and a name
    another teacher has are answered alike. *)
Theorem view_download_owner_only (uid : nat) (name : string) (w : World) :
  let view w := response_of (run_request (view_file uid name) w) in
  let download w := response_of (run_request (download_file uid name) w) in
  (status (view w) = 200 -> owns (db w) uid name)
  /\ (status (download w) = 200 -> owns (db w) uid name)
  /\ (~ owns (db w) uid name ->
      view w = mkResponse 404 NotFoundPage /\ download w = mkResponse 404 NotFoundPage)
  /\ (forall w',
        ~ name_taken (db w) name ->
        name_taken (db w') name -> ~ owns (db w') uid name ->
        view w = view w' /\ download w = download w').
Proof.
  intros view download.
  assert (H404 : forall w0, ~ owns (db w0) uid name ->
            view w0 = mkResponse 404 NotFoundPage /\ download w0 = mkResponse 404 NotFoundPage).
  { intros w0 Hno. apply not_owns_first in Hno. subst view download. cbn beta.
    now rewrite (view_not_owned uid name w0 Hno), (download_not_owned uid name w0 Hno). }
  assert (Hdec : owns (db w) uid name \/ ~ owns (db w) uid name).
  { destruct (first (by_nombre_docente name uid) (archivos (db w))) as [a|] eqn:Hf.
    - left. apply owns_first. eauto.
    - right. intros Ho. apply owns_first in Ho as [a Ha]. congruence. }
  split; [|split; [|split]].
  - intros Hs. destruct Hdec as [Ho|Hno]; [exact Ho|].
    destruct (H404 w Hno) as [Hv _]. rewrite Hv in Hs. discriminate.
  - intros Hs. destruct Hdec as [Ho|Hno]; [exact Ho|].
    destruct (H404 w Hno) as [_ Hd]. rewrite Hd in Hs. discriminate.
  - apply H404.
  - intros w' Hnobody _ Hother.
    assert (Hno : ~ owns (db w) uid name).
    { intros (a & Hin & Hn & _). apply Hnobody. exists a. tauto. }
    destruct (H404 w Hno) as [-> ->]. destruct (H404 w' Hother) as [-> ->]. tauto.
Qed.

Lemma view_download_owner_only_witness :
  let name := "Algebra_2024A_notes.pdf" in
  response_of (run_request (view_file 2 name) empty_world)
  = response_of (run_request (view_file 2 name) algebra_world)
  /\ response_of (run_request (download_file 2 name) empty_world)
     = response_of (run_request (download_file 2 name) algebra_world)
  /\ response_of (run_request (view_file 2 name) algebra_world) = mkResponse 404 NotFoundPage
  /\ response_of (run_request (view_file 1 name) algebra_world)
     = mkResponse 200 (SendFile "%PDF-1" (Some "application/pdf") false).
Proof.
  intros name.
  assert (Hnobody : ~ name_taken (db empty_world) name).
  { intros (a & [] & _). }
  assert (Htaken : name_taken (db algebra_world) name).
  { exists (Archivo.mk 1 "Algebra_2024A_notes.pdf" 10 1 1). simpl. auto. }
  assert (Hother : ~ owns (db algebra_world) 2 name).
  { intros (a & Hin & _ & Hd). simpl in Hin. destruct Hin as [<-|[]]. discriminate. }
  destruct (view_download_owner_only 2 name empty_world) as (_ & _ & _ & Hsame).
  destruct (Hsame algebra_world Hnobody Htaken Hother) as [Hv Hd].
  destruct (view_download_owner_only 2 name algebra_world) as (_ & _ & H404 & _).
  destruct (H404 Hother) as [Hv404 _].
  split; [exact Hv|]. split; [exact Hd|]. split; [exact Hv404|]. reflexivity.
Defined.

(** ** The autocomplete data *)

(** C10. data_for_upload answers with the distinct names of all the
    subjects and the distinct periods of all the courses in the tables:
    the handler does not take the caller, and the period of a course
    taught by anyone else is in the list. *)
Theorem data_for_upload_is_global (E : env) (w : World) :
  query_fault E = None ->
  exists nombres periodos,
    response_of (run_request (data_for_upload E) w)
    = mkResponse 200 (JsonUploadData nombres periodos)
    /\ NoDup nombres
    /\ NoDup periodos
    /\ (forall n, In n nombres <-> exists m, In m (materias (db w)) /\ Materia.nombre m = n)
    /\ (forall p, In p periodos <-> exists c, In c (cursos (db w)) /\ Curso.periodo c = p)
    /\ (forall uid c, In c (cursos (db w)) -> Curso.docente_id c <> uid ->
          In (Curso.periodo c) periodos).
Proof.
  intros Hq.
  exists (remove_dups (List.map Materia.nombre (materias (db w)))),
         (remove_dups (List.map Curso.periodo (cursos (db w)))).
  assert (Hin : forall (A : Type) (f : A -> string) (l : list A) (x : string),
            In x (remove_dups (List.map f l)) <-> exists y, In y l /\ f y = x).
  { intros A f l x. rewrite <- list_elem_of_In, elem_of_remove_dups, list_elem_of_In, in_map_iff.
    split; intros (y & H1 & H2); exists y; tauto. }
  split; [|split; [|split; [|split; [|split]]]].
  - unfold data_for_upload. unfold_m. rewrite Hq. reflexivity.
  - apply NoDup_remove_dups.
  - apply NoDup_remove_dups.
  - intros n. apply Hin.
  - intros p. apply Hin.
  - intros uid c Hc _. apply Hin. eauto.
Qed.

Lemma data_for_upload_is_global_witness :
  response_of (run_request (data_for_upload (calm 20)) algebra_world)
  = mkResponse 200 (JsonUploadData ["Algebra"] ["2024A"]).
Proof.
  destruct (data_for_upload_is_global (calm 20) algebra_world eq_refl)
    as (nombres & periodos & Hr & _).
  rewrite Hr. vm_compute in Hr. injection Hr as <- <-. reflexivity.
Defined.

(** ** List *)



Section Listing.

Variable strftime : nat -> string.
Variables (uid : nat) (d : DB).
Hypothesis Hwf : db_wf d.





Lemma list_query_all : list_query uid d "" = List.filter (owned_by uid) (archivos d).
Proof. reflexivity. Qed.





End Listing.

#[global] Instance newer_first_trans : Transitive newer_first.
Proof. unfold newer_first. intros a b c H1 H2. lia. Qed.

#[global] Instance newer_first_total : Total newer_first.
Proof. unfold newer_first. intros a b. lia. Qed.

Lemma list_files_runs strftime E uid search w :
  query_fault E = None ->
  run_request (list_files strftime E uid search) w
  = (mkResponse 200
       (JsonFiles (List.map (to_entry strftime (db w))
                     (order_by_fecha_desc (list_query uid (db w) (default_str search))))),
     w, []).
Proof.
  intros Hq. unfold list_files. unfold_m. rewrite Hq. cbn.
  rewrite world_eta. reflexivity.
Qed.

Lemma list_files_query_fails strftime E uid search w e :
  query_fault E = Some e ->
  run_request (list_files strftime E uid search) w
  = (mkResponse 500 (JsonError ListFailed), w, [Print (ListError e)]).
Proof.
  intros Hq. unfold list_files. unfold_m. rewrite Hq. cbn.
  rewrite world_eta. reflexivity.
Qed.


(** C7, the failing input. Teacher 1 has one file, x.pdf of Algebra in
    2024A, and searches for the single character [%] (or [_]). The file is
    listed although neither its name nor the subject nor the period
    contains that character: the term reaches LIKE unescaped. *)
Theorem list_files_wildcard_term_lists_all :
  let a := Archivo.mk 1 "x.pdf" 10 1 1 in
  let listed := mkResponse 200 (JsonFiles [mkEntry 1 "x.pdf" "Algebra (2024A)" "10"]) in
  response_of (run_request (list_files strftime_decimal (calm 20) 1 (Some "%")) renamed_world)
  = listed
  /\ response_of (run_request (list_files strftime_decimal (calm 20) 1 (Some "_")) renamed_world)
     = listed
  /\ icontains "x.pdf" "%" = false
  /\ icontains "Algebra" "%" = false
  /\ icontains "2024A" "%" = false
  /\ mentions (db renamed_world) "%" a = false
  /\ mentions (db renamed_world) "_" a = false.
Proof. vm_compute. repeat split; reflexivity. Qed.


Lemma algebra_world_wf : db_wf (db algebra_world).
Proof.
  split; simpl.
  - apply NoDup_singleton.
  - apply NoDup_singleton.
  - intros a [<-|[]]. eexists. reflexivity.
  - intros c [<-|[]]. eexists. reflexivity.
Defined.


(** ** The tables stay well formed *)

(** What a request can leave in the tables: nothing new, or the one change
    its handler commits. *)
Lemma delete_db_cases E uid name w :
  let r := run_request (delete_file E uid name) w in
  db (world_of r) = db w
  \/ exists a, In a (archivos (db w)) /\ db (world_of r) = without_archivo a (db w).
Proof.
  unfold delete_file. unfold_m. all_paths; auto.
  all: right; eexists; split; [|reflexivity]; eapply find_some; eassumption.
Qed.

Lemma rename_db_cases secure_filename E uid data w :
  let r := run_request (rename_file secure_filename E uid data) w in
  db (world_of r) = db w
  \/ exists a n, In a (archivos (db w)) /\ db (world_of r) = with_archivo_renamed a n (db w).
Proof.
  unfold rename_file. unfold_m. all_paths; auto.
  all: right; do 2 eexists; split; [|reflexivity]; eapply find_some; eassumption.
Qed.

Lemma upload_db_cases secure_filename E uid req w :
  let r := run_request (upload_pdf secure_filename E uid req) w in
  let n := Py.strip (default_str (form_materia_name req)) in
  let p := Py.strip (default_str (form_periodo req)) in
  db (world_of r) = db w
  \/ exists name,
       db (world_of r)
       = mkDB (materias (resolved uid (db w) n p)) (cursos (resolved uid (db w) n p))
           (archivos (db w)
              ++ [Archivo.mk (next_id (List.map Archivo.id (archivos (db w)))) name
                    (utcnow E) uid (Curso.id (resolved_curso uid (db w) n p))]).
Proof.
  unfold upload_pdf, ensure_materia, ensure_curso. unfold_m. all_paths; auto.
  all: right; eexists;
    unfold resolved, resolved_curso, with_curso, with_materia, the_curso, the_materia.
  all: unfold first in *; cbn.
  all: repeat match goal with H : find _ _ = _ |- _ => rewrite H end; cbn.
  all: repeat match goal with H : find _ _ = _ |- _ => rewrite H end; cbn.
  all: reflexivity.
Qed.

Lemma read_only_db_cases secure_filename strftime E uid rq w :
  match rq with
  | PostUploadPdf _ | DeleteFile _ | PutRename _ => True
  | _ => world_of (run_request (route secure_filename strftime E uid rq) w) = w
  end.
Proof.
  destruct rq; try exact I; unfold route.
  - unfold view_file. unfold_m. all_paths; apply world_eta.
  - unfold download_file. unfold_m. all_paths; apply world_eta.
  - unfold list_files. unfold_m. all_paths; apply world_eta.
  - unfold data_for_upload. unfold_m. all_paths; apply world_eta.
Qed.

Lemma next_id_fresh (ids : list nat) : ~ In (next_id ids) ids.
Proof.
  unfold next_id. intros Hin.
  assert (H : Forall (fun k => k <= list_max ids) ids) by now apply list_max_le.
  rewrite Forall_forall in H. specialize (H _ (proj2 (list_elem_of_In _ _) Hin)). lia.
Qed.

Lemma NoDup_snoc_fresh (ids : list nat) : NoDup ids -> NoDup (ids ++ [next_id ids]).
Proof.
  intros H. apply NoDup_app. split; [exact H|]. split; [|apply NoDup_singleton].
  intros x Hx Hx'. apply list_elem_of_singleton in Hx'. subst x.
  apply (next_id_fresh ids). now apply list_elem_of_In.
Qed.

Lemma first_app_found {A} (p : A -> bool) (l l' : list A) (x : A) :
  first p l = Some x -> first p (l ++ l') = Some x.
Proof.
  unfold first. induction l as [|y l IH]; simpl; [discriminate|].
  destruct (p y); [trivial | exact IH].
Qed.

Lemma first_exists {A} (p : A -> bool) (l : list A) (x : A) :
  In x l -> p x = true -> exists y, first p l = Some y.
Proof.
  intros Hin Hp. destruct (first p l) as [y|] eqn:Hf; [eauto|].
  rewrite first_None_all in Hf. rewrite (Hf x Hin) in Hp. discriminate.
Qed.

Lemma without_archivo_wf a d : db_wf d -> db_wf (without_archivo a d).
Proof.
  intros [H1 H2 H3 H4]. split; simpl; try assumption.
  intros b Hb. apply filter_In in Hb as [Hb _]. apply (H3 b Hb).
Qed.

Lemma with_archivo_renamed_wf a n d : db_wf d -> db_wf (with_archivo_renamed a n d).
Proof.
  intros [H1 H2 H3 H4]. split; simpl; try assumption.
  intros b Hb. apply in_map_iff in Hb as (b0 & <- & Hb0).
  destruct (H3 b0 Hb0) as [c Hc]. exists c.
  destruct (Nat.eqb (Archivo.id b0) (Archivo.id a)); exact Hc.
Qed.

Lemma with_materia_wf d n :
  db_wf d ->
  db_wf (with_materia d n) /\ In (the_materia d n) (materias (with_materia d n)).
Proof.
  intros [H1 H2 H3 H4]. unfold with_materia, the_materia.
  destruct (first (by_nombre n) (materias d)) as [m|] eqn:Hf.
  - split; [now split|]. now apply first_Some_In in Hf.
  - split; [|simpl; apply in_or_app; right; now left].
    split; simpl; try assumption.
    + rewrite List.map_app. simpl. now apply NoDup_snoc_fresh.
    + intros c Hc. destruct (H4 c Hc) as [m Hm]. exists m.
      unfold materia_of in *. simpl. now apply first_app_found.
Qed.

Lemma with_curso_wf uid d m p :
  db_wf d -> In m (materias d) ->
  db_wf (with_curso uid d m p) /\ In (the_curso uid d m p) (cursos (with_curso uid d m p)).
Proof.
  intros [H1 H2 H3 H4] Hm. unfold with_curso, the_curso.
  destruct (first (by_triple uid (Materia.id m) p) (cursos d)) as [c|] eqn:Hf.
  - split; [now split|]. now apply first_Some_In in Hf.
  - split; [|simpl; apply in_or_app; right; now left].
    split; simpl; try assumption.
    + rewrite List.map_app. simpl. now apply NoDup_snoc_fresh.
    + intros a Ha. destruct (H3 a Ha) as [c Hc]. exists c.
      unfold curso_of in *. simpl. now apply first_app_found.
    + intros c Hc. apply in_app_or in Hc as [Hc|[<-|[]]].
      * apply (H4 c Hc).
      * unfold materia_of. simpl.
        apply (first_exists _ _ m Hm). apply Nat.eqb_refl.
Qed.

(** A committed upload keeps the keys unique and the references resolved. *)
Lemma uploaded_wf uid d n p name fecha :
  db_wf d ->
  db_wf (mkDB (materias (resolved uid d n p)) (cursos (resolved uid d n p))
           (archivos d
              ++ [Archivo.mk (next_id (List.map Archivo.id (archivos d))) name fecha uid
                    (Curso.id (resolved_curso uid d n p))])).
Proof.
  intros Hwf. unfold resolved, resolved_curso.
  destruct (with_materia_wf d n Hwf) as [Hwf1 Hm].
  destruct (with_curso_wf uid _ _ p Hwf1 Hm) as [[H1 H2 H3 H4] Hc].
  split; simpl; try assumption.
  - intros a Ha. apply in_app_or in Ha as [Ha|[<-|[]]].
    + rewrite <- (with_materia_archivos d n) in Ha.
      rewrite <- (with_curso_archivos uid (with_materia d n) (the_materia d n) p) in Ha.
      apply (H3 a Ha).
    + unfold curso_of. simpl. apply (first_exists _ _ _ Hc). apply Nat.eqb_refl.
Qed.

(** Every route keeps the tables well formed, whatever fails. *)
Theorem routes_keep_db_wf secure_filename strftime E uid rq w :
  db_wf (db w) ->
  db_wf (db (world_of (run_request (route secure_filename strftime E uid rq) w))).
Proof.
  intros Hwf.
  pose proof (read_only_db_cases secure_filename strftime E uid rq w) as Hro.
  destruct rq; try (rewrite Hro; exact Hwf); unfold route.
  - destruct (upload_db_cases secure_filename E uid form w) as [->|[name ->]];
      [exact Hwf | now apply uploaded_wf].
  - destruct (delete_db_cases E uid name w) as [->|(a & _ & ->)];
      [exact Hwf | now apply without_archivo_wf].
  - destruct (rename_db_cases secure_filename E uid data w) as [->|(a & n & _ & ->)];
      [exact Hwf | now apply with_archivo_renamed_wf].
Qed.

(** X16 (all routes of files.py). Whatever requests were served since the
    empty database, by whichever teachers and with whatever failures,
    subject ids and course ids are unique, every attachment's course
    exists and every course's subject exists. *)
Corollary reachable_db_wf secure_filename strftime w :
  reachable secure_filename strftime w -> db_wf (db w).
Proof.
  induction 1 as [|w E uid rq _ IH].
  - split; simpl; try apply NoDup_nil_2; intros ? [].
  - now apply routes_keep_db_wf.
Qed.

(** * Further properties of the routes *)

(** ** What each writing route can leave behind *)

(** upload_pdf either answers 200, having found the name free, written the
    bytes and committed the one new row, or answers something else and
    leaves the tables alone. *)
Lemma upload_outcomes secure_filename E uid req w :
  let r := run_request (upload_pdf secure_filename E uid req) w in
  let name := upload_name secure_filename req in
  (response_of r = mkResponse 200 (Text UploadOk)
   /\ upload_form_ok req = true
   /\ first (by_archivo_nombre name) (archivos (db w)) = None
   /\ db (world_of r) = uploaded_db secure_filename E uid req (db w)
   /\ uploads (world_of r)
      = <[Py.os_path_join UPLOAD_FOLDER name := upload_content req]> (uploads w))
  \/ (status (response_of r) <> 200 /\ db (world_of r) = db w).
Proof.
  unfold upload_pdf, ensure_materia, ensure_curso, upload_form_ok, uploaded_db,
    uploaded_row, upload_name, upload_content.
  unfold_m. all_paths.
  all: try (right; split; [discriminate | reflexivity]).
  all: left; unfold resolved, resolved_curso, with_curso, with_materia, the_curso, the_materia.
  all: unfold first in *; cbn.
  all: repeat match goal with H : find _ _ = _ |- _ => rewrite H end; cbn.
  all: repeat match goal with H : find _ _ = _ |- _ => rewrite H end; cbn.
  all: repeat match goal with H : negb _ = false |- _ => apply negb_false_iff in H end.
  all: repeat match goal with H : _ || _ = false |- _ => apply orb_false_iff in H as [? ?] end.
  all: repeat match goal with H : negb _ = false |- _ => apply negb_false_iff in H end.
  all: repeat match goal with H : _ = true |- _ => rewrite H end.
  all: repeat split; reflexivity.
Qed.

(** rename_file either answers 200, having found the row of the caller and
    the new name free and committed the new name, or answers something
    else and leaves the tables alone. *)
Lemma rename_outcomes secure_filename E uid data w :
  let r := run_request (rename_file secure_filename E uid data) w in
  let final := rename_target secure_filename data in
  (response_of r = mkResponse 200 (Text (RenameOk final))
   /\ exists a,
        first (by_nombre_docente (rename_source data) uid) (archivos (db w)) = Some a
        /\ first (by_archivo_nombre final) (archivos (db w)) = None
        /\ db (world_of r) = with_archivo_renamed a final (db w))
  \/ (status (response_of r) <> 200 /\ db (world_of r) = db w).
Proof.
  unfold rename_file, rename_target, rename_source. unfold_m. unfold first. all_paths.
  all: try (right; split; [discriminate | reflexivity]).
  all: left; split; [reflexivity|]; eexists; repeat split; try eassumption; reflexivity.
Qed.

(** delete_file either commits the deletion of the caller's row, or leaves
    the tables alone and does not answer 200. *)
Lemma delete_outcomes E uid name w :
  let r := run_request (delete_file E uid name) w in
  (exists a,
     first (by_nombre_docente name uid) (archivos (db w)) = Some a
     /\ commit_fault E = None
     /\ db (world_of r) = without_archivo a (db w))
  \/ (status (response_of r) <> 200 /\ db (world_of r) = db w).
Proof.
  unfold delete_file. unfold_m. unfold first. all_paths.
  all: try (right; split; [discriminate | reflexivity]).
  all: left; eexists; repeat split; try eassumption; reflexivity.
Qed.

(** The tables after one upload on the empty database are well formed. *)
Lemma reachable_db_wf_witness :
  db_wf
    (db (world_of (run_request
                     (route Werkzeug.secure_filename strftime_decimal (calm 10) 1
                        (PostUploadPdf notes_upload))
                     empty_world))).
Proof.
  apply (reachable_db_wf Werkzeug.secure_filename strftime_decimal).
  apply reach_request. apply reach_start.
Defined.

(** ** The example tables have unique keys *)

Lemma algebra_world_unique : db_unique (db algebra_world).
Proof.
  split; simpl; apply NoDup_singleton.
Qed.

(** ** The unique keys stay unique *)

Lemma NoDup_map_filter {A B} (f : A -> B) (p : A -> bool) (l : list A) :
  NoDup (List.map f l) -> NoDup (List.map f (List.filter p l)).
Proof.
  induction l as [|x l IH]; simpl; intros H; [exact H|].
  apply NoDup_cons in H as [Hx H]. destruct (p x); simpl; [|now apply IH].
  apply NoDup_cons. split; [|now apply IH].
  intros Hin. apply Hx. apply list_elem_of_In in Hin. apply list_elem_of_In.
  apply in_map_iff in Hin as (y & <- & Hy). apply in_map. now apply filter_In in Hy.
Qed.

Lemma NoDup_map_snoc {A B} (f : A -> B) (l : list A) (x : A) :
  NoDup (List.map f l) -> ~ In (f x) (List.map f l) -> NoDup (List.map f (l ++ [x])).
Proof.
  intros H Hx. rewrite List.map_app. simpl. apply NoDup_app.
  split; [exact H|]. split; [|apply NoDup_singleton].
  intros y Hy Hy'. apply list_elem_of_singleton in Hy'. subst y.
  apply Hx. now apply list_elem_of_In.
Qed.

Lemma first_None_key {A B} `{EqDecision B} (f : A -> B) (p : A -> bool) (l : list A) (k : B) :
  (forall x, f x = k -> p x = true) ->
  first p l = None -> ~ In k (List.map f l).
Proof.
  intros Hp Hf Hin. apply in_map_iff in Hin as (x & Hk & Hx).
  rewrite first_None_all in Hf. specialize (Hp x Hk). rewrite (Hf x Hx) in Hp. discriminate.
Qed.

Lemma with_materia_unique d n :
  NoDup (List.map Materia.nombre (materias d)) ->
  NoDup (List.map Materia.nombre (materias (with_materia d n))).
Proof.
  intros H. unfold with_materia, the_materia.
  destruct (first (by_nombre n) (materias d)) eqn:Hf; [exact H|]. simpl.
  apply NoDup_map_snoc; [exact H|]. simpl.
  apply (first_None_key Materia.nombre (by_nombre n)); [|exact Hf].
  intros x <-. unfold by_nombre. apply String.eqb_refl.
Qed.

Lemma with_curso_unique uid d m p :
  NoDup (List.map curso_key (cursos d)) ->
  NoDup (List.map curso_key (cursos (with_curso uid d m p))).
Proof.
  intros H. unfold with_curso, the_curso.
  destruct (first (by_triple uid (Materia.id m) p) (cursos d)) eqn:Hf; [exact H|]. simpl.
  apply NoDup_map_snoc; [exact H|]. simpl.
  apply (first_None_key curso_key (by_triple uid (Materia.id m) p)); [|exact Hf].
  intros x Hx. unfold curso_key in Hx. injection Hx as H1 H2 H3.
  unfold by_triple. now rewrite H1, H2, H3, !Nat.eqb_refl, String.eqb_refl.
Qed.

Lemma with_materia_cursos d n : cursos (with_materia d n) = cursos d.
Proof. unfold with_materia. now destruct (first _ _). Qed.

Lemma with_curso_materias uid d m p : materias (with_curso uid d m p) = materias d.
Proof. unfold with_curso. now destruct (first _ _). Qed.

Lemma uploaded_db_unique secure_filename E uid req d :
  db_unique d ->
  first (by_archivo_nombre (upload_name secure_filename req)) (archivos d) = None ->
  db_unique (uploaded_db secure_filename E uid req d).
Proof.
  intros [H1 H2 H3 H4] Hfree. unfold uploaded_db, resolved. split; simpl.
  - apply NoDup_map_snoc; [exact H1|]. simpl. apply next_id_fresh.
  - apply NoDup_map_snoc; [exact H2|]. simpl.
    apply (first_None_key Archivo.nombre (by_archivo_nombre (upload_name secure_filename req)));
      [|exact Hfree].
    intros x <-. unfold by_archivo_nombre. apply String.eqb_refl.
  - rewrite with_curso_materias. now apply with_materia_unique.
  - apply with_curso_unique. now rewrite with_materia_cursos.
Qed.

Lemma without_archivo_unique a d : db_unique d -> db_unique (without_archivo a d).
Proof.
  intros [H1 H2 H3 H4]. split; simpl; try assumption; now apply NoDup_map_filter.
Qed.

Lemma renamed_names a n l m :
  In m (List.map Archivo.nombre (List.map (renamed_row a n) l)) ->
  m = n \/ In m (List.map Archivo.nombre l).
Proof.
  rewrite List.map_map, !in_map_iff. intros (x & <- & Hx). unfold renamed_row.
  destruct (Nat.eqb (Archivo.id x) (Archivo.id a)); [now left|]. right. eauto.
Qed.

Lemma renamed_rest_untouched a n x l :
  ~ In (Archivo.id x) (List.map Archivo.id l) ->
  Nat.eqb (Archivo.id x) (Archivo.id a) = true ->
  List.map (renamed_row a n) l = l.
Proof.
  intros Hx Ha. apply Nat.eqb_eq in Ha.
  induction l as [|y l IH]; simpl; [reflexivity|].
  rewrite IH by (intros H; apply Hx; now right). f_equal.
  unfold renamed_row. destruct (Nat.eqb_spec (Archivo.id y) (Archivo.id a)); [|reflexivity].
  exfalso. apply Hx. left. congruence.
Qed.

Lemma renamed_nombres_unique a n l :
  NoDup (List.map Archivo.id l) ->
  NoDup (List.map Archivo.nombre l) ->
  ~ In n (List.map Archivo.nombre l) ->
  NoDup (List.map Archivo.nombre (List.map (renamed_row a n) l)).
Proof.
  induction l as [|x l IH]; simpl; intros Hid Hnm Hn; [constructor|].
  apply NoDup_cons in Hid as [Hxid Hid]. apply NoDup_cons in Hnm as [Hxnm Hnm].
  rewrite list_elem_of_In in Hxid. rewrite list_elem_of_In in Hxnm.
  destruct (Nat.eqb (Archivo.id x) (Archivo.id a)) eqn:Hx.
  - rewrite (renamed_rest_untouched a n x l Hxid Hx).
    unfold renamed_row at 1. rewrite Hx. simpl.
    apply NoDup_cons. split; [|exact Hnm]. rewrite list_elem_of_In. tauto.
  - unfold renamed_row at 1. rewrite Hx.
    apply NoDup_cons. split; [|apply IH; tauto].
    rewrite list_elem_of_In. intros Hin. apply renamed_names in Hin as [Heq|Hin]; tauto.
Qed.

Lemma with_archivo_renamed_unique a n d :
  db_unique d ->
  first (by_archivo_nombre n) (archivos d) = None ->
  db_unique (with_archivo_renamed a n d).
Proof.
  intros [H1 H2 H3 H4] Hfree. split; simpl; try assumption.
  - rewrite List.map_map. erewrite List.map_ext; [exact H1|].
    intros b. simpl. now destruct (Nat.eqb _ _).
  - apply (renamed_nombres_unique a n); try assumption.
    apply (first_None_key Archivo.nombre (by_archivo_nombre n)); [|exact Hfree].
    intros x <-. unfold by_archivo_nombre. apply String.eqb_refl.
Qed.

(** X15 (models.py unique constraints, all routes of files.py). Every
    route keeps the keys models.py declares unique: when attachment ids,
    attachment names, subject names and (teacher, subject, period) course
    triples are duplicate-free before a request, they are duplicate-free
    after it, whichever route it is and whatever fails. *)
Theorem routes_keep_db_unique secure_filename strftime E uid rq w :
  db_unique (db w) ->
  db_unique (db (world_of (run_request (route secure_filename strftime E uid rq) w))).
Proof.
  intros Hu.
  pose proof (read_only_db_cases secure_filename strftime E uid rq w) as Hro.
  destruct rq; try (rewrite Hro; exact Hu); unfold route.
  - destruct (upload_outcomes secure_filename E uid form w)
      as [(_ & _ & Hfree & -> & _)|[_ ->]]; [now apply uploaded_db_unique | exact Hu].
  - destruct (delete_outcomes E uid name w) as [(a & _ & _ & ->)|[_ ->]];
      [now apply without_archivo_unique | exact Hu].
  - destruct (rename_outcomes secure_filename E uid data w)
      as [(_ & a & _ & Hfree & ->)|[_ ->]]; [now apply with_archivo_renamed_unique | exact Hu].
Qed.

Lemma routes_keep_db_unique_witness :
  db_unique
    (db (world_of (run_request
                     (route Werkzeug.secure_filename strftime_decimal (calm 20) 1
                        (PostUploadPdf exam_upload))
                     algebra_world))).
Proof.
  exact (routes_keep_db_unique Werkzeug.secure_filename strftime_decimal (calm 20) 1
           (PostUploadPdf exam_upload) algebra_world algebra_world_unique).
Defined.

(** ** Upload: one row or nothing *)

Lemma the_materia_nombre d n : Materia.nombre (the_materia d n) = n.
Proof.
  unfold the_materia. destruct (first (by_nombre n) (materias d)) as [m|] eqn:Hf; [|reflexivity].
  apply first_Some_In in Hf as [_ Hf]. now apply String.eqb_eq in Hf.
Qed.

Lemma the_curso_fields uid d m p :
  Curso.docente_id (the_curso uid d m p) = uid
  /\ Curso.materia_id (the_curso uid d m p) = Materia.id m
  /\ Curso.periodo (the_curso uid d m p) = p.
Proof.
  unfold the_curso.
  destruct (first (by_triple uid (Materia.id m) p) (cursos d)) as [c|] eqn:Hf; [|now simpl].
  apply first_Some_In in Hf as [_ Hf]. unfold by_triple in Hf.
  apply andb_true_iff in Hf as [Hf H3]. apply andb_true_iff in Hf as [H1 H2].
  apply Nat.eqb_eq in H1, H2. apply String.eqb_eq in H3. tauto.
Qed.

(** X1 (upload_pdf). An upload is all or nothing on the tables. With any
    answer other than 200 the tables are as before. With 200 exactly one
    attachment row is appended: its id is new, its name is the stored name
    and was free before, its owner is the caller, its date is utcnow, its
    course is a course of the caller for the stripped period and the
    subject of the stripped name, both present afterwards, and the file of
    that name holds the uploaded bytes. *)
Theorem upload_all_or_nothing secure_filename E uid req w :
  let r := run_request (upload_pdf secure_filename E uid req) w in
  let n := Py.strip (default_str (form_materia_name req)) in
  let p := Py.strip (default_str (form_periodo req)) in
  let name := upload_name secure_filename req in
  (status (response_of r) <> 200 -> db (world_of r) = db w)
  /\ (status (response_of r) = 200 ->
      exists row curso materia,
        archivos (db (world_of r)) = (archivos (db w) ++ [row])%list
        /\ ~ In (Archivo.id row) (List.map Archivo.id (archivos (db w)))
        /\ ~ name_taken (db w) name
        /\ Archivo.nombre row = name
        /\ Archivo.docente_id row = uid
        /\ Archivo.fecha_subida row = utcnow E
        /\ Archivo.curso_id row = Curso.id curso
        /\ In curso (cursos (db (world_of r)))
        /\ Curso.docente_id curso = uid
        /\ Curso.periodo curso = p
        /\ Curso.materia_id curso = Materia.id materia
        /\ In materia (materias (db (world_of r)))
        /\ Materia.nombre materia = n
        /\ uploads (world_of r) !! Py.os_path_join UPLOAD_FOLDER name = Some (upload_content req)).
Proof.
  intros r n p name.
  destruct (upload_outcomes secure_filename E uid req w)
    as [(Hr & Hok & Hfree & Hdb & Hup)|[Hs Hdb]]; fold r in Hr, Hdb, Hup || fold r in Hs, Hdb.
  - split; [intros Hs; rewrite Hr in Hs; now contradiction Hs|]. intros _.
    exists (uploaded_row secure_filename E uid req (db w)),
           (resolved_curso uid (db w) n p), (the_materia (db w) n).
    rewrite Hdb, Hup. unfold uploaded_db, uploaded_row, resolved, resolved_curso. simpl.
    fold n p name.
    destruct (the_curso_fields uid (with_materia (db w) n) (the_materia (db w) n) p)
      as (Hc1 & Hc2 & Hc3).
    repeat split; try assumption.
    + apply next_id_fresh.
    + intros Ht. apply name_taken_first in Ht as [b Hb]. fold name in Hfree. congruence.
    + unfold with_curso, the_curso.
      destruct (first _ (cursos (with_materia (db w) n))) as [c|] eqn:Hf.
      * now apply first_Some_In in Hf.
      * simpl. apply in_or_app. right. now left.
    + rewrite with_curso_materias. unfold with_materia, the_materia.
      destruct (first (by_nombre n) (materias (db w))) as [m|] eqn:Hf.
      * now apply first_Some_In in Hf.
      * simpl. apply in_or_app. right. now left.
    + apply the_materia_nombre.
    + apply lookup_insert_eq.
  - split; [intros _; exact Hdb|]. intros H. contradiction.
Qed.

(** The subject is stored without the no-break space it was sent with:
    the upload goes to the existing subject and course. *)
Lemma upload_all_or_nothing_witness :
  let r := run_request (upload_pdf Werkzeug.secure_filename (calm 20) 1 padded_subject_upload)
             algebra_world in
  status (response_of r) = 200
  /\ materias (db (world_of r)) = materias (db algebra_world)
  /\ cursos (db (world_of r)) = cursos (db algebra_world)
  /\ exists row curso materia,
       archivos (db (world_of r)) = (archivos (db algebra_world) ++ [row])%list
       /\ Archivo.nombre row = "Algebra_2024A_exam.pdf"
       /\ Archivo.curso_id row = Curso.id curso
       /\ Curso.materia_id curso = Materia.id materia
       /\ Materia.nombre materia = "Algebra".
Proof.
  intros r.
  assert (Hs : status (response_of r) = 200) by (vm_compute; reflexivity).
  split; [exact Hs|]. split; [vm_compute; reflexivity|]. split; [vm_compute; reflexivity|].
  destruct (upload_all_or_nothing Werkzeug.secure_filename (calm 20) 1 padded_subject_upload
              algebra_world) as [_ Hok].
  destruct (Hok Hs)
    as (row & curso & materia & Ha & _ & _ & Hn & _ & _ & Hc & _ & _ & _ & Hm & _ & Hmn & _).
  exists row, curso, materia. repeat split; assumption.
Defined.

(** ** Rename, other teachers' rows, subjects and courses *)

(** X9 (rename_file). A rename touches nothing but names: subjects and
    courses are as before, and the attachments keep their order, ids,
    upload dates, owners and courses. With any answer other than 200 the
    tables are as before; with 200 the caller owned the old name, the new
    name was free, and the caller owns the new name afterwards. *)
Theorem rename_changes_names_only secure_filename E uid data w :
  let r := run_request (rename_file secure_filename E uid data) w in
  materias (db (world_of r)) = materias (db w)
  /\ cursos (db (world_of r)) = cursos (db w)
  /\ List.map archivo_fixed (archivos (db (world_of r)))
     = List.map archivo_fixed (archivos (db w))
  /\ (status (response_of r) <> 200 -> db (world_of r) = db w)
  /\ (status (response_of r) = 200 ->
      owns (db w) uid (rename_source data)
      /\ ~ name_taken (db w) (rename_target secure_filename data)
      /\ owns (db (world_of r)) uid (rename_target secure_filename data)).
Proof.
  intros r.
  destruct (rename_outcomes secure_filename E uid data w)
    as [(Hr & a & Ha & Hfree & Hdb)|[Hs Hdb]]; fold r in Hr, Hdb || fold r in Hs, Hdb.
  - rewrite Hdb, Hr. simpl.
    assert (Hfix : List.map archivo_fixed
                     (List.map (renamed_row a (rename_target secure_filename data))
                        (archivos (db w)))
                   = List.map archivo_fixed (archivos (db w))).
    { rewrite List.map_map. apply List.map_ext. intros b. unfold renamed_row.
      now destruct (Nat.eqb _ _). }
    split; [reflexivity|]. split; [reflexivity|]. split; [exact Hfix|].
    split; [intros H; now contradiction H|]. intros _.
    split; [apply owns_first; eauto|].
    split.
    { intros Ht. apply name_taken_first in Ht as [b Hb]. congruence. }
    apply first_Some_In in Ha as [Hin Hp]. apply by_nombre_docente_spec in Hp as [_ Hd].
    exists (renamed_row a (rename_target secure_filename data) a).
    split; [now apply (in_map (renamed_row a (rename_target secure_filename data)))|].
    unfold renamed_row. rewrite Nat.eqb_refl. simpl. tauto.
  - rewrite Hdb. split; [reflexivity|]. split; [reflexivity|]. split; [reflexivity|].
    split; [intros _; reflexivity|]. intros H. contradiction.
Qed.

(** X13 (all routes of files.py). No request of one teacher adds, removes
    or changes an attachment row of another teacher: over a table with
    unique ids, a row whose owner is not the caller is in the table after
    the request exactly when it was there before. *)
Theorem routes_leave_other_teachers_rows secure_filename strftime E uid rq w b :
  NoDup (List.map Archivo.id (archivos (db w))) ->
  Archivo.docente_id b <> uid ->
  In b (archivos (db (world_of (run_request (route secure_filename strftime E uid rq) w))))
  <-> In b (archivos (db w)).
Proof.
  intros Hids Hb.
  pose proof (read_only_db_cases secure_filename strftime E uid rq w) as Hro.
  destruct rq; try (rewrite Hro; reflexivity); unfold route.
  - destruct (upload_outcomes secure_filename E uid form w)
      as [(_ & _ & _ & -> & _)|[_ ->]]; [|reflexivity].
    unfold uploaded_db. simpl. rewrite in_app_iff. simpl. split; [|tauto].
    intros [H|[H|[]]]; [exact H|]. subst b. now contradiction Hb.
  - destruct (delete_outcomes E uid name w) as [(a & Ha & _ & ->)|[_ ->]]; [|reflexivity].
    apply first_Some_In in Ha as [Hin Hp]. apply by_nombre_docente_spec in Hp as [_ Hd].
    unfold without_archivo. simpl. rewrite filter_In. split; [tauto|].
    intros H. split; [exact H|]. apply negb_true_iff, Nat.eqb_neq. intros Heq.
    apply Hb. rewrite <- Hd. f_equal.
    exact (NoDup_map_inj_in Archivo.id _ b a Hids H Hin Heq).
  - destruct (rename_outcomes secure_filename E uid data w)
      as [(_ & a & Ha & _ & ->)|[_ ->]]; [|reflexivity].
    apply first_Some_In in Ha as [Hin Hp]. apply by_nombre_docente_spec in Hp as [_ Hd].
    unfold with_archivo_renamed. simpl. rewrite in_map_iff. split.
    + intros (x & Hx & Hxin). destruct (Nat.eqb (Archivo.id x) (Archivo.id a)) eqn:Hid.
      * apply Nat.eqb_eq in Hid.
        assert (x = a) by exact (NoDup_map_inj_in Archivo.id _ x a Hids Hxin Hin Hid).
        subst x b. simpl in Hb. now contradiction Hb.
      * now subst b.
    + intros H. exists b. split; [|exact H].
      destruct (Nat.eqb (Archivo.id b) (Archivo.id a)) eqn:Hid; [|reflexivity].
      apply Nat.eqb_eq in Hid.
      assert (b = a) by exact (NoDup_map_inj_in Archivo.id _ b a Hids H Hin Hid).
      subst b. now contradiction Hb.
Qed.

Lemma routes_leave_other_teachers_rows_witness :
  let r := run_request
             (route Werkzeug.secure_filename strftime_decimal (calm 20) 2
                (DeleteFile "Algebra_2024A_notes.pdf"))
             algebra_world in
  In (Archivo.mk 1 "Algebra_2024A_notes.pdf" 10 1 1) (archivos (db (world_of r))).
Proof.
  intros r.
  apply (routes_leave_other_teachers_rows Werkzeug.secure_filename strftime_decimal (calm 20) 2
           (DeleteFile "Algebra_2024A_notes.pdf") algebra_world
           (Archivo.mk 1 "Algebra_2024A_notes.pdf" 10 1 1)).
  - simpl. apply NoDup_singleton.
  - simpl. lia.
  - simpl. now left.
Defined.

(** X14 (all routes of files.py). Subjects and courses are only ever
    appended: after any request the subjects and the courses of before are
    a prefix of those of afterwards; deleting the last attachment of a
    course leaves the course and its subject in place. *)
Theorem routes_never_drop_subjects_or_courses secure_filename strftime E uid rq w :
  let w' := world_of (run_request (route secure_filename strftime E uid rq) w) in
  materias (db w) `prefix_of` materias (db w')
  /\ cursos (db w) `prefix_of` cursos (db w').
Proof.
  intros w'. subst w'.
  pose proof (read_only_db_cases secure_filename strftime E uid rq w) as Hro.
  destruct rq; try (rewrite Hro; split; reflexivity); unfold route.
  - destruct (upload_outcomes secure_filename E uid form w)
      as [(_ & _ & _ & -> & _)|[_ ->]]; [|split; reflexivity].
    unfold uploaded_db, resolved. simpl.
    rewrite with_curso_materias.
    split.
    + unfold with_materia. destruct (first _ _); [reflexivity|]. simpl. now apply prefix_app_r.
    + unfold with_curso. rewrite <- (with_materia_cursos (db w)) at 1.
      destruct (first _ _); [reflexivity|]. simpl. now apply prefix_app_r.
  - destruct (delete_outcomes E uid name w) as [(a & _ & _ & ->)|[_ ->]]; split; reflexivity.
  - destruct (rename_outcomes secure_filename E uid data w)
      as [(_ & a & _ & _ & ->)|[_ ->]]; split; reflexivity.
Qed.

(** ** Reading routes, rejected forms, the 500 of upload *)

(** X12 (view_file, download_file, list_files, data_for_upload). The four
    reading routes leave the tables and the uploads directory as they
    were, and perform no database or file operation, whatever the
    environment does. *)
Theorem reading_routes_write_nothing secure_filename strftime E uid rq w :
  reads_only rq = true ->
  let r := run_request (route secure_filename strftime E uid rq) w in
  world_of r = w /\ forallb (fun ev => negb (is_effect ev)) (log_of r) = true.
Proof.
  intros Hr r. subst r. destruct rq; try discriminate; unfold route.
  - unfold view_file. unfold_m. all_paths; split; try reflexivity; apply world_eta.
  - unfold download_file. unfold_m. all_paths; split; try reflexivity; apply world_eta.
  - unfold list_files. unfold_m. all_paths; split; try reflexivity; apply world_eta.
  - unfold data_for_upload. unfold_m. all_paths; split; try reflexivity; apply world_eta.
Qed.

Lemma reading_routes_write_nothing_witness :
  let r := run_request
             (route Werkzeug.secure_filename strftime_decimal database_down_disk_error 1
                (GetView "Algebra_2024A_notes.pdf"))
             algebra_world in
  response_of r = mkResponse 200 (SendFile "%PDF-1" (Some "application/pdf") false)
  /\ world_of r = algebra_world.
Proof.
  intros r. split; [vm_compute; reflexivity|].
  apply (reading_routes_write_nothing Werkzeug.secure_filename strftime_decimal
           database_down_disk_error 1 (GetView "Algebra_2024A_notes.pdf") algebra_world eq_refl).
Defined.

(** X2 (upload_pdf, the checks of lines 62-70). A form without a
    file, with an empty file name, with a subject or a period that is
    empty after stripping, or with a file name that does not end in .pdf
    (letter case apart) is answered 400 with the world unchanged and
    nothing done; every other form is answered something other than 400. *)
Theorem upload_bad_form_rejected secure_filename E uid req w :
  let r := run_request (upload_pdf secure_filename E uid req) w in
  (upload_form_ok req = false ->
   status (response_of r) = 400 /\ world_of r = w /\ log_of r = [])
  /\ (upload_form_ok req = true -> status (response_of r) <> 400).
Proof.
  unfold upload_pdf, ensure_materia, ensure_curso, upload_form_ok.
  unfold_m. cbn zeta.
  destruct (pdfFile req) as [f|]; cbn.
  2: { split; [intros _|discriminate]. now rewrite world_eta. }
  destruct (Py.truthy (filename f)), (Py.truthy (Py.strip (default_str (form_materia_name req)))),
    (Py.truthy (Py.strip (default_str (form_periodo req)))),
    (Py.endswith (Py.lower (filename f)) ".pdf"); cbn.
  all: try (split; [intros _; now rewrite world_eta | discriminate]).
  split; [discriminate|]. intros _.
  all_paths; discriminate.
Qed.

(** A subject of one no-break space is stripped to nothing. *)
Lemma upload_bad_form_rejected_witness :
  let r := run_request (upload_pdf Werkzeug.secure_filename (calm 20) 1 blank_subject_upload)
             algebra_world in
  upload_form_ok blank_subject_upload = false
  /\ status (response_of r) = 400 /\ world_of r = algebra_world /\ log_of r = [].
Proof.
  intros r. split; [reflexivity|].
  apply (upload_bad_form_rejected Werkzeug.secure_filename (calm 20) 1 blank_subject_upload
           algebra_world).
  reflexivity.
Defined.

(** X3 (upload_pdf, the generic except clause). When upload answers the
    500 of that clause, no file is left under the stored name and the
    tables are as before: the file just saved is removed, and so is an
    older file of that name. *)
Theorem upload_500_leaves_no_file secure_filename E uid req w e :
  let r := run_request (upload_pdf secure_filename E uid req) w in
  response_of r = mkResponse 500 (Text (UploadUnexpected e)) ->
  uploads (world_of r) !! Py.os_path_join UPLOAD_FOLDER (upload_name secure_filename req) = None
  /\ db (world_of r) = db w.
Proof.
  unfold upload_pdf, ensure_materia, ensure_curso, upload_name.
  unfold_m. all_paths; intros Hr; try discriminate.
  all: split; try reflexivity.
  all: try apply lookup_delete_eq.
  all: repeat match goal with H : bool_decide _ = false |- _ =>
         apply bool_decide_eq_false in H end.
  all: repeat match goal with H : ~ is_Some _ |- _ =>
         apply eq_None_not_Some in H end.
  all: try assumption.
Qed.

Lemma upload_500_leaves_no_file_witness :
  let r := run_request (upload_pdf Werkzeug.secure_filename database_down 1 exam_upload)
             algebra_world in
  response_of r = mkResponse 500 (Text (UploadUnexpected OperationalError))
  /\ uploads (world_of r) !! "uploads/Algebra_2024A_exam.pdf" = None
  /\ db (world_of r) = db algebra_world.
Proof.
  intros r.
  assert (Hr : response_of r = mkResponse 500 (Text (UploadUnexpected OperationalError)))
    by (vm_compute; reflexivity).
  split; [exact Hr|].
  exact (upload_500_leaves_no_file Werkzeug.secure_filename database_down 1 exam_upload
           algebra_world OperationalError Hr).
Defined.

(** ** Upload followed by another request *)

Lemma first_snoc_new {A} (p : A -> bool) (l : list A) (x : A) :
  first p l = None -> first p (l ++ [x]) = if p x then Some x else None.
Proof.
  unfold first. induction l as [|y l IH]; simpl; [reflexivity|].
  destruct (p y); [discriminate | exact IH].
Qed.

Lemma free_name_not_owned n uid l :
  first (by_archivo_nombre n) l = None -> first (by_nombre_docente n uid) l = None.
Proof.
  rewrite !first_None_all. intros H a Ha. unfold by_nombre_docente.
  unfold by_archivo_nombre in H. now rewrite (H a Ha).
Qed.

Lemma form_ok_accepted req :
  upload_form_ok req = true ->
  exists file,
    upload_accepted req file (Py.strip (default_str (form_materia_name req)))
      (Py.strip (default_str (form_periodo req))).
Proof.
  unfold upload_form_ok, upload_accepted. destruct (pdfFile req) as [f|]; [|discriminate].
  intros H. apply andb_true_iff in H as [H H4]. apply andb_true_iff in H as [H H3].
  apply andb_true_iff in H as [H1 H2]. exists f. tauto.
Qed.

(** X4 (upload_pdf, view_file, download_file). After an upload answered
    200, view and download of the stored name by the uploader return the
    uploaded bytes (inline as application/pdf, and as an attachment), and
    any other teacher gets 404 for that name. *)
Theorem upload_then_view secure_filename E uid req w :
  let r := run_request (upload_pdf secure_filename E uid req) w in
  let name := upload_name secure_filename req in
  status (response_of r) = 200 ->
  response_of (run_request (view_file uid name) (world_of r))
  = mkResponse 200 (SendFile (upload_content req) (Some "application/pdf") false)
  /\ response_of (run_request (download_file uid name) (world_of r))
     = mkResponse 200 (SendFile (upload_content req) None true)
  /\ forall other, other <> uid ->
       response_of (run_request (view_file other name) (world_of r))
       = mkResponse 404 NotFoundPage
       /\ response_of (run_request (download_file other name) (world_of r))
          = mkResponse 404 NotFoundPage.
Proof.
  intros r name Hs.
  destruct (upload_outcomes secure_filename E uid req w)
    as [(_ & _ & Hfree & Hdb & Hup)|[Hne _]]; [|contradiction].
  fold r name in Hdb, Hup, Hfree.
  set (row := uploaded_row secure_filename E uid req (db w)).
  assert (Harch : archivos (db (world_of r)) = (archivos (db w) ++ [row])%list)
    by now rewrite Hdb.
  assert (Hmine : first (by_nombre_docente name uid) (archivos (db (world_of r))) = Some row).
  { rewrite Harch, first_snoc_new by now apply free_name_not_owned.
    unfold by_nombre_docente, row, uploaded_row. simpl. fold name.
    now rewrite String.eqb_refl, Nat.eqb_refl. }
  split; [|split].
  - rewrite (view_owned uid name (world_of r) row Hmine). cbn.
    now rewrite Hup, lookup_insert_eq.
  - rewrite (download_owned uid name (world_of r) row Hmine). cbn.
    now rewrite Hup, lookup_insert_eq.
  - intros other Hother.
    assert (Hnone : first (by_nombre_docente name other) (archivos (db (world_of r))) = None).
    { rewrite Harch, first_snoc_new by now apply free_name_not_owned.
      unfold by_nombre_docente, row, uploaded_row. simpl.
      destruct (Nat.eqb_spec uid other); [congruence|]. now rewrite andb_false_r. }
    now rewrite (view_not_owned other name _ Hnone), (download_not_owned other name _ Hnone).
Qed.

Lemma upload_then_view_witness :
  let r := run_request (upload_pdf Werkzeug.secure_filename (calm 20) 1 exam_upload)
             algebra_world in
  status (response_of r) = 200
  /\ response_of (run_request (view_file 1 "Algebra_2024A_exam.pdf") (world_of r))
     = mkResponse 200 (SendFile "%PDF-2" (Some "application/pdf") false)
  /\ response_of (run_request (view_file 2 "Algebra_2024A_exam.pdf") (world_of r))
     = mkResponse 404 NotFoundPage.
Proof.
  intros r.
  assert (Hs : status (response_of r) = 200) by (vm_compute; reflexivity).
  destruct (upload_then_view Werkzeug.secure_filename (calm 20) 1 exam_upload algebra_world Hs)
    as (Hv & _ & Ho).
  split; [exact Hs|]. split; [exact Hv|]. apply (Ho 2). discriminate.
Defined.

(** X5 (upload_pdf). After an upload answered 200, the same form sent
    again, by the same or by another teacher, is answered 409 with the
    message that names the stored name, and changes neither the tables nor
    the directory (when resolving subject and course raises nothing). *)
Theorem upload_same_form_again secure_filename E uid req w E' uid' :
  let r := run_request (upload_pdf secure_filename E uid req) w in
  status (response_of r) = 200 ->
  flush_materia_fault E' = None ->
  flush_curso_fault E' = None ->
  let r' := run_request (upload_pdf secure_filename E' uid' req) (world_of r) in
  response_of r' = mkResponse 409 (Text (UploadExists (upload_name secure_filename req)))
  /\ world_of r' = world_of r.
Proof.
  intros r Hs Hm Hc r'.
  destruct (upload_outcomes secure_filename E uid req w)
    as [(_ & Hok & Hfree & Hdb & _)|[Hne _]]; [|contradiction].
  fold r in Hdb.
  destruct (form_ok_accepted req Hok) as [file Hacc].
  assert (Hname : upload_name secure_filename req
                  = stored_name secure_filename (Py.strip (default_str (form_materia_name req)))
                      (Py.strip (default_str (form_periodo req))) (filename file)).
  { unfold upload_name. destruct Hacc as (-> & _). reflexivity. }
  set (row := uploaded_row secure_filename E uid req (db w)).
  assert (Htaken : first (by_archivo_nombre (upload_name secure_filename req))
                     (archivos (db (world_of r))) = Some row).
  { rewrite Hdb. unfold uploaded_db. simpl. rewrite first_snoc_new by exact Hfree.
    unfold by_archivo_nombre, row, uploaded_row. simpl. now rewrite String.eqb_refl. }
  rewrite Hname in Htaken. subst r'.
  rewrite (upload_name_taken secure_filename E' uid' req (world_of r) file _ _ Hacc row Hm Hc Htaken).
  rewrite Hname. now cbn.
Qed.

Lemma upload_same_form_again_witness :
  let r := run_request (upload_pdf Werkzeug.secure_filename (calm 20) 1 exam_upload)
             algebra_world in
  let r' := run_request (upload_pdf Werkzeug.secure_filename (calm 30) 2 exam_upload)
              (world_of r) in
  status (response_of r) = 200
  /\ response_of r' = mkResponse 409 (Text (UploadExists "Algebra_2024A_exam.pdf"))
  /\ world_of r' = world_of r.
Proof.
  intros r r'.
  assert (Hs : status (response_of r) = 200) by (vm_compute; reflexivity).
  split; [exact Hs|].
  exact (upload_same_form_again Werkzeug.secure_filename (calm 20) 1 exam_upload algebra_world
           (calm 30) 2 Hs eq_refl eq_refl).
Defined.

Lemma filter_fresh_snoc (l : list Archivo.t) (x : Archivo.t) :
  ~ In (Archivo.id x) (List.map Archivo.id l) ->
  List.filter (fun b => negb (Nat.eqb (Archivo.id b) (Archivo.id x))) (l ++ [x]) = l.
Proof.
  intros Hx. rewrite List.filter_app. simpl. rewrite Nat.eqb_refl. simpl. rewrite app_nil_r.
  induction l as [|y l IH]; simpl; [reflexivity|].
  destruct (Nat.eqb_spec (Archivo.id y) (Archivo.id x)) as [Heq|Hne]; simpl.
  - exfalso. apply Hx. left. exact Heq.
  - f_equal. apply IH. intros H. apply Hx. now right.
Qed.

(** X6 (upload_pdf, delete_file). Deleting what was just uploaded undoes
    the upload on the attachments table, and on the directory when no file
    had that name before; the subject and the course the upload created
    stay. *)
Theorem upload_then_delete secure_filename E uid req w E' :
  let r := run_request (upload_pdf secure_filename E uid req) w in
  let name := upload_name secure_filename req in
  status (response_of r) = 200 ->
  commit_fault E' = None ->
  remove_fault E' = None ->
  let r' := run_request (delete_file E' uid name) (world_of r) in
  response_of r' = mkResponse 200 (Text (DeleteOk name))
  /\ archivos (db (world_of r')) = archivos (db w)
  /\ materias (db (world_of r')) = materias (db (world_of r))
  /\ cursos (db (world_of r')) = cursos (db (world_of r))
  /\ (uploads w !! Py.os_path_join UPLOAD_FOLDER name = None ->
      uploads (world_of r') = uploads w).
Proof.
  intros r name Hs Hc Hrm r'.
  destruct (upload_outcomes secure_filename E uid req w)
    as [(_ & _ & Hfree & Hdb & Hup)|[Hne _]]; [|contradiction].
  fold r name in Hdb, Hup, Hfree.
  set (row := uploaded_row secure_filename E uid req (db w)).
  assert (Hmine : first (by_nombre_docente name uid) (archivos (db (world_of r))) = Some row).
  { rewrite Hdb. unfold uploaded_db. simpl.
    rewrite first_snoc_new by now apply free_name_not_owned.
    unfold by_nombre_docente, row, uploaded_row. simpl. fold name.
    now rewrite String.eqb_refl, Nat.eqb_refl. }
  assert (Hfile : uploads (world_of r) !! Py.os_path_join UPLOAD_FOLDER name
                  = Some (upload_content req)) by now rewrite Hup, lookup_insert_eq.
  subst r'.
  rewrite (delete_file_removed E' uid name (world_of r) row _ Hmine Hc Hfile Hrm). cbn.
  split; [reflexivity|]. rewrite Hdb. unfold uploaded_db. simpl.
  split; [apply (filter_fresh_snoc _ (uploaded_row secure_filename E uid req (db w)));
          apply next_id_fresh|].
  split; [reflexivity|]. split; [reflexivity|].
  intros Hnone. rewrite Hup. now apply delete_insert_id.
Qed.

Lemma upload_then_delete_witness :
  let r := run_request (upload_pdf Werkzeug.secure_filename (calm 20) 1 exam_upload)
             algebra_world in
  let r' := run_request (delete_file (calm 30) 1 "Algebra_2024A_exam.pdf") (world_of r) in
  status (response_of r) = 200
  /\ archivos (db (world_of r')) = archivos (db algebra_world)
  /\ uploads (world_of r') = uploads algebra_world.
Proof.
  intros r r'.
  assert (Hs : status (response_of r) = 200) by (vm_compute; reflexivity).
  destruct (upload_then_delete Werkzeug.secure_filename (calm 20) 1 exam_upload algebra_world
              (calm 30) Hs eq_refl eq_refl) as (_ & Ha & _ & _ & Hu).
  split; [exact Hs|]. split; [exact Ha|]. apply Hu. vm_compute. reflexivity.
Defined.

(** ** Delete and rename, there and back *)

(** X8 (delete_file, view_file). After a delete answered 200 on tables
    with unique names, no attachment has the name any more, so anyone who
    asks to view it gets 404 and the name can be used again. *)
Theorem delete_frees_name E uid name w :
  db_unique (db w) ->
  let r := run_request (delete_file E uid name) w in
  status (response_of r) = 200 ->
  ~ name_taken (db (world_of r)) name
  /\ forall anyone,
       response_of (run_request (view_file anyone name) (world_of r))
       = mkResponse 404 NotFoundPage.
Proof.
  intros [Hids Hnames _ _] r Hs.
  destruct (delete_outcomes E uid name w) as [(a & Ha & _ & Hdb)|[Hne _]]; [|contradiction].
  fold r in Hdb. apply first_Some_In in Ha as [Hin Hp].
  apply by_nombre_docente_spec in Hp as [Hn _].
  assert (Hfree : ~ name_taken (db (world_of r)) name).
  { rewrite Hdb. intros (b & Hb & Hbn). pose proof (without_archivo_gone a _ b Hb) as Hid.
    unfold without_archivo in Hb. simpl in Hb. apply filter_In in Hb as [Hb _].
    apply Hid. f_equal.
    apply (NoDup_map_inj_in Archivo.nombre (archivos (db w)) b a Hnames Hb Hin). congruence. }
  split; [exact Hfree|]. intros anyone.
  assert (Hno : ~ owns (db (world_of r)) anyone name).
  { intros (b & Hb & Hbn & _). apply Hfree. exists b. tauto. }
  now rewrite (view_not_owned anyone name _ (not_owns_first _ _ _ Hno)).
Qed.

Lemma delete_frees_name_witness :
  let r := run_request (delete_file (calm 20) 1 "Algebra_2024A_notes.pdf") algebra_world in
  status (response_of r) = 200
  /\ ~ name_taken (db (world_of r)) "Algebra_2024A_notes.pdf"
  /\ response_of (run_request (view_file 1 "Algebra_2024A_notes.pdf") (world_of r))
     = mkResponse 404 NotFoundPage.
Proof.
  intros r.
  assert (Hs : status (response_of r) = 200) by (vm_compute; reflexivity).
  destruct (delete_frees_name (calm 20) 1 "Algebra_2024A_notes.pdf" algebra_world
              algebra_world_unique Hs) as [Hfree Hview].
  split; [exact Hs|]. split; [exact Hfree | exact (Hview 1)].
Defined.

Lemma final_name_nonempty secure_filename raw :
  Py.truthy (final_name secure_filename raw) = true.
Proof.
  unfold final_name, Py.truthy.
  destruct (Py.endswith (Py.lower (secure_filename raw)) ".pdf") eqn:He; simpl.
  - destruct (secure_filename raw); [discriminate He | reflexivity].
  - destruct (secure_filename raw); reflexivity.
Qed.

Lemma with_archivo_renamed_same_id a a' n d :
  Archivo.id a' = Archivo.id a ->
  with_archivo_renamed a' n d = with_archivo_renamed a n d.
Proof. intros H. unfold with_archivo_renamed. now rewrite H. Qed.

Lemma renamed_found a n uid l :
  In a l ->
  first (by_archivo_nombre n) l = None ->
  Archivo.docente_id a = uid ->
  exists a', first (by_nombre_docente n uid) (List.map (renamed_row a n) l) = Some a'
             /\ Archivo.id a' = Archivo.id a.
Proof.
  intros Hin Hfree Howner.
  destruct (first_exists (by_nombre_docente n uid) (List.map (renamed_row a n) l)
              (renamed_row a n a)) as [a' Ha'].
  - now apply in_map.
  - unfold renamed_row. rewrite Nat.eqb_refl. apply by_nombre_docente_spec. now simpl.
  - exists a'. split; [exact Ha'|].
    apply first_Some_In in Ha' as [Hin' Hp]. apply by_nombre_docente_spec in Hp as [Hn _].
    apply in_map_iff in Hin' as (x & <- & Hx). unfold renamed_row in *.
    destruct (Nat.eqb_spec (Archivo.id x) (Archivo.id a)) as [Heq|Hne]; [exact Heq|].
    exfalso. rewrite first_None_all in Hfree. specialize (Hfree x Hx).
    unfold by_archivo_nombre in Hfree. rewrite Hn, String.eqb_refl in Hfree. discriminate.
Qed.

Lemma old_name_freed a n l :
  NoDup (List.map Archivo.nombre l) ->
  In a l ->
  first (by_archivo_nombre n) l = None ->
  first (by_archivo_nombre (Archivo.nombre a)) (List.map (renamed_row a n) l) = None.
Proof.
  intros Hnames Hin Hfree.
  apply first_None_all. intros b Hb. apply in_map_iff in Hb as (x & <- & Hx).
  unfold by_archivo_nombre, renamed_row.
  destruct (Nat.eqb_spec (Archivo.id x) (Archivo.id a)) as [Heq|Hne]; simpl.
  - apply String.eqb_neq. intros Hn. rewrite first_None_all in Hfree.
    specialize (Hfree a Hin). unfold by_archivo_nombre in Hfree.
    rewrite <- Hn, String.eqb_refl in Hfree. discriminate.
  - apply String.eqb_neq. intros Hn. apply Hne. f_equal.
    exact (NoDup_map_inj_in Archivo.nombre l x a Hnames Hx Hin Hn).
Qed.

Lemma renamed_back a n l :
  NoDup (List.map Archivo.id l) ->
  In a l ->
  List.map (renamed_row a (Archivo.nombre a)) (List.map (renamed_row a n) l) = l.
Proof.
  intros Hids Hin.
  rewrite List.map_map. rewrite <- (List.map_id l) at 2. apply List.map_ext_in.
  intros x Hx. unfold renamed_row.
  destruct (Nat.eqb_spec (Archivo.id x) (Archivo.id a)) as [Heq|Hne]; simpl.
  - rewrite Heq, Nat.eqb_refl.
    rewrite <- (NoDup_map_inj_in Archivo.id l x a Hids Hx Hin Heq). now destruct x.
  - destruct (Nat.eqb_spec (Archivo.id x) (Archivo.id a)); [contradiction | reflexivity].
Qed.

(** X11 (rename_file). Renaming an owned attachment to a free name and
    back gives the starting world again, tables and directory: both
    requests are answered 200 when the file is on disk, nothing fails, and
    the old name is what the second request's name is normalised to. *)
Theorem rename_there_and_back secure_filename E1 E2 uid w old raw1 raw2 a content :
  db_unique (db w) ->
  Py.truthy old = true ->
  Py.truthy raw1 = true ->
  Py.truthy raw2 = true ->
  first (by_nombre_docente old uid) (archivos (db w)) = Some a ->
  ~ name_taken (db w) (final_name secure_filename raw1) ->
  final_name secure_filename raw2 = old ->
  uploads w !! Py.os_path_join UPLOAD_FOLDER old = Some content ->
  uploads w !! Py.os_path_join UPLOAD_FOLDER (final_name secure_filename raw1) = None ->
  rename_fault E1 = None -> commit_fault E1 = None ->
  rename_fault E2 = None -> commit_fault E2 = None ->
  let mid := final_name secure_filename raw1 in
  let r1 := run_request (rename_file secure_filename E1 uid (mkRename (Some old) (Some raw1))) w in
  let r2 := run_request (rename_file secure_filename E2 uid (mkRename (Some mid) (Some raw2)))
              (world_of r1) in
  response_of r1 = mkResponse 200 (Text (RenameOk mid))
  /\ response_of r2 = mkResponse 200 (Text (RenameOk old))
  /\ world_of r2 = w.
Proof.
  intros [Hids Hnames _ _] Hto Ht1 Ht2 Ha Hfree Hback Hfile Hnofile Hr1 Hc1 Hr2 Hc2 mid r1 r2.
  assert (Hnone : first (by_archivo_nombre mid) (archivos (db w)) = None).
  { destruct (first (by_archivo_nombre mid) (archivos (db w))) as [b|] eqn:Hb; [|reflexivity].
    exfalso. apply Hfree. apply name_taken_first. eauto. }
  pose proof (rename_done secure_filename E1 uid (mkRename (Some old) (Some raw1)) w old raw1 a
                eq_refl eq_refl Hto Ht1 Ha Hnone content Hfile Hr1 Hc1) as H1.
  fold r1 mid in H1.
  destruct (first_Some_In _ _ _ Ha) as [Hin Hp]. apply by_nombre_docente_spec in Hp as [Hn Hd].
  destruct (renamed_found a mid uid (archivos (db w)) Hin Hnone Hd) as (a' & Ha' & Hid').
  pose proof (old_name_freed a mid (archivos (db w)) Hnames Hin Hnone) as Hfreed.
  rewrite Hn in Hfreed.
  set (w1 := world_of r1) in *.
  assert (Hw1 : w1 = mkWorld (with_archivo_renamed a mid (db w))
                       (<[Py.os_path_join UPLOAD_FOLDER mid := content]>
                          (delete (Py.os_path_join UPLOAD_FOLDER old) (uploads w))))
    by (unfold w1; now rewrite H1).
  assert (Hfile2 : uploads w1 !! Py.os_path_join UPLOAD_FOLDER mid = Some content)
    by (rewrite Hw1; apply lookup_insert_eq).
  assert (Ha2 : first (by_nombre_docente mid uid) (archivos (db w1)) = Some a')
    by (rewrite Hw1; exact Ha').
  assert (Hnone2 : first (by_archivo_nombre (final_name secure_filename raw2)) (archivos (db w1))
                   = None) by (rewrite Hw1, Hback; exact Hfreed).
  pose proof (rename_done secure_filename E2 uid (mkRename (Some mid) (Some raw2)) w1 mid raw2 a'
                eq_refl eq_refl (final_name_nonempty secure_filename raw1) Ht2 Ha2 Hnone2
                content Hfile2 Hr2 Hc2) as H2.
  fold r2 in H2. rewrite H1, H2, Hback. cbn.
  split; [reflexivity|]. split; [reflexivity|].
  rewrite (with_archivo_renamed_same_id a a' old _ Hid'), Hw1. cbn.
  rewrite <- (world_eta w) at 3. f_equal.
  - unfold with_archivo_renamed. cbn. rewrite <- Hn.
    change (mkDB (materias (db w)) (cursos (db w))
              (List.map (renamed_row a (Archivo.nombre a))
                 (List.map (renamed_row a mid) (archivos (db w)))) = db w).
    rewrite (renamed_back a mid (archivos (db w)) Hids Hin). now destruct (db w).
  - rewrite delete_insert_id by (rewrite lookup_delete_ne; [exact Hnofile|];
      intros Heq; apply os_path_join_uploads_inj in Heq;
      rewrite first_None_all in Hnone; specialize (Hnone a Hin);
      unfold by_archivo_nombre in Hnone; rewrite Hn, Heq, String.eqb_refl in Hnone;
      discriminate).
    rewrite insert_delete_eq. now apply insert_id.
Qed.

Lemma rename_there_and_back_witness :
  let r1 := run_request
              (rename_file Werkzeug.secure_filename (calm 20) 1
                 (mkRename (Some "Algebra_2024A_notes.pdf") (Some "x")))
              algebra_world in
  let r2 := run_request
              (rename_file Werkzeug.secure_filename (calm 30) 1
                 (mkRename (Some "x.pdf") (Some "Algebra_2024A_notes")))
              (world_of r1) in
  response_of r1 = mkResponse 200 (Text (RenameOk "x.pdf"))
  /\ response_of r2 = mkResponse 200 (Text (RenameOk "Algebra_2024A_notes.pdf"))
  /\ world_of r2 = algebra_world.
Proof.
  intros r1 r2.
  apply (rename_there_and_back Werkzeug.secure_filename (calm 20) (calm 30) 1 algebra_world
           "Algebra_2024A_notes.pdf" "x" "Algebra_2024A_notes"
           (Archivo.mk 1 "Algebra_2024A_notes.pdf" 10 1 1) "%PDF-1"
           algebra_world_unique eq_refl eq_refl eq_refl eq_refl).
  - intros (b & Hin & Hn). simpl in Hin. destruct Hin as [<-|[]]. discriminate.
  - vm_compute. reflexivity.
  - vm_compute. reflexivity.
  - vm_compute. reflexivity.
  - reflexivity.
  - reflexivity.
  - reflexivity.
  - reflexivity.
Defined.

(** ** The extension of a renamed file; upload, then list *)

Lemma endswith_eq s suf :
  Py.endswith s suf
  = if String.eqb s suf then true
    else match s with
         | EmptyString => false
         | String _ s' => Py.endswith s' suf
         end.
Proof. now destruct s. Qed.

Lemma endswith_app s suf : Py.endswith (s ++ suf) suf = true.
Proof.
  induction s as [|c s IH]; rewrite endswith_eq.
  - cbn. now rewrite String.eqb_refl.
  - destruct (String.eqb _ _); [reflexivity | exact IH].
Qed.

Lemma final_name_pdf secure_filename raw :
  Py.endswith (Py.lower (final_name secure_filename raw)) ".pdf" = true.
Proof.
  unfold final_name.
  destruct (Py.endswith (Py.lower (secure_filename raw)) ".pdf") eqn:He; simpl; [exact He|].
  rewrite lower_app. apply endswith_app.
Qed.

(** X10 (rename_file). A rename answered 200 reports a final name that
    ends in .pdf, letter case apart, whatever name was asked for, and the
    caller owns that name afterwards. *)
Theorem rename_keeps_pdf_extension secure_filename E uid data w :
  let r := run_request (rename_file secure_filename E uid data) w in
  status (response_of r) = 200 ->
  exists final,
    response_of r = mkResponse 200 (Text (RenameOk final))
    /\ Py.endswith (Py.lower final) ".pdf" = true
    /\ owns (db (world_of r)) uid final.
Proof.
  intros r Hs.
  destruct (rename_outcomes secure_filename E uid data w)
    as [(Hr & a & Ha & Hfree & Hdb)|[Hne _]]; [|contradiction].
  fold r in Hr, Hdb. exists (rename_target secure_filename data).
  split; [exact Hr|]. split; [apply final_name_pdf|].
  apply first_Some_In in Ha as [Hin Hp]. unfold by_nombre_docente in Hp.
  apply andb_true_iff in Hp as [_ Hu]. apply Nat.eqb_eq in Hu.
  rewrite Hdb. unfold owns, with_archivo_renamed. simpl.
  exists (renamed_row a (rename_target secure_filename data) a).
  split.
  - apply in_map_iff. exists a. now split.
  - unfold renamed_row. now rewrite Nat.eqb_refl.
Qed.

Lemma rename_keeps_pdf_extension_witness :
  let r := run_request
             (rename_file Werkzeug.secure_filename (calm 20) 1
                (mkRename (Some "Algebra_2024A_notes.pdf") (Some "final exam")))
             algebra_world in
  response_of r = mkResponse 200 (Text (RenameOk "final_exam.pdf"))
  /\ exists final,
       response_of r = mkResponse 200 (Text (RenameOk final))
       /\ Py.endswith (Py.lower final) ".pdf" = true
       /\ owns (db (world_of r)) 1 final.
Proof.
  intros r. split; [vm_compute; reflexivity|].
  apply (rename_keeps_pdf_extension Werkzeug.secure_filename (calm 20) 1
           (mkRename (Some "Algebra_2024A_notes.pdf") (Some "final exam")) algebra_world).
  vm_compute. reflexivity.
Defined.

Lemma first_by_id {A} (f : A -> nat) (l : list A) (x : A) :
  NoDup (List.map f l) -> In x l -> first (fun y => Nat.eqb (f y) (f x)) l = Some x.
Proof.
  unfold first. induction l as [|y l IH]; simpl; [tauto|].
  rewrite NoDup_cons, list_elem_of_In. intros [Hy Hnd] [->|Hin].
  - now rewrite Nat.eqb_refl.
  - destruct (Nat.eqb_spec (f y) (f x)) as [Heq|_]; [|now apply IH].
    exfalso. apply Hy. rewrite Heq. now apply in_map.
Qed.

Lemma resolved_members uid d n p :
  In (resolved_curso uid d n p) (cursos (resolved uid d n p))
  /\ In (the_materia d n) (materias (resolved uid d n p)).
Proof.
  unfold resolved, resolved_curso. split.
  - unfold with_curso, the_curso.
    destruct (first _ (cursos (with_materia d n))) as [c|] eqn:Hf.
    + now apply first_Some_In in Hf.
    + simpl. apply in_or_app. right. now left.
  - rewrite with_curso_materias. unfold with_materia, the_materia.
    destruct (first (by_nombre n) (materias d)) as [m|] eqn:Hf.
    + now apply first_Some_In in Hf.
    + simpl. apply in_or_app. right. now left.
Qed.

(** X7 (upload_pdf, list_files). After an upload answered 200 on
    well-formed tables, the uploader's list shows the new file: an entry
    with the new id, the stored name, the label "subject (period)" of the
    stripped form values and the formatted upload time; the list of any
    other teacher has no entry of that name. *)
Theorem upload_then_listed secure_filename strftime E uid req w E' :
  db_wf (db w) ->
  let r := run_request (upload_pdf secure_filename E uid req) w in
  let n := Py.strip (default_str (form_materia_name req)) in
  let p := Py.strip (default_str (form_periodo req)) in
  let name := upload_name secure_filename req in
  status (response_of r) = 200 ->
  query_fault E' = None ->
  (exists entries,
     response_of (run_request (list_files strftime E' uid None) (world_of r))
     = mkResponse 200 (JsonFiles entries)
     /\ In (mkEntry (next_id (List.map Archivo.id (archivos (db w)))) name
              (n ++ " (" ++ p ++ ")") (strftime (utcnow E)))
          entries)
  /\ forall other, other <> uid ->
       exists entries,
         response_of (run_request (list_files strftime E' other None) (world_of r))
         = mkResponse 200 (JsonFiles entries)
         /\ forall e, In e entries -> entry_name e <> name.
Proof.
  intros Hwf r n p name Hs Hq.
  destruct (upload_outcomes secure_filename E uid req w)
    as [(_ & _ & Hfree & Hdb & _)|[Hne _]]; [|contradiction].
  fold r name in Hdb, Hfree.
  set (row := uploaded_row secure_filename E uid req (db w)) in *.
  assert (Hwf' : db_wf (db (world_of r))).
  { rewrite Hdb. unfold uploaded_db. apply uploaded_wf. exact Hwf. }
  assert (Harch : archivos (db (world_of r)) = (archivos (db w) ++ [row])%list)
    by now rewrite Hdb.
  split.
  - eexists. rewrite (list_files_runs strftime E' uid None (world_of r) Hq). cbn.
    split; [reflexivity|].
    apply in_map_iff. exists row. split.
    + unfold to_entry, course_label, curso_of, materia_of. subst row.
      unfold uploaded_row at 1 2 3. cbn. fold n p name.
      destruct (resolved_members uid (db w) n p) as [Hc Hm].
      assert (Hcs : cursos (db (world_of r)) = cursos (resolved uid (db w) n p))
        by now rewrite Hdb.
      assert (Hms : materias (db (world_of r)) = materias (resolved uid (db w) n p))
        by now rewrite Hdb.
      rewrite (first_by_id Curso.id _ (resolved_curso uid (db w) n p))
        by first [apply (wf_curso_ids _ Hwf') | rewrite Hcs; exact Hc].
      destruct (the_curso_fields uid (with_materia (db w) n) (the_materia (db w) n) p)
        as (_ & Hc2 & Hc3).
      fold (resolved_curso uid (db w) n p) in Hc2, Hc3. rewrite Hc2.
      rewrite (first_by_id Materia.id _ (the_materia (db w) n))
        by first [apply (wf_materia_ids _ Hwf') | rewrite Hms; exact Hm].
      now rewrite the_materia_nombre, Hc3.
    + eapply Permutation_in; [symmetry; apply merge_sort_Permutation|].
      unfold list_query. cbn. apply filter_In. split.
      * rewrite Harch. apply in_or_app. right. now left.
      * subst row. unfold uploaded_row. cbn. apply Nat.eqb_refl.
  - intros other Hother. eexists.
    rewrite (list_files_runs strftime E' other None (world_of r) Hq). cbn.
    split; [reflexivity|].
    intros e He. apply in_map_iff in He as (a & <- & Ha).
    eapply Permutation_in in Ha; [|apply merge_sort_Permutation].
    unfold list_query in Ha. cbn in Ha. apply filter_In in Ha as [Ha Hown].
    apply Nat.eqb_eq in Hown. cbn. intros Hname.
    rewrite Harch in Ha. apply in_app_or in Ha as [Ha|[<-|[]]].
    + rewrite first_None_all in Hfree. specialize (Hfree a Ha).
      unfold by_archivo_nombre in Hfree. rewrite Hname, String.eqb_refl in Hfree.
      discriminate.
    + subst row. unfold uploaded_row in Hown. cbn in Hown. congruence.
Qed.

Lemma upload_then_listed_witness :
  let r := run_request (upload_pdf Werkzeug.secure_filename (calm 20) 1 exam_upload)
             algebra_world in
  status (response_of r) = 200
  /\ exists entries,
       response_of (run_request (list_files strftime_decimal (calm 30) 1 None) (world_of r))
       = mkResponse 200 (JsonFiles entries)
       /\ In (mkEntry 2 "Algebra_2024A_exam.pdf" "Algebra (2024A)" "20") entries.
Proof.
  intros r.
  assert (Hs : status (response_of r) = 200) by (vm_compute; reflexivity).
  split; [exact Hs|].
  exact (proj1 (upload_then_listed Werkzeug.secure_filename strftime_decimal (calm 20) 1
                  exam_upload algebra_world (calm 30) algebra_world_wf Hs eq_refl)).
Defined.

(** * The account routes *)

(** ** Seeding and registration *)

(** X18 (create_app). Seeding is idempotent and never touches teachers:
    starting the application twice gives the tables of starting it once;
    a non-empty careers table is left as it is; an empty one receives the
    sixteen careers of the list, in its order, with ids 1 to 16; the table
    is never empty afterwards. *)
Theorem create_app_seeds_once acc :
  create_app (create_app acc) = create_app acc
  /\ docentes (create_app acc) = docentes acc
  /\ carreras (create_app acc) <> []
  /\ (carreras acc <> [] -> create_app acc = acc)
  /\ (carreras acc = [] ->
      List.map Carrera.id (carreras (create_app acc)) = seq 1 (List.length seed_rows)
      /\ List.map (fun c => (Carrera.nombre c, Carrera.campus c)) (carreras (create_app acc))
         = seed_rows).
Proof.
  unfold create_app. destruct (carreras acc) as [|c cs] eqn:Hc; simpl.
  - repeat split; try discriminate; try reflexivity. intros H. now contradiction H.
  - rewrite Hc. simpl. repeat split; try discriminate; try reflexivity.
Qed.

Lemma existsb_false_not_in {A B} (f : A -> B) (p : A -> bool) (l : list A) (k : B) :
  (forall x, f x = k -> p x = true) ->
  existsb p l = false -> ~ In k (List.map f l).
Proof.
  intros Hp He Hin. apply in_map_iff in Hin as (x & Hk & Hx).
  assert (existsb p l = true) by (apply existsb_exists; exists x; auto). congruence.
Qed.

Ltac again_page :=
  left; cbn; split; [discriminate|]; split; [reflexivity|]; left; reflexivity.

Lemma register_outcomes gen int E salt m form v :
  let r := register gen int E salt m form v in
  let nomina := Py.strip (form_get_or_empty form "numero_nomina") in
  let email := Py.strip (form_get_or_empty form "email") in
  (shown r <> RedirectTo "auth.login" /\ after r = v
   /\ (shown r = RenderTemplate "register.html"
       \/ (shown r = ServerErrorPage /\ flashed r = [] /\ m = POST
           /\ valid_carrera int (accounts v) (default_str (form_get form "carrera_id"))
              = CarreraOverflow)))
  \/ (shown r = RedirectTo "auth.login" /\ flashed r = [FlashRegistered] /\ m = POST
      /\ register_form_valid int form (accounts v) = true
      /\ existsb (by_nomina nomina) (docentes (accounts v)) = false
      /\ existsb (by_email email) (docentes (accounts v)) = false
      /\ exists carrera,
           valid_carrera int (accounts v) (default_str (form_get form "carrera_id"))
           = CarreraFound carrera
           /\ after r
              = mkVisit
                  (mkAccounts (carreras (accounts v))
                     (docentes (accounts v)
                        ++ [Docente.mk (next_id (List.map Docente.id (docentes (accounts v))))
                              nomina (Py.strip (form_get_or_empty form "nombre"))
                              (default_str (form_get form "campus")) email
                              (gen salt (default_str (form_get form "password")))
                              (Carrera.id carrera)]))
                  (user_id v)).
Proof.
  unfold register, register_form_valid, commit_new_docente. cbn zeta.
  destruct m; [again_page|].
  destruct (Py.truthy (Py.strip (form_get_or_empty form "numero_nomina"))
            && Py.truthy (Py.strip (form_get_or_empty form "nombre"))
            && given (form_get form "campus") && given (form_get form "carrera_id")
            && Py.truthy (Py.strip (form_get_or_empty form "email"))
            && given (form_get form "password") && given (form_get form "confirm_password"));
    cbn; [|again_page].
  destruct (String.eqb _ _); cbn; [|again_page].
  destruct (valid_carrera int (accounts v) _) as [c| |] eqn:Hc; cbn; [|again_page|].
  - destruct (commit_fault E) as [e|]; cbn.
    { destruct (is_integrity e); again_page. }
    destruct (existsb (by_nomina _) _) eqn:Hn; cbn; [again_page|].
    destruct (existsb (by_email _) _) eqn:He; cbn; [again_page|].
    right. repeat split. exists c. split; reflexivity.
  - left. split; [discriminate|]. split; [reflexivity|]. right. now repeat split.
Qed.

(** X19 (register). A registration has three outcomes. It shows the form
    again and leaves tables and session as they were. Or it answers the
    500 page, again with tables and session as they were: this happens
    only for a POST whose career id is an integer outside SQLite's 64
    bits, where the lookup raises the OverflowError the handler does not
    catch. Or it redirects to the login page after appending exactly one
    teacher: with a new id, a payroll number and an email no row had, the
    stripped non-empty number, name and email of the form, the hash of
    the password that was also given as confirmation, and an existing
    career. The careers and the session are never changed. *)
Theorem register_all_or_nothing gen int E salt m form v :
  let r := register gen int E salt m form v in
  user_id (after r) = user_id v
  /\ carreras (accounts (after r)) = carreras (accounts v)
  /\ ((shown r = RenderTemplate "register.html" /\ after r = v)
      \/ (shown r = ServerErrorPage /\ flashed r = [] /\ after r = v /\ m = POST
          /\ exists z, int (default_str (form !! "carrera_id")) = Some z
                       /\ sqlite_integer z = false)
      \/ (shown r = RedirectTo "auth.login" /\ m = POST
          /\ exists nuevo carrera password,
               docentes (accounts (after r)) = (docentes (accounts v) ++ [nuevo])%list
               /\ ~ In (Docente.id nuevo) (List.map Docente.id (docentes (accounts v)))
               /\ ~ In (Docente.numero_nomina nuevo)
                    (List.map Docente.numero_nomina (docentes (accounts v)))
               /\ ~ In (Docente.email nuevo) (List.map Docente.email (docentes (accounts v)))
               /\ Docente.numero_nomina nuevo = Py.strip (form_get_or_empty form "numero_nomina")
               /\ Docente.nombre nuevo = Py.strip (form_get_or_empty form "nombre")
               /\ Docente.email nuevo = Py.strip (form_get_or_empty form "email")
               /\ Docente.numero_nomina nuevo <> "" /\ Docente.nombre nuevo <> ""
               /\ Docente.email nuevo <> ""
               /\ form !! "password" = Some password
               /\ form !! "confirm_password" = Some password
               /\ password <> ""
               /\ Docente.password nuevo = gen salt password
               /\ In carrera (carreras (accounts v))
               /\ Docente.carrera_id nuevo = Carrera.id carrera)).
Proof.
  intros r.
  destruct (register_outcomes gen int E salt m form v)
    as [(_ & Ha & [Hs|(Hs & Hf & Hm & Hc)])|(Hs & _ & Hm & Hvalid & Hn & He & c & Hc & Ha)];
    fold r in Hs, Ha; try fold r in Hf.
  - rewrite Ha. split; [reflexivity|]. split; [reflexivity|]. left. now split.
  - rewrite Ha. split; [reflexivity|]. split; [reflexivity|]. right. left.
    split; [exact Hs|]. split; [exact Hf|]. split; [reflexivity|]. split; [exact Hm|].
    unfold valid_carrera, form_get in Hc.
    destruct (int (default_str (form !! "carrera_id"))) as [z|]; [|discriminate].
    exists z. split; [reflexivity|].
    destruct (sqlite_integer z); [|reflexivity]. now destruct (first _ _).
  - rewrite Ha. cbn. split; [reflexivity|]. split; [reflexivity|]. right. right.
    split; [exact Hs|]. split; [exact Hm|].
    unfold register_form_valid in Hvalid.
    repeat match type of Hvalid with _ && _ = true =>
      let H := fresh "Hv" in apply andb_true_iff in Hvalid as [Hvalid H] end.
    unfold form_get, given in *.
    destruct (form !! "password") as [pw|] eqn:Hpw; [|discriminate].
    destruct (form !! "confirm_password") as [pw'|] eqn:Hpw'; [|discriminate].
    match goal with H : String.eqb _ _ = true |- _ => cbn in H; apply String.eqb_eq in H; subst pw' end.
    assert (Hne : forall s, Py.truthy s = true -> s <> "").
    { intros s Ht ->. discriminate Ht. }
    eexists _, c, pw. cbn.
    split; [reflexivity|]. split; [apply next_id_fresh|].
    split. { apply (existsb_false_not_in Docente.numero_nomina
                      (by_nomina (Py.strip (form_get_or_empty form "numero_nomina"))));
               [|exact Hn].
             intros x Hx. cbn in Hx. unfold by_nomina. rewrite Hx. apply String.eqb_refl. }
    split. { apply (existsb_false_not_in Docente.email
                      (by_email (Py.strip (form_get_or_empty form "email")))); [|exact He].
             intros x Hx. cbn in Hx. unfold by_email. rewrite Hx. apply String.eqb_refl. }
    repeat (split; [reflexivity || (apply Hne; assumption)|]).
    split; [|reflexivity].
    unfold valid_carrera in Hc. destruct (int _) as [z|]; [|discriminate].
    destruct (sqlite_integer z); [|discriminate].
    destruct (first _ (carreras (accounts v))) as [c'|] eqn:Hf; [|discriminate].
    injection Hc as ->. now apply first_Some_In in Hf.
Qed.

Lemma register_all_or_nothing_witness :
  let v := mkVisit seeded None in
  let r := register plain_hash int_of_digits (calm 20) "salt" POST overflow_form v in
  shown r = ServerErrorPage /\ flashed r = [] /\ after r = v.
Proof.
  intros v r.
  destruct (register_all_or_nothing plain_hash int_of_digits (calm 20) "salt" POST
              overflow_form v) as (_ & _ & [[Hs _]|[(Hs & Hf & Ha & _)|(Hs & _)]]).
  - vm_compute in Hs. discriminate Hs.
  - split; [exact Hs|]. split; [exact Hf | exact Ha].
  - vm_compute in Hs. discriminate Hs.
Defined.

(** The same id sent to edit_profile by a teacher who is logged in. *)
Example edit_profile_overflow :
  let v := ana_and_luz (Some 2) in
  let r := edit_profile plain_hash int_of_digits (calm 20) "salt" POST
             (<["carrera_id" := "9223372036854775808"]> luz_new_email) v in
  shown r = ServerErrorPage /\ after r = v.
Proof. vm_compute. split; reflexivity. Qed.



(** ** Login *)

Lemma login_cases chk m form v :
  let r := login chk m form v in
  after r = v
  \/ (current_user_of v = None /\ m = POST
      /\ exists d password,
           first (by_email (Docente.email d)) (docentes (accounts v)) = Some d
           /\ form !! "email" = Some (Docente.email d)
           /\ form !! "password" = Some password
           /\ chk (Docente.password d) password = true
           /\ after r = mkVisit (accounts v) (Some (Docente.id d))).
Proof.
  unfold login. cbn zeta.
  destruct (current_user_of v) as [d0|] eqn:Hcur; cbn; [now left|].
  destruct m; cbn; [now left|].
  destruct (form !! "email") as [email|] eqn:Hem, (form !! "password") as [pw|] eqn:Hpw;
    cbn; try now left.
  destruct (first (by_email email) _) as [d|] eqn:Hd; cbn; [|now left].
  destruct (chk (Docente.password d) pw) eqn:Hchk; cbn; [|now left].
  right. split; [reflexivity|]. split; [reflexivity|].
  pose proof (first_Some_In _ _ _ Hd) as [Hin Hp]. apply String.eqb_eq in Hp.
  exists d, pw. rewrite Hp. repeat split; try assumption. now destruct (first_word _).
Qed.

(** X21 (login). Login never changes the tables. The session changes only
    for an anonymous POST whose email is that of a stored teacher and whose
    password passes check_password_hash against that teacher's stored hash,
    and then it names that teacher. A visitor who is logged in already is
    redirected to the dashboard with nothing changed. *)
Theorem login_needs_matching_hash chk m form v :
  let r := login chk m form v in
  accounts (after r) = accounts v
  /\ (user_id (after r) = user_id v
      \/ (current_user_of v = None /\ m = POST
          /\ exists d password,
               In d (docentes (accounts v))
               /\ form !! "email" = Some (Docente.email d)
               /\ form !! "password" = Some password
               /\ chk (Docente.password d) password = true
               /\ user_id (after r) = Some (Docente.id d)))
  /\ (current_user_of v <> None ->
      shown r = RedirectTo "dashboard.home" /\ flashed r = [] /\ after r = v).
Proof.
  unfold login. cbn zeta.
  destruct (current_user_of v) as [d0|] eqn:Hcur; cbn.
  { split; [reflexivity|]. split; [now left|]. intros _. now repeat split. }
  split; [|split; [|intros H; now contradiction H]].
  - destruct m; cbn; [reflexivity|].
    destruct (form !! "email"), (form !! "password"); cbn; try reflexivity.
    destruct (first _ _) as [d|]; cbn; [|reflexivity].
    destruct (chk _ _); cbn; [|reflexivity]. now destruct (first_word _).
  - destruct m; cbn; [now left|].
    destruct (form !! "email") as [email|] eqn:Hem, (form !! "password") as [pw|] eqn:Hpw;
      cbn; try now left.
    destruct (first (by_email email) _) as [d|] eqn:Hd; cbn; [|now left].
    destruct (chk (Docente.password d) pw) eqn:Hchk; cbn; [|now left].
    right. split; [reflexivity|]. split; [reflexivity|].
    apply first_Some_In in Hd as [Hin Hp]. apply String.eqb_eq in Hp.
    exists d, pw. rewrite Hp. repeat split; try assumption. now destruct (first_word _).
Qed.

Lemma lstrip_stable s : Py.starts_with_space s = false -> Py.lstrip s = s.
Proof.
  destruct s as [|c [|d [|e s]]]; cbn; intros H; try reflexivity.
  - apply orb_false_iff in H as [-> _]. reflexivity.
  - apply orb_false_iff in H as [-> H]. apply orb_false_iff in H as [-> _]. reflexivity.
  - apply orb_false_iff in H as [-> H]. apply orb_false_iff in H as [-> ->]. reflexivity.
Qed.

Lemma lstrip_head s : Py.starts_with_space (Py.lstrip s) = false.
Proof.
  assert (H : forall n s, String.length s <= n -> Py.starts_with_space (Py.lstrip s) = false).
  { clear s. induction n as [|n IH]; intros s Hn.
    - destruct s; [reflexivity | simpl in Hn; lia].
    - destruct s as [|c s1]; [reflexivity|]. simpl in Hn.
      destruct (Py.starts_with_space (String c s1)) eqn:Hs.
      + cbn in Hs |- *. destruct (Py.isspace c); [apply IH; lia|].
        destruct s1 as [|d s2]; [discriminate Hs|]. simpl in Hn.
        destruct (Py.isspace2 c d); [apply IH; lia|].
        destruct s2 as [|e s3]; [discriminate Hs|]. simpl in Hn.
        cbn in Hs. rewrite Hs. apply IH. lia.
      + now rewrite (lstrip_stable _ Hs). }
  apply (H (String.length s)). lia.
Qed.

Lemma rstrip_prefix t : exists suf, t = Py.rstrip t ++ suf.
Proof.
  induction t as [|c t [suf IH]]; [now exists ""|].
  cbn [Py.rstrip]. destruct (String.eqb _ _).
  - now exists (String c t).
  - exists suf. change (String c t = String c (Py.rstrip t ++ suf)). now f_equal.
Qed.

Lemma starts_with_space_app p suf :
  Py.starts_with_space p = true -> Py.starts_with_space (p ++ suf) = true.
Proof.
  destruct p as [|c [|d [|e p]]]; simpl; intros H;
    try discriminate.
  - rewrite orb_false_r in H. now rewrite H.
  - rewrite orb_false_r in H. apply orb_true_iff in H as [-> | ->]; [reflexivity|].
    now rewrite orb_true_r.
  - exact H.
Qed.

Lemma strip_first_word s :
  Py.truthy (Py.strip s) = true -> exists w, first_word (Py.strip s) = Some w.
Proof.
  unfold Py.strip, first_word, Py.truthy. intros Ht.
  pose proof (lstrip_head s) as Hhead.
  destruct (Py.lstrip s) as [|c t] eqn:Hl; [discriminate Ht|].
  cbn [Py.rstrip] in Ht |- *.
  destruct (String.eqb (Py.lstrip (String c t)) "") eqn:He; [discriminate Ht|].
  assert (Hstart : Py.starts_with_space (String c (Py.rstrip t)) = false).
  { destruct (Py.starts_with_space (String c (Py.rstrip t))) eqn:Hs; [|reflexivity].
    destruct (rstrip_prefix t) as [suf Hsuf].
    apply (starts_with_space_app _ suf) in Hs.
    change (String c (Py.rstrip t) ++ suf) with (String c (Py.rstrip t ++ suf)) in Hs.
    rewrite <- Hsuf in Hs.
    congruence. }
  rewrite (lstrip_stable _ Hstart). eauto.
Qed.

(** X22 (register, login, load_user). A teacher who has just registered
    can log in: after a registration that redirects to the login page, a
    login with the stripped email and the same password redirects to the
    dashboard, and the current user is the row the registration added.
    The hash function and the check are assumed to agree, as bcrypt's do. *)
Theorem register_then_login gen chk int E salt form v form' :
  user_id v = None ->
  let r := register gen int E salt POST form v in
  shown r = RedirectTo "auth.login" ->
  (forall password, chk (gen salt password) password = true) ->
  form' !! "email" = Some (Py.strip (form_get_or_empty form "email")) ->
  form' !! "password" = form !! "password" ->
  let r' := login chk POST form' (after r) in
  shown r' = RedirectTo "dashboard.home"
  /\ exists nuevo,
       current_user_of (after r') = Some nuevo
       /\ In nuevo (docentes (accounts (after r)))
       /\ ~ In nuevo (docentes (accounts v))
       /\ Docente.email nuevo = Py.strip (form_get_or_empty form "email").
Proof.
  intros Hanon r Hs Hbcrypt Hemail Hpw r'.
  destruct (register_outcomes gen int E salt POST form v)
    as [(Hs' & _)|(_ & _ & _ & Hvalid & Hn & He & c & Hc & Ha)]; fold r in Hs' || fold r in Ha.
  { now contradiction Hs'. }
  clearbody r. unfold register_form_valid in Hvalid.
  repeat match type of Hvalid with _ && _ = true =>
    let H := fresh "Hv" in apply andb_true_iff in Hvalid as [Hvalid H] end.
  unfold form_get, given in *.
  destruct (form !! "password") as [pw|] eqn:Hpwf; [|discriminate].
  set (nuevo := Docente.mk (next_id (List.map Docente.id (docentes (accounts v))))
                  (Py.strip (form_get_or_empty form "numero_nomina"))
                  (Py.strip (form_get_or_empty form "nombre"))
                  (default_str (form !! "campus")) (Py.strip (form_get_or_empty form "email"))
                  (gen salt pw) (Carrera.id c)) in *.
  cbn in Ha.
  assert (Hfind : first (by_email (Py.strip (form_get_or_empty form "email")))
                    (docentes (accounts (after r))) = Some nuevo).
  { rewrite Ha. cbn. rewrite first_snoc_new.
    - unfold by_email, nuevo. cbn. now rewrite String.eqb_refl.
    - apply first_None_all. intros d Hd.
      destruct (by_email _ d) eqn:Hb; [|reflexivity].
      assert (existsb (by_email (Py.strip (form_get_or_empty form "email")))
                (docentes (accounts v)) = true) by (apply existsb_exists; eauto).
      congruence. }
  assert (Hcur : current_user_of (after r) = None) by (rewrite Ha; cbn; now rewrite Hanon).
  assert (Hnom : Py.truthy (Py.strip (form_get_or_empty form "nombre")) = true)
    by assumption.
  destruct (strip_first_word _ Hnom) as [w Hw].
  subst r'. unfold login. rewrite Hcur, Hemail, Hpw. cbn. rewrite Hfind. cbn.
  rewrite Hbcrypt. fold nuevo. cbn. rewrite Hw. cbn.
  split; [reflexivity|]. exists nuevo.
  assert (Hnew : ~ In nuevo (docentes (accounts v))).
  { intros Hin. apply (next_id_fresh (List.map Docente.id (docentes (accounts v)))).
    now apply (in_map Docente.id) in Hin. }
  split; [|split; [rewrite Ha; cbn; apply in_or_app; right; now left|split; [exact Hnew|reflexivity]]].
  unfold current_user_of, load_user. cbn. rewrite Ha. cbn. rewrite first_snoc_new.
  - now rewrite Nat.eqb_refl.
  - apply first_None_all. intros d Hd. apply Nat.eqb_neq. intros Heq.
    apply (next_id_fresh (List.map Docente.id (docentes (accounts v)))).
    cbn in Heq. rewrite <- Heq. now apply in_map.
Qed.

Lemma register_then_login_witness :
  let r := register plain_hash int_of_digits (calm 20) "salt" POST ana_form
             (mkVisit seeded None) in
  let r' := login plain_check POST ana_login_form (after r) in
  after r = ana_registered
  /\ shown r' = RedirectTo "dashboard.home"
  /\ exists nuevo,
       current_user_of (after r') = Some nuevo
       /\ In nuevo (docentes (accounts (after r)))
       /\ ~ In nuevo (docentes (accounts (mkVisit seeded None)))
       /\ Docente.email nuevo = Py.strip (form_get_or_empty ana_form "email").
Proof.
  intros r r'. split; [vm_compute; reflexivity|].
  apply (register_then_login plain_hash plain_check int_of_digits (calm 20) "salt" ana_form
           (mkVisit seeded None) ana_login_form).
  - reflexivity.
  - vm_compute. reflexivity.
  - intros password. unfold plain_check. apply String.eqb_refl.
  - vm_compute. reflexivity.
  - vm_compute. reflexivity.
Defined.

(** ** Editing the profile *)

Lemma edit_profile_outcomes gen int E salt m form v cur :
  current_user_of v = Some cur ->
  let r := edit_profile gen int E salt m form v in
  (shown r <> RedirectTo "dashboard.home" /\ after r = v)
  \/ (shown r = RedirectTo "dashboard.home" /\ flashed r = [FlashProfileUpdated] /\ m = POST
      /\ exists carrera,
           valid_carrera int (accounts v) (default_str (form_get form "carrera_id"))
           = CarreraFound carrera
           /\ existsb (clashes_with_other (edited_row gen salt form cur carrera))
                (docentes (accounts v)) = false
           /\ after r
              = mkVisit
                  (mkAccounts (carreras (accounts v))
                     (List.map (replaced_row (edited_row gen salt form cur carrera))
                        (docentes (accounts v))))
                  (user_id v)).
Proof.
  intros Hcur. unfold edit_profile, login_required, commit_docente. rewrite Hcur. cbn zeta.
  destruct m; [left; now split|].
  destruct (negb _); [left; now split|].
  destruct (_ && negb _); [left; now split|].
  destruct (valid_carrera int (accounts v) _) as [c| |] eqn:Hc;
    [|left; now split|left; now split].
  destruct (commit_fault E) as [e|].
  { destruct (is_integrity e); left; now split. }
  fold (edited_password gen salt form cur). fold (edited_row gen salt form cur c).
  destruct (existsb _ _) eqn:Hex; cbn; [left; now split|].
  right. repeat split. exists c. repeat split. exact Hex.
Qed.

Lemma first_map_same {A} (p : A -> bool) (f : A -> A) (l : list A) :
  (forall x, p (f x) = p x) ->
  first p (List.map f l) = option_map f (first p l).
Proof.
  intros Hp. unfold first. induction l as [|x l IH]; simpl; [reflexivity|].
  rewrite Hp. destruct (p x); [reflexivity | exact IH].
Qed.

Lemma replaced_row_id changed d :
  Docente.id (replaced_row changed d) = Docente.id d.
Proof.
  unfold replaced_row. destruct (Nat.eqb_spec (Docente.id d) (Docente.id changed)); congruence.
Qed.

(** X23 (edit_profile, login_required). An anonymous visitor is sent to the
    login page with nothing changed. For a logged-in teacher the session,
    the careers and the ids of the teachers are kept and no row of another
    teacher is added, removed or changed; unless the answer is the
    redirect to the dashboard nothing changes at all; and afterwards the
    teacher's password hash is the old one, or the hash of a non-empty
    password that was given together with an equal confirmation. *)
Theorem edit_profile_changes_own_row gen int E salt m form v :
  let r := edit_profile gen int E salt m form v in
  (current_user_of v = None ->
   shown r = RedirectTo "auth.login" /\ after r = v)
  /\ (forall cur, current_user_of v = Some cur ->
      user_id (after r) = user_id v
      /\ carreras (accounts (after r)) = carreras (accounts v)
      /\ List.map Docente.id (docentes (accounts (after r)))
         = List.map Docente.id (docentes (accounts v))
      /\ (forall d, Docente.id d <> Docente.id cur ->
            In d (docentes (accounts (after r))) <-> In d (docentes (accounts v)))
      /\ (shown r <> RedirectTo "dashboard.home" -> after r = v)
      /\ exists cur',
           current_user_of (after r) = Some cur'
           /\ Docente.id cur' = Docente.id cur
           /\ (Docente.password cur' = Docente.password cur
               \/ exists password,
                    form !! "password" = Some password
                    /\ form !! "confirm_password" = Some password
                    /\ password <> ""
                    /\ Docente.password cur' = gen salt password)).
Proof.
  intros r. split.
  { intros Hcur. subst r. unfold edit_profile, login_required. rewrite Hcur. now split. }
  intros cur Hcur.
  destruct (edit_profile_outcomes gen int E salt m form v cur Hcur)
    as [[Hs Ha]|(Hs & _ & _ & c & _ & _ & Ha)]; fold r in Hs, Ha; clearbody r.
  - rewrite Ha. repeat split; try tauto. exists cur. split; [exact Hcur|]. split; [reflexivity|].
    now left.
  - set (changed := edited_row gen salt form cur c) in *.
    rewrite Ha. cbn.
    split; [reflexivity|]. split; [reflexivity|].
    split. { rewrite List.map_map. apply List.map_ext. intros d. apply replaced_row_id. }
    split.
    { intros d Hd. rewrite in_map_iff. split.
      - intros (x & Hx & Hin). unfold replaced_row in Hx.
        destruct (Nat.eqb (Docente.id x) (Docente.id changed)); [|now subst].
        subst d. now contradiction Hd.
      - intros Hin. exists d. split; [|exact Hin]. unfold replaced_row.
        destruct (Nat.eqb_spec (Docente.id d) (Docente.id changed)) as [Heq|]; [|reflexivity].
        now contradiction Hd. }
    split. { intros Hne. rewrite Hs in Hne. now contradiction Hne. }
    unfold current_user_of, load_user in *. cbn.
    destruct (user_id v) as [uid|]; [|discriminate].
    rewrite (first_map_same _ (replaced_row changed))
      by (intros x; now rewrite replaced_row_id).
    rewrite Hcur. cbn. exists (replaced_row changed cur).
    split; [reflexivity|]. split; [apply replaced_row_id|].
    unfold replaced_row. cbn. rewrite Nat.eqb_refl. cbn. unfold edited_password, form_get, given.
    destruct (form !! "password") as [pw|] eqn:Hpw; cbn; [|now left].
    destruct (Py.truthy pw) eqn:Ht; cbn; [|now left].
    destruct (bool_decide_reflect (Some pw = form !! "confirm_password")) as [Heq|]; [|now left].
    right. exists pw. repeat split; [now symmetry|]. intros ->. discriminate Ht.
Qed.

(** ** Unique accounts; the login gate of the file routes *)

Lemma replaced_absent changed l :
  ~ In (Docente.id changed) (List.map Docente.id l) ->
  List.map (replaced_row changed) l = l.
Proof.
  induction l as [|x l IH]; simpl; [reflexivity|]. intros Hn.
  unfold replaced_row at 1.
  destruct (Nat.eqb_spec (Docente.id x) (Docente.id changed)) as [Heq|Hne]; [tauto|].
  f_equal. apply IH. tauto.
Qed.

Lemma replaced_keys {B} (key : Docente.t -> B) changed l k :
  In k (List.map key (List.map (replaced_row changed) l)) ->
  k = key changed \/ In k (List.map key l).
Proof.
  rewrite List.map_map, !in_map_iff. intros (x & Hk & Hx). unfold replaced_row in Hk.
  destruct (Nat.eqb (Docente.id x) (Docente.id changed)); [now left|]. right. eauto.
Qed.

Lemma replaced_unique {B} (key : Docente.t -> B) changed l :
  NoDup (List.map Docente.id l) -> NoDup (List.map key l) ->
  (forall x, In x l -> Docente.id x <> Docente.id changed -> key x <> key changed) ->
  NoDup (List.map key (List.map (replaced_row changed) l)).
Proof.
  induction l as [|x l IH]; simpl; [constructor|].
  rewrite !NoDup_cons, !list_elem_of_In. intros [Hxid Hid] [Hxk Hk] Hother.
  unfold replaced_row at 1.
  destruct (Nat.eqb_spec (Docente.id x) (Docente.id changed)) as [Heq|Hne].
  - rewrite replaced_absent by now rewrite <- Heq.
    split; [|exact Hk]. intros Hin. apply in_map_iff in Hin as (y & Hy & Hyin).
    apply (Hother y); [now right| |exact Hy].
    intros Hyid. apply Hxid. rewrite Heq, <- Hyid. now apply in_map.
  - split; [|apply IH; auto].
    intros Hin. apply replaced_keys in Hin as [Hc|Hin]; [|tauto].
    now apply (Hother x); [left| |].
Qed.

Lemma no_clash_keys changed l :
  existsb (clashes_with_other changed) l = false ->
  forall x, In x l -> Docente.id x <> Docente.id changed ->
    Docente.numero_nomina x <> Docente.numero_nomina changed
    /\ Docente.email x <> Docente.email changed.
Proof.
  intros He x Hx Hid.
  assert (Hc : clashes_with_other changed x = false).
  { destruct (clashes_with_other changed x) eqn:Hc; [|reflexivity].
    assert (existsb (clashes_with_other changed) l = true) by (apply existsb_exists; eauto).
    congruence. }
  unfold clashes_with_other, by_nomina, by_email in Hc.
  apply Nat.eqb_neq in Hid. rewrite Hid in Hc. cbn in Hc.
  apply orb_false_iff in Hc as [Hn Hm]. apply String.eqb_neq in Hn, Hm. now split.
Qed.

(** X25 (register, edit_profile, login, logout). The account routes keep
    teacher ids, payroll numbers and emails unique. *)
Theorem account_routes_keep_unique gen chk int E salt m form v :
  accounts_unique (accounts v) ->
  accounts_unique (accounts (after (register gen int E salt m form v)))
  /\ accounts_unique (accounts (after (edit_profile gen int E salt m form v)))
  /\ accounts_unique (accounts (after (login chk m form v)))
  /\ accounts_unique (accounts (after (logout v))).
Proof.
  intros Hu. split; [|split; [|split]].
  - destruct (register_outcomes gen int E salt m form v)
      as [(_ & Ha & _)|(_ & _ & _ & _ & Hn & He & c & _ & Ha)]; rewrite Ha; [exact Hu|].
    destruct Hu as [U1 U2 U3].
    split; cbn; apply NoDup_map_snoc; try assumption.
    + apply next_id_fresh.
    + apply (existsb_false_not_in Docente.numero_nomina
               (by_nomina (Py.strip (form_get_or_empty form "numero_nomina")))); [|exact Hn].
      intros x Hx. cbn in Hx. unfold by_nomina. rewrite Hx. apply String.eqb_refl.
    + apply (existsb_false_not_in Docente.email
               (by_email (Py.strip (form_get_or_empty form "email")))); [|exact He].
      intros x Hx. cbn in Hx. unfold by_email. rewrite Hx. apply String.eqb_refl.
  - destruct (current_user_of v) as [cur|] eqn:Hcur.
    + destruct (edit_profile_outcomes gen int E salt m form v cur Hcur)
        as [[_ Ha]|(_ & _ & _ & c & _ & Hex & Ha)]; rewrite Ha; [exact Hu|].
      destruct Hu as [U1 U2 U3]. pose proof (no_clash_keys _ _ Hex) as Hk.
      split; cbn.
      * rewrite List.map_map.
        erewrite List.map_ext; [exact U1|]. intros d. apply replaced_row_id.
      * apply replaced_unique; auto. intros x Hx Hid. now apply Hk.
      * apply replaced_unique; auto. intros x Hx Hid. now apply Hk.
    + unfold edit_profile, login_required. now rewrite Hcur.
  - destruct (login_cases chk m form v) as [Ha|(_ & _ & d & pw & _ & _ & _ & _ & Ha)];
      cbn zeta in Ha; now rewrite Ha.
  - unfold logout, login_required. now destruct (current_user_of v).
Qed.

Lemma account_routes_keep_unique_witness :
  let r := edit_profile plain_hash int_of_digits (calm 20) "salt" POST luz_new_email
             (ana_and_luz (Some 2)) in
  List.map Docente.email (docentes (accounts (after r)))
  = ["ana@unistmo.mx"; "luz.mar@unistmo.mx"]
  /\ accounts_unique (accounts (after r)).
Proof.
  intros r. split; [vm_compute; reflexivity|].
  apply (account_routes_keep_unique plain_hash plain_check int_of_digits (calm 20) "salt" POST
           luz_new_email (ana_and_luz (Some 2))).
  split; simpl; apply NoDup_ListNoDup;
    repeat (apply List.NoDup_cons; [simpl; intuition discriminate|]); apply List.NoDup_nil.
Defined.

(** X26 (login_required on the routes of files.py, login, logout). A
    visitor without a valid session gets no answer from a data route of
    files.py, and so does anyone right after logout. After a login that
    changes the session, the form's email and password belong to a stored
    teacher whose hash they pass, and file requests run under the id of
    that teacher. *)
Theorem files_need_login secure_filename strftime chk E m form v rq w :
  (current_user_of v = None -> files_request secure_filename strftime E v rq w = None)
  /\ files_request secure_filename strftime E (after (logout v)) rq w = None
  /\ (user_id (after (login chk m form v)) <> user_id v ->
      exists d password,
        In d (docentes (accounts v))
        /\ form !! "email" = Some (Docente.email d)
        /\ form !! "password" = Some password
        /\ chk (Docente.password d) password = true
        /\ files_request secure_filename strftime E (after (login chk m form v)) rq w
           = Some (run_request (route secure_filename strftime E (Docente.id d) rq) w)).
Proof.
  split; [|split].
  - intros Hcur. unfold files_request, login_required. now rewrite Hcur.
  - unfold files_request, logout, login_required.
    destruct (current_user_of v) eqn:Hcur; cbn; [reflexivity | now rewrite Hcur].
  - intros Hne.
    destruct (login_cases chk m form v)
      as [Ha|(_ & _ & d & pw & Hd & Hem & Hpw & Hchk & Ha)];
      cbn zeta in Ha; rewrite Ha in *; [now contradiction Hne|].
    apply first_Some_In in Hd as [Hin _].
    exists d, pw. repeat (split; [assumption|]).
    unfold files_request, login_required, current_user_of, load_user. cbn.
    destruct (first _ _) as [d'|] eqn:Hd'.
    + apply first_Some_In in Hd' as [_ Hp]. apply Nat.eqb_eq in Hp. now rewrite Hp.
    + exfalso. pose proof (proj1 (first_None_all _ _) Hd') as Hall.
      specialize (Hall d Hin). cbn in Hall. now rewrite Nat.eqb_refl in Hall.
Qed.

(** ** The conflict messages of edit_profile *)





